(** * charities-uk: the request core, the regulator clients and their transforms

    A shallow embedding of the TypeScript sources
    - [src/utils/http.ts]            (transport: one exchange, bounded retry),
    - [src/core/errors.ts]           (the error taxonomy),
    - [src/core/base-client.ts]      (request core, query strings, cache access),
    - [src/clients/{ccew,ccni,oscr}] (clients and transforms),
    followed by the properties the specification states about them.

    Conventions.  JavaScript strings are modelled as byte strings ([string]);
    numbers that the code only moves around or compares are integers ([Z]),
    with [JSNum] where the code can produce [NaN] or an infinity.  [undefined]
    is [None] of an [option]; [null] is [JNull] on the wire and [None] in the
    normalized record.  Promises are sequenced computations in the monad [M],
    whose state is the observable world (network log, clock, console, cache). *)

From Stdlib Require Import ZArith List String Ascii Bool Lia Arith DecimalString.
Import ListNotations.
Local Open Scope string_scope.
Local Open Scope Z_scope.

Set Implicit Arguments.
Set Warnings "-register-all".

(* ================================================================== *)
(** ** Strings as the code uses them *)

Module Str.

Definition is_digit (c : ascii) : bool :=
  let n := nat_of_ascii c in (48 <=? n)%nat && (n <=? 57)%nat.

Definition is_lower (c : ascii) : bool :=
  let n := nat_of_ascii c in (97 <=? n)%nat && (n <=? 122)%nat.

Definition is_upper (c : ascii) : bool :=
  let n := nat_of_ascii c in (65 <=? n)%nat && (n <=? 90)%nat.

Definition is_alnum (c : ascii) : bool := is_digit c || is_lower c || is_upper c.

Definition upper_char (c : ascii) : ascii :=
  if is_lower c then ascii_of_nat (nat_of_ascii c - 32) else c.

Definition lower_char (c : ascii) : ascii :=
  if is_upper c then ascii_of_nat (nat_of_ascii c + 32) else c.

(** [s.toUpperCase()] and [s.toLowerCase()] on the ASCII letters. *)
Fixpoint toUpperCase (s : string) : string :=
  match s with
  | EmptyString => EmptyString
  | String c r => String (upper_char c) (toUpperCase r)
  end.

Fixpoint toLowerCase (s : string) : string :=
  match s with
  | EmptyString => EmptyString
  | String c r => String (lower_char c) (toLowerCase r)
  end.

(** [s.startsWith(p)]. *)
Fixpoint startsWith (p s : string) : bool :=
  match p, s with
  | EmptyString, _ => true
  | String a p', String b s' => Ascii.eqb a b && startsWith p' s'
  | String _ _, EmptyString => false
  end.

(** [s.includes(p)]. *)
Fixpoint includes (p s : string) : bool :=
  startsWith p s ||
  match s with
  | EmptyString => false
  | String _ s' => includes p s'
  end.

Fixpoint filter (f : ascii -> bool) (s : string) : string :=
  match s with
  | EmptyString => EmptyString
  | String c r => if f c then String c (filter f r) else filter f r
  end.

Fixpoint forallb (f : ascii -> bool) (s : string) : bool :=
  match s with
  | EmptyString => true
  | String c r => f c && forallb f r
  end.

Fixpoint drop (n : nat) (s : string) : string :=
  match n, s with
  | O, _ => s
  | S n', String _ r => drop n' r
  | S _, EmptyString => EmptyString
  end.

Definition is_empty (s : string) : bool :=
  match s with EmptyString => true | _ => false end.

(** [parts.join(sep)]. *)
Fixpoint join (sep : string) (parts : list string) : string :=
  match parts with
  | [] => ""
  | [x] => x
  | x :: rest => x ++ sep ++ join sep rest
  end.

(** Decimal rendering of an integer, as [String(n)] gives it for
    magnitudes below [1e21]. *)
Definition of_Z (n : Z) : string := NilZero.string_of_int (Z.to_int n).

End Str.

(* ================================================================== *)
(** ** JavaScript numbers that may leave the integers *)

Inductive JSNum : Type :=
| Fin (n : Z)
| NaN
| PosInf
| NegInf.

Definition isNaN (x : JSNum) : bool :=
  match x with NaN => true | _ => false end.

(** Truthiness of a number: [0] and [NaN] are falsy. *)
Definition num_truthy (x : JSNum) : bool :=
  match x with
  | Fin n => negb (n =? 0)
  | NaN => false
  | PosInf | NegInf => true
  end.

(* ================================================================== *)
(** ** JSON values and property access *)

(** What [JSON.parse] produces.  An object keeps its properties in the
    order of the text, each name once.  A number is an integer: the counts,
    amounts and registration numbers of the three registers are; a payload
    with a fractional number has no counterpart here, and nothing below is
    about one. *)
Inductive json : Type :=
| JNull
| JBool (b : bool)
| JNum (n : Z)
| JStr (s : string)
| JArr (items : list json)
| JObj (props : list (string * json)).

(** A JavaScript value read out of a payload: [None] is [undefined]. *)
Definition jsval : Type := option json.

Fixpoint assoc {A} (k : string) (l : list (string * A)) : option A :=
  match l with
  | [] => None
  | (k', v) :: r => if String.eqb k k' then Some v else assoc k r
  end.

(** [v.k] on a value that is not [null] or [undefined]: a missing property,
    and any named property of a primitive or an array, is [undefined]. *)
Definition prop (k : string) (v : json) : jsval :=
  match v with
  | JObj props => assoc k props
  | _ => None
  end.

Notation "v @ k" := (prop k v) (at level 9, k at level 0, format "v @ k").

(** Truthiness, as [!v], [v || w] and [v ? a : b] test it. *)
Definition truthy (v : jsval) : bool :=
  match v with
  | None | Some JNull => false
  | Some (JBool b) => b
  | Some (JNum n) => negb (n =? 0)
  | Some (JStr s) => negb (Str.is_empty s)
  | Some (JArr _) | Some (JObj _) => true
  end.

(** [String(v)] and template interpolation. *)
Fixpoint js_to_string (v : json) : string :=
  match v with
  | JNull => "null"
  | JBool true => "true"
  | JBool false => "false"
  | JNum n => Str.of_Z n
  | JStr s => s
  | JArr items =>
      Str.join ","
        (map (fun i => match i with JNull => "" | _ => js_to_string i end) items)
  | JObj _ => "[object Object]"
  end.

Definition to_string (v : jsval) : string :=
  match v with
  | None => "undefined"
  | Some j => js_to_string j
  end.

(** *** Reading a property at its declared type

    TypeScript erases the casts [response.data as T]; the transforms then read
    each property at the type the raw interface declares.  The readers below
    do the same: a property holding a value of the declared type is returned,
    anything else is read as absent. *)

(** [raw.x] for [x: string]. *)
Definition as_string (v : jsval) : string :=
  match v with Some (JStr s) => s | _ => "" end.

(** [raw.x] for [x: string | undefined]. *)
Definition as_opt_string (v : jsval) : option string :=
  match v with Some (JStr s) => Some s | _ => None end.

(** [raw.x || null] for [x: string | null]. *)
Definition str_or_null (v : jsval) : option string :=
  match v with
  | Some (JStr s) => if Str.is_empty s then None else Some s
  | _ => None
  end.

(** [raw.x ?? null] for [x: number | null]. *)
Definition num_or_null (v : jsval) : option Z :=
  match v with Some (JNum n) => Some n | _ => None end.

(** [raw.x] for [x: number], where arithmetic may follow. *)
Definition as_number (v : jsval) : JSNum :=
  match v with Some (JNum n) => Fin n | _ => NaN end.

(** [raw.x] for [x: boolean]. *)
Definition as_bool (v : jsval) : bool :=
  match v with Some (JBool b) => b | _ => false end.

(** [raw.x ?? []] for an array-valued property. *)
Definition as_array (v : jsval) : list json :=
  match v with Some (JArr items) => items | _ => [] end.

(** [raw.x ?? []] for [x: string[]]. *)
Definition as_strings (v : jsval) : list string :=
  map (fun i => as_string (Some i)) (as_array v).

(* ================================================================== *)
(** ** Plain objects: own properties and their enumeration order *)

Module Obj.

(** An object literal or a [Record<string, V>] built by assignments:
    properties in the order in which their names were first set. *)
Definition t (V : Type) : Type := list (string * V).

(** [o[k] = v]: an existing property keeps its place. *)
Fixpoint set {V} (k : string) (v : V) (o : t V) : t V :=
  match o with
  | [] => [(k, v)]
  | (k', v') :: r =>
      if String.eqb k k' then (k, v) :: r else (k', v') :: set k v r
  end.

(** [{...a, ...b}] onto an accumulated object. *)
Definition spread {V} (acc o : t V) : t V :=
  fold_left (fun a kv => set (fst kv) (snd kv) a) o acc.

(** The object an ordered list of [name: value] entries denotes. *)
Definition literal {V} (entries : list (string * V)) : t V := spread [] entries.

Fixpoint digits_value (s : string) (acc : Z) : Z :=
  match s with
  | EmptyString => acc
  | String c r => digits_value r (10 * acc + (Z.of_nat (nat_of_ascii c) - 48))
  end.

(** An array index: the canonical decimal form of an integer below
    [2^32 - 1].  Such property names are enumerated first. *)
Definition array_index (k : string) : option Z :=
  match k with
  | EmptyString => None
  | String c r =>
      if Str.forallb Str.is_digit k
         && (Str.is_empty r || negb (Ascii.eqb c "0"%char))
         && (Nat.leb (String.length k) 10)
      then
        let n := digits_value k 0 in
        if n <? 4294967295 then Some n else None
      else None
  end.

Fixpoint insert_index {V} (n : Z) (kv : string * V)
         (l : list (Z * (string * V))) : list (Z * (string * V)) :=
  match l with
  | [] => [(n, kv)]
  | (m, kv') :: r =>
      if n <? m then (n, kv) :: l else (m, kv') :: insert_index n kv r
  end.

Fixpoint index_entries {V} (o : t V) : list (Z * (string * V)) :=
  match o with
  | [] => []
  | (k, v) :: r =>
      match array_index k with
      | Some n => insert_index n (k, v) (index_entries r)
      | None => index_entries r
      end
  end.

Definition named_entries {V} (o : t V) : t V :=
  List.filter (fun kv => match array_index (fst kv) with
                         | None => true | Some _ => false end) o.

(** [Object.entries(o)]: array-index names in ascending numeric order,
    then the other names in the order they were created. *)
Definition entries {V} (o : t V) : list (string * V) :=
  map snd (index_entries o) ++ named_entries o.

End Obj.

(* ================================================================== *)
(** ** Normalized types ([src/types/charity.ts], [src/types/search.ts]) *)

(** A [Date]: milliseconds since the epoch. *)
Definition Date : Type := Z.

Inductive Regulator : Type := CCEW | OSCR | CCNI.

Definition regulator_name (r : Regulator) : string :=
  match r with CCEW => "CCEW" | OSCR => "OSCR" | CCNI => "CCNI" end.

Inductive CharityStatus : Type :=
| ACTIVE
| REMOVED
| IN_DEFAULT
| LATE
| RECENTLY_REGISTERED.

(** The normalized record returned by every client. *)
Record Charity : Type := mkCharity {
  (* Identifiers *)
  id : string;
  regulator : Regulator;
  registrationNumber : string;
  subsidiaryNumber : option string;
  companyNumber : option string;
  (* Core info *)
  name : string;
  otherNames : list string;
  status : CharityStatus;
  registeredDate : option Date;
  removedDate : option Date;
  (* Contact *)
  website : option string;
  email : option string;
  phone : option string;
  address : option string;
  (* Financial (latest year) *)
  latestIncome : option Z;
  latestExpenditure : option Z;
  financialYearEnd : option Date;
  (* People *)
  employeeCount : option Z;
  volunteerCount : option Z;
  trusteeCount : option Z;
  (* Classification *)
  purposes : list string;
  beneficiaries : list string;
  activities : list string;
  areasOfOperation : list string;
  (* Governance *)
  organisationType : option string;
  governingDocumentType : option string;
  (* Extended text *)
  charitableObjects : option string;
  publicBenefit : option string;
  activityDescription : option string;
  (* Raw data passthrough *)
  _raw : json
}.

Record Trustee : Type := mkTrustee {
  trustee_name : string;
  isChair : bool;
  otherTrusteeships : option (list string)
}.

(** [yearEnd] is [None] for an invalid [Date]. *)
Record FinancialYear : Type := mkFinancialYear {
  yearEnd : option Date;
  income : JSNum;
  expenditure : JSNum
}.

Record OtherRegulatorInfo : Type := mkOtherRegulatorInfo {
  other_regulator : Regulator;
  other_registrationNumber : string
}.

Record AggregationBucket : Type := mkAggregationBucket {
  bucket_value : string;
  bucket_label : string;
  bucket_count : JSNum
}.

Definition SearchAggregations : Type := Obj.t (list AggregationBucket).

Record SearchQuery : Type := mkSearchQuery {
  q_text : option string;
  q_page : option Z;
  q_pageSize : option Z;
  q_filters : option (Obj.t string)
}.

Definition empty_query : SearchQuery := mkSearchQuery None None None None.

Record SearchResult (T : Type) : Type := mkSearchResult {
  items : list T;
  total : JSNum;
  page : JSNum;
  pageSize : JSNum;
  totalPages : JSNum;
  aggregations : option SearchAggregations
}.

Record CacheConfig : Type := mkCacheConfig {
  cfg_enabled : option bool;
  cfg_ttl : option Z;
  cfg_maxSize : option nat
}.

Record ClientConfig : Type := mkClientConfig {
  cfg_apiKey : option string;
  cfg_baseUrl : option string;
  cfg_timeout : option Z;
  cfg_retryAttempts : option nat;
  cfg_retryDelay : option Z;
  cfg_cache : option CacheConfig
}.

Definition empty_config : ClientConfig :=
  mkClientConfig None None None None None None.

(** [a ?? b]. *)
Definition nullish {A} (a : option A) (b : A) : A :=
  match a with Some x => x | None => b end.

Notation "a ?? b" := (nullish a b) (at level 61, left associativity).

(* ================================================================== *)
(** ** The bounded cache *)

(** Modelled from the spec: the [lru-cache] package the request core
    instantiates is a dependency outside the repository.  Section 4.3 gives
    its contract: [get], [set] and [clear]; capacity-bounded with
    least-recently-used eviction; entries expire a fixed time-to-live after
    they were stored, independent of access; a stored [null] is a value like
    any other. *)
Module LRUCache.

Record entry (V : Type) : Type := mkEntry {
  key : string;
  value : V;
  stored_at : Z
}.

(** Most recently used first. *)
Record t (V : Type) : Type := mk {
  max : nat;
  ttl : Z;
  entries : list (entry V)
}.

Definition create {V} (max : nat) (ttl : Z) : t V := mk max ttl [].

Definition fresh {V} (c : t V) (now : Z) (e : entry V) : bool :=
  now <? stored_at e + ttl c.

Definition without {V} (k : string) (l : list (entry V)) : list (entry V) :=
  List.filter (fun e => negb (String.eqb k (key e))) l.

Definition find {V} (k : string) (l : list (entry V)) : option (entry V) :=
  List.find (fun e => String.eqb k (key e)) l.

(** [cache.get(k)]: a live entry is returned and becomes the most recently
    used; an expired one is dropped. *)
Definition get {V} (k : string) (now : Z) (c : t V) : option V * t V :=
  match find k (entries c) with
  | None => (None, c)
  | Some e =>
      if fresh c now e
      then (Some (value e), mk (max c) (ttl c) (e :: without k (entries c)))
      else (None, mk (max c) (ttl c) (without k (entries c)))
  end.

(** [cache.set(k, v)]: the entry becomes the most recently used; the least
    recently used ones beyond the capacity are evicted. *)
Definition set {V} (k : string) (v : V) (now : Z) (c : t V) : t V :=
  mk (max c) (ttl c)
     (firstn (max c) (mkEntry k v now :: without k (entries c))).

Definition clear {V} (c : t V) : t V := mk (max c) (ttl c) [].

End LRUCache.

(* ================================================================== *)
(** ** Response headers *)

Module Headers.

Definition t : Type := list (string * string).

(** [headers.get(name)]: names compare without case; several values of one
    name are joined; [None] is the [null] of an absent header. *)
Definition get (name : string) (h : t) : option string :=
  match List.filter
          (fun kv => String.eqb (Str.toLowerCase (fst kv)) (Str.toLowerCase name)) h
  with
  | [] => None
  | found => Some (Str.join ", " (map snd found))
  end.

End Headers.

(* ================================================================== *)
(** ** [parseInt(s, 10)] *)

Module ParseInt.

Definition is_space (c : ascii) : bool :=
  let n := nat_of_ascii c in
  ((9 <=? n)%nat && (n <=? 13)%nat) || (n =? 32)%nat.

Fixpoint skip_spaces (s : string) : string :=
  match s with
  | String c r => if is_space c then skip_spaces r else s
  | EmptyString => s
  end.

(** The leading decimal digits, most significant first, with their value. *)
Fixpoint digits (s : string) (seen : bool) (acc : Z) : option Z :=
  match s with
  | String c r =>
      if Str.is_digit c
      then digits r true (10 * acc + (Z.of_nat (nat_of_ascii c) - 48))
      else if seen then Some acc else None
  | EmptyString => if seen then Some acc else None
  end.

Definition parseInt (s : string) : JSNum :=
  let t := skip_spaces s in
  let '(sign, body) :=
    match t with
    | String "-" r => (-1, r)
    | String "+" r => (1, r)
    | _ => (1, t)
    end in
  match digits body false 0 with
  | Some n => Fin (sign * n)
  | None => NaN
  end.

End ParseInt.

(* ================================================================== *)
(** ** The error taxonomy ([src/core/errors.ts]) *)

(** A plain [Error] value: what [fetch] rejects with, what a constructor or
    the runtime throws. *)
Record JSError : Type := mkJSError {
  err_name : string;
  err_message : string
}.

(** Everything the library can throw.  The first five are the classes
    deriving from [CharityApiError]. *)
Inductive Exn : Type :=
| CharityNotFoundError (charity_id : option string)
| RateLimitError (retryAfter : option JSNum)
| AuthenticationError (status : Z) (statusText : string)
| NetworkError (cause : JSError)
| ApiError (status : Z) (statusText : string) (body : string)
| PlainError (e : JSError).

Module Errors.

(** [new RateLimitError(response)]: the three statements of the
    constructor that set [retryAfter]. *)
Definition new_RateLimitError (response : option Headers.t) : Exn :=
  match response with
  | None => RateLimitError None
  | Some headers =>
      let retryAfterHeader := Headers.get "Retry-After" headers in
      let retryAfter : option JSNum :=
        match retryAfterHeader with
        | Some h => if Str.is_empty h then None else Some (ParseInt.parseInt h)
        | None => None
        end in
      (* if (this.retryAfter && isNaN(this.retryAfter)) this.retryAfter = undefined *)
      let guard :=
        match retryAfter with
        | Some n => num_truthy n && isNaN n
        | None => false
        end in
      RateLimitError (if guard then None else retryAfter)
  end.

Definition message (e : Exn) : string :=
  match e with
  | CharityNotFoundError (Some i) =>
      if Str.is_empty i then "Charity not found" else "Charity not found: " ++ i
  | CharityNotFoundError None => "Charity not found"
  | RateLimitError _ => "Rate limit exceeded"
  | AuthenticationError s t =>
      "Authentication failed: " ++ Str.of_Z s ++ " " ++ t
  | NetworkError c => "Network error: " ++ err_message c
  | ApiError s t b =>
      if Str.is_empty b
      then "API error: " ++ Str.of_Z s ++ " " ++ t
      else "API error: " ++ Str.of_Z s ++ " " ++ t ++ " - " ++ b
  | PlainError e => err_message e
  end.

Definition name (e : Exn) : string :=
  match e with
  | CharityNotFoundError _ => "CharityNotFoundError"
  | RateLimitError _ => "RateLimitError"
  | AuthenticationError _ _ => "AuthenticationError"
  | NetworkError _ => "NetworkError"
  | ApiError _ _ _ => "ApiError"
  | PlainError e => err_name e
  end.

(** [e instanceof CharityNotFoundError], [e instanceof AuthenticationError]. *)
Definition is_CharityNotFoundError (e : Exn) : bool :=
  match e with CharityNotFoundError _ => true | _ => false end.

Definition is_AuthenticationError (e : Exn) : bool :=
  match e with AuthenticationError _ _ => true | _ => false end.

End Errors.

(* ================================================================== *)
(** ** The platform and the observable world *)

Module Http.

Inductive Method : Type := GET | POST | PUT | DELETE | PATCH.

(** One invocation of [fetch(url, init)], with the timeout after which
    the abort signal fires. *)
Record Request : Type := mkRequest {
  url : string;
  method : Method;
  req_headers : Obj.t string;
  req_body : option string;
  timeout : Z
}.

(** A [Response] as [fetch] resolves it, its text already read. *)
Record Response : Type := mkResponse {
  status : Z;
  statusText : string;
  headers : Headers.t;
  text : string
}.

(** [response.ok]: the status is in the range 200-299. *)
Definition ok (r : Response) : bool := (200 <=? status r) && (status r <=? 299).

(** [fetch] resolves with a response or rejects with an error; an abort
    by the timeout is a rejection named [AbortError]. *)
Inductive FetchOutcome : Type :=
| Resolves (r : Response)
| Rejects (e : JSError).

(** The [HttpResponse<T>] wrapper handed upward. *)
Record HttpResponse : Type := mkHttpResponse {
  r_ok : bool;
  r_status : Z;
  r_statusText : string;
  r_headers : Headers.t;
  data : json;
  raw : string
}.

End Http.

(** What the runtime provides.  [fetch] is consulted with the number of
    invocations made before, so an upstream may answer differently each
    time; [JSON_parse] is [None] where [JSON.parse] throws; [Date_parse] is
    [None] where [new Date(s)] is an invalid date; [Array_sort] is the order
    in which the engine's [Array.prototype.sort] leaves an array when the
    comparison function is not a consistent one, which the language leaves
    to the implementation; [double_ceil_quotient x y] and [double_product x y]
    are the doubles the engine computes for [Math.ceil(x / y)] and [x * y]
    where an operand or the product lies beyond the integers a double holds
    exactly. *)
Class Platform : Type := mkPlatform {
  fetch : nat -> Http.Request -> Http.FetchOutcome;
  JSON_parse : string -> option json;
  JSON_stringify : json -> string;
  Date_parse : string -> option Date;
  Array_sort : (json -> json -> Z) -> list json -> list json;
  double_ceil_quotient : Z -> Z -> JSNum;
  double_product : Z -> Z -> JSNum
}.

(** The state a call can observe or change. *)
Record World : Type := mkWorld {
  fetch_calls : list Http.Request;  (** invocations of [fetch], oldest first *)
  slept : list Z;                   (** delays waited out, oldest first *)
  clock : Z;                        (** the current time in milliseconds *)
  console_warn : list string;       (** lines given to [console.warn] *)
  cache : option (LRUCache.t (option Charity))
                                    (** the client's cache; [None] when disabled *)
}.

(** *** Asynchronous computations that may throw *)

Inductive Outcome (A : Type) : Type :=
| Returns (a : A)
| Throws (e : Exn).

Arguments Throws {A} e.

Definition M (A : Type) : Type := World -> Outcome A * World.

Definition ret {A} (a : A) : M A := fun w => (Returns a, w).

Definition throw {A} (e : Exn) : M A := fun w => (Throws e, w).

Definition bind {A B} (c : M A) (k : A -> M B) : M B :=
  fun w =>
    match c w with
    | (Returns a, w') => k a w'
    | (Throws e, w') => (Throws e, w')
    end.

(** [try { c } catch (error) { handler }]. *)
Definition try_catch {A} (c : M A) (handler : Exn -> M A) : M A :=
  fun w =>
    match c w with
    | (Returns a, w') => (Returns a, w')
    | (Throws e, w') => handler e w'
    end.

Notation "x <- c ;; k" := (bind c (fun x => k))
  (at level 100, c at next level, right associativity).

Notation "c ;;; k" := (bind c (fun _ => k))
  (at level 100, right associativity).

(** Synchronous code that may throw, in sequence. *)
Definition and_then {A B} (o : Outcome A) (k : A -> Outcome B) : Outcome B :=
  match o with
  | Returns a => k a
  | Throws e => Throws e
  end.

(** What the runtime throws when a value is used against its type. *)
Definition TypeError (message : string) : Exn :=
  PlainError (mkJSError "TypeError" message).

(* ================================================================== *)
(** ** Arithmetic on the numbers of a payload *)

(** [Number.MAX_SAFE_INTEGER]: up to this magnitude every integer is a
    double, and the numbers of a payload are integers here. *)
Definition MAX_SAFE_INTEGER : Z := 2 ^ 53 - 1.

Definition safe (x : Z) : bool := Z.abs x <=? MAX_SAFE_INTEGER.

Section Arithmetic.
Context {P : Platform}.

(** [Math.ceil(a / b)].  The quotient of two safe integers is rounded to a
    double that lies strictly between the same two integers as the exact
    quotient, or is the exact quotient when that is an integer, so the
    ceiling is the exact one; beyond that range the rounding decides. *)
Definition ceil_div (a b : JSNum) : JSNum :=
  match a, b with
  | Fin x, Fin y =>
      if y =? 0 then
        if x =? 0 then NaN else if 0 <? x then PosInf else NegInf
      else if safe x && safe y then Fin (- ((- x) / y))
      else double_ceil_quotient x y
  | NaN, _ | _, NaN => NaN
  | PosInf, Fin y => if 0 <=? y then PosInf else NegInf
  | NegInf, Fin y => if 0 <=? y then NegInf else PosInf
  | Fin _, (PosInf | NegInf) => Fin 0
  | _, _ => NaN
  end.

(** [a * b] where both are numbers: exact when the product is a safe
    integer. *)
Definition num_mul (a b : JSNum) : JSNum :=
  match a, b with
  | Fin x, Fin y => if safe (x * y) then Fin (x * y) else double_product x y
  | NaN, _ | _, NaN => NaN
  | (PosInf | NegInf), Fin 0 | Fin 0, (PosInf | NegInf) => NaN
  | PosInf, Fin y => if 0 <? y then PosInf else NegInf
  | NegInf, Fin y => if 0 <? y then NegInf else PosInf
  | Fin x, PosInf => if 0 <? x then PosInf else NegInf
  | Fin x, NegInf => if 0 <? x then NegInf else PosInf
  | PosInf, PosInf | NegInf, NegInf => PosInf
  | PosInf, NegInf | NegInf, PosInf => NegInf
  end.

End Arithmetic.

Definition fetches (w : World) : nat := List.length (fetch_calls w).

Definition console_warn_line (line : string) : M unit :=
  fun w => (Returns tt,
            mkWorld (fetch_calls w) (slept w) (clock w)
                    (console_warn w ++ [line]) (cache w)).

(** [await sleep(ms)]. *)
Definition sleep (ms : Z) : M unit :=
  fun w => (Returns tt,
            mkWorld (fetch_calls w) (slept w ++ [ms]) (clock w + ms)
                    (console_warn w) (cache w)).

(* ================================================================== *)
(** ** Transport ([src/utils/http.ts]) *)

Module Transport.

Import Http.

Record RetryConfig : Type := mkRetryConfig {
  maxRetries : nat;
  delayMs : Z;
  exponentialBackoff : option bool;
  maxDelayMs : option Z
}.

Definition DEFAULT_RETRY_CONFIG : RetryConfig :=
  mkRetryConfig 3 1000 (Some true) (Some 10000).

(** [Partial<RetryConfig>]: [None] is a property that is not given. *)
Record RetryOverrides : Type := mkRetryOverrides {
  o_maxRetries : option nat;
  o_delayMs : option Z;
  o_exponentialBackoff : option bool;
  o_maxDelayMs : option Z
}.

Definition no_overrides : RetryOverrides := mkRetryOverrides None None None None.

(** [{ ...DEFAULT_RETRY_CONFIG, ...retryOverrides }]. *)
Definition merge_retry (o : RetryOverrides) : RetryConfig :=
  mkRetryConfig
    (o_maxRetries o ?? maxRetries DEFAULT_RETRY_CONFIG)
    (o_delayMs o ?? delayMs DEFAULT_RETRY_CONFIG)
    (match o_exponentialBackoff o with
     | Some b => Some b
     | None => exponentialBackoff DEFAULT_RETRY_CONFIG
     end)
    (match o_maxDelayMs o with
     | Some d => Some d
     | None => maxDelayMs DEFAULT_RETRY_CONFIG
     end).

Inductive Body : Type :=
| BodyText (s : string)
| BodyObject (j : json).

Record HttpRequestOptions : Type := mkOptions {
  opt_method : option Method;
  opt_headers : option (Obj.t string);
  opt_body : option Body;
  opt_timeout : option Z;
  opt_retry : option RetryOverrides
}.

Definition no_options : HttpRequestOptions := mkOptions None None None None None.

(** Determine if a status is retryable. *)
Definition isRetryable (status : Z) : bool :=
  (500 <=? status) || (status =? 408) || (status =? 429) || (status =? 0).

(** Delay before the retry that follows attempt number [attempt].  With a
    positive base delay the integers agree with the doubles of the source:
    a product with a power of two is exact, and one too large for a double
    is [Infinity], which the minimum with [maxDelayMs] removes as it
    removes the large integer here.  With a base delay of zero the source
    has [0 * Infinity], that is [NaN], from attempt 1024 on, where the
    integers give 0; [setTimeout] waits the same for both. *)
Definition calculateDelay (attempt : nat) (config : RetryConfig) : Z :=
  let baseDelay := delayMs config in
  if exponentialBackoff config ?? false then
    let delay := baseDelay * 2 ^ Z.of_nat attempt in
    Z.min delay (maxDelayMs config ?? 10000)
  else baseDelay.

Section WithPlatform.
Context {P : Platform}.

(** [await fetch(url, init)] followed by [await response.text()]. *)
Definition call_fetch (req : Request) : M FetchOutcome :=
  fun w =>
    (Returns (fetch (fetches w) req),
     mkWorld (fetch_calls w ++ [req]) (slept w) (clock w)
             (console_warn w) (cache w)).

(** Parse response data and wrap the response. *)
Definition wrap (response : Response) : HttpResponse :=
  let contentType := Headers.get "content-type" (headers response) ?? "" in
  let data :=
    if Str.includes "application/json" contentType then
      match JSON_parse (text response) with
      | Some j => j
      | None => JStr (text response)
      end
    else JStr (text response) in
  mkHttpResponse (ok response) (status response) (statusText response)
                 (headers response) data (text response).

Definition isNetworkError (lastError : JSError) : bool :=
  String.eqb (err_name lastError) "AbortError"
  || String.eqb (err_name lastError) "TypeError"
  || Str.includes "fetch" (err_message lastError).

(** The body of [for (let attempt = 0; attempt <= maxRetries; attempt++)].
    [left] is [maxRetries - attempt], so the test [attempt < maxRetries]
    of the source reads [left = S _] here. *)
Fixpoint attempts (req : Request) (config : RetryConfig)
         (left attempt : nat) : M HttpResponse :=
  outcome <- call_fetch req ;;
  match outcome with
  | Resolves response =>
      match left with
      | S left' =>
          if negb (ok response) && isRetryable (status response) then
            sleep (calculateDelay attempt config) ;;;
            attempts req config left' (S attempt)
          else ret (wrap response)
      | O => ret (wrap response)
      end
  | Rejects lastError =>
      match left with
      | S left' =>
          if isNetworkError lastError then
            sleep (calculateDelay attempt config) ;;;
            attempts req config left' (S attempt)
          else throw (NetworkError lastError)
      | O => throw (NetworkError lastError)
      end
  end.

(** The arguments every attempt gives to [fetch]: the destructured
    options with their defaults, and the prepared request body. *)
Definition fetch_arguments (url : string) (options : HttpRequestOptions)
  : Request :=
  let requestBody :=
    match opt_body options with
    | Some (BodyText s) => Some s
    | Some (BodyObject j) => Some (JSON_stringify j)
    | None => None
    end in
  mkRequest url (opt_method options ?? GET)
            (opt_headers options ?? [])
            requestBody (opt_timeout options ?? 30000).

(** Make an HTTP request with automatic retries. *)
Definition httpRequest (url : string) (options : HttpRequestOptions)
  : M HttpResponse :=
  let retryConfig := merge_retry (opt_retry options ?? no_overrides) in
  attempts (fetch_arguments url options) retryConfig (maxRetries retryConfig) 0.

(** Make a GET request: [{ ...options, method: 'GET' }]. *)
Definition httpGet (url : string) (options : HttpRequestOptions) : M HttpResponse :=
  httpRequest url (mkOptions (Some GET) (opt_headers options) (opt_body options)
                             (opt_timeout options) (opt_retry options)).

(** Make a POST request: [{ ...options, method: 'POST', body }]. *)
Definition httpPost (url : string) (body : Body) (options : HttpRequestOptions)
  : M HttpResponse :=
  httpRequest url (mkOptions (Some POST) (opt_headers options) (Some body)
                             (opt_timeout options) (opt_retry options)).

End WithPlatform.

End Transport.

(* ================================================================== *)
(** ** [URLSearchParams] *)

Module URLSearchParams.

Definition hex_digit (n : nat) : ascii :=
  if (n <? 10)%nat then ascii_of_nat (48 + n) else ascii_of_nat (55 + n).

Definition percent (c : ascii) : string :=
  let n := nat_of_ascii c in
  String "%" (String (hex_digit (n / 16)) (String (hex_digit (n mod 16)) "")).

(** The [application/x-www-form-urlencoded] byte serializer. *)
Definition encode_byte (c : ascii) : string :=
  if Str.is_alnum c
     || Ascii.eqb c "*" || Ascii.eqb c "-" || Ascii.eqb c "." || Ascii.eqb c "_"
  then String c ""
  else if Ascii.eqb c " " then "+"
  else percent c.

Fixpoint encode (s : string) : string :=
  match s with
  | EmptyString => ""
  | String c r => encode_byte c ++ encode r
  end.

(** A list of name-value pairs in the order they were appended. *)
Definition t : Type := list (string * string).

Definition append (k v : string) (p : t) : t := (p ++ [(k, v)])%list.

(** [searchParams.toString()]. *)
Definition toString (p : t) : string :=
  Str.join "&" (map (fun kv => encode (fst kv) ++ "=" ++ encode (snd kv)) p).

End URLSearchParams.

(* ================================================================== *)
(** ** The request core ([src/core/base-client.ts]) *)

Module BaseClient.

Import Http Transport.

Definition DEFAULT_CACHE_ttl : Z := 5 * 60 * 1000.
Definition DEFAULT_CACHE_maxSize : nat := 100.
Definition DEFAULT_timeout : Z := 30000.
Definition DEFAULT_retryAttempts : nat := 3.
Definition DEFAULT_retryDelay : Z := 1000.

(** What a concrete client supplies to the shared core. *)
Record Capabilities : Type := mkCapabilities {
  cap_regulator : Regulator;
  getDefaultBaseUrl : string;
  getAuthHeaders : option string -> Obj.t string
}.

(** The read-only fields of a client instance. *)
Record Client : Type := mkClient {
  caps : Capabilities;
  apiKey : option string;
  baseUrl : string;
  timeout : Z;
  retryAttempts : nat;
  retryDelay : Z
}.

(** [new LRUCache({ max, ttl })].  The library is a dependency, not part of
    this repository; its constructor checks its options: a [ttl] other than
    zero has to be a positive integer, and [max] and [ttl] cannot both be
    zero. *)
Definition new_LRUCache (max : nat) (ttl : Z)
  : Outcome (LRUCache.t (option Charity)) :=
  if ttl <? 0 then
    Throws (TypeError "ttl must be a positive integer if specified")
  else if Nat.eqb max 0 && (ttl =? 0) then
    Throws (TypeError "At least one of max, maxSize, or ttl is required")
  else Returns (LRUCache.create max ttl).

(** The constructor: the instance and the cache it starts with. *)
Definition new (k : Capabilities) (config : ClientConfig)
  : Outcome (Client * option (LRUCache.t (option Charity))) :=
  let c := mkClient k (cfg_apiKey config)
                    (cfg_baseUrl config ?? getDefaultBaseUrl k)
                    (cfg_timeout config ?? DEFAULT_timeout)
                    (cfg_retryAttempts config ?? DEFAULT_retryAttempts)
                    (cfg_retryDelay config ?? DEFAULT_retryDelay) in
  (* Initialize cache if enabled *)
  let cacheConfig := cfg_cache config ?? mkCacheConfig None None None in
  match cfg_enabled cacheConfig with
  | Some false => Returns (c, None)
  | _ =>
      and_then (new_LRUCache (cfg_maxSize cacheConfig ?? DEFAULT_CACHE_maxSize)
                             (cfg_ttl cacheConfig ?? DEFAULT_CACHE_ttl))
               (fun cache => Returns (c, Some cache))
  end.

(** The world a freshly constructed client starts in. *)
Definition initial_world (cache : option (LRUCache.t (option Charity))) : World :=
  mkWorld [] [] 0 [] cache.

(** Log a warning that a method is not implemented for this regulator. *)
Definition logNotImplemented (c : Client) (method : string) : M unit :=
  console_warn_line
    ("[" ++ regulator_name (cap_regulator (caps c)) ++ "] " ++ method
         ++ " is not supported by this regulator's API").

(** Handle non-2xx HTTP responses by throwing appropriate errors. *)
Definition handleErrorResponse (response : HttpResponse) : Exn :=
  let s := r_status response in
  if (s =? 401) || (s =? 403) then
    AuthenticationError (r_status response) (r_statusText response)
  else if s =? 404 then CharityNotFoundError None
  else if s =? 429 then Errors.new_RateLimitError (Some (r_headers response))
  else ApiError (r_status response) (r_statusText response) (raw response).

(** Values a query parameter can hold: the declared ones, [null], and an
    array or object that reaches a parameter at run time, kept by the text
    [String(value)] gives for it. *)
Inductive ParamValue : Type :=
| PUndefined
| PNull
| PString (s : string)
| PNumber (n : Z)
| PBoolean (b : bool)
| PObject (text : string).

(** [String(value)]. *)
Definition String_of (v : ParamValue) : string :=
  match v with
  | PUndefined => "undefined"
  | PNull => "null"
  | PString s => s
  | PNumber n => Str.of_Z n
  | PBoolean true => "true"
  | PBoolean false => "false"
  | PObject text => text
  end.

(** [value !== undefined && value !== null && value !== '']. *)
Definition kept (v : ParamValue) : bool :=
  match v with
  | PUndefined | PNull => false
  | PString s => negb (Str.is_empty s)
  | PNumber _ | PBoolean _ | PObject _ => true
  end.

(** Build a query string from parameters. *)
Definition buildQueryString (params : Obj.t ParamValue) : string :=
  let searchParams :=
    fold_left
      (fun sp kv =>
         if kept (snd kv)
         then URLSearchParams.append (fst kv) (String_of (snd kv)) sp
         else sp)
      (Obj.entries params) [] in
  let queryString := URLSearchParams.toString searchParams in
  if Str.is_empty queryString then "" else "?" ++ queryString.

Section WithPlatform.
Context {P : Platform}.

(** Make an HTTP request with retry and error handling. *)
Definition request (c : Client) (endpoint : string)
           (options : HttpRequestOptions) : M HttpResponse :=
  let url := baseUrl c ++ endpoint in
  response <-
    httpRequest url
      (mkOptions (opt_method options)
                 (Some (Obj.spread
                          (Obj.spread (Obj.literal [("Accept", "application/json")])
                                      (getAuthHeaders (caps c) (apiKey c)))
                          (opt_headers options ?? [])))
                 (opt_body options)
                 (Some (timeout c))
                 (Some (mkRetryOverrides (Some (retryAttempts c))
                                         (Some (retryDelay c)) None None))) ;;
  if negb (r_ok response) then throw (handleErrorResponse response)
  else ret response.

(** Make a GET request. *)
Definition get (c : Client) (endpoint : string) : M HttpResponse :=
  request c endpoint (mkOptions (Some GET) None None None None).

(** Make a POST request. *)
Definition post (c : Client) (endpoint : string) (body : Body) : M HttpResponse :=
  request c endpoint (mkOptions (Some POST) None (Some body) None None).

(** Generate a cache key for a method call. *)
Definition getCacheKey (c : Client) (method : string) (params : string + json)
  : string :=
  let paramsStr :=
    match params with
    | inl s => s
    | inr o => JSON_stringify o
    end in
  regulator_name (cap_regulator (caps c)) ++ ":" ++ method ++ ":" ++ paramsStr.

End WithPlatform.

(** Get a value from the cache: [this.cache?.get(key)]. *)
Definition getCached (key : string) : M (option (option Charity)) :=
  fun w =>
    match cache w with
    | None => (Returns None, w)
    | Some c =>
        let '(v, c') := LRUCache.get key (clock w) c in
        (Returns v,
         mkWorld (fetch_calls w) (slept w) (clock w) (console_warn w) (Some c'))
    end.

(** Set a value in the cache: [this.cache?.set(key, value)]. *)
Definition setCache (key : string) (value : option Charity) : M unit :=
  fun w =>
    match cache w with
    | None => (Returns tt, w)
    | Some c =>
        (Returns tt,
         mkWorld (fetch_calls w) (slept w) (clock w) (console_warn w)
                 (Some (LRUCache.set key value (clock w) c)))
    end.

(** Clear all cached entries: [this.cache?.clear()]. *)
Definition clearCache : M unit :=
  fun w =>
    match cache w with
    | None => (Returns tt, w)
    | Some c =>
        (Returns tt,
         mkWorld (fetch_calls w) (slept w) (clock w) (console_warn w)
                 (Some (LRUCache.clear c)))
    end.

End BaseClient.

(* ================================================================== *)
(** ** Helpers shared by the three transform files *)

(** Synchronous code that may throw. *)
Definition lift {A} (o : Outcome A) : M A := fun w => (o, w).

(** [raw.k] where an array is about to be iterated or measured: anything
    else makes the following [.map], [.length] or [for ... of] throw. *)
Definition array_at (k : string) (raw : json) : Outcome (list json) :=
  match raw with
  | JNull => Throws (TypeError ("Cannot read properties of null (reading '" ++ k ++ "')"))
  | _ =>
      match raw@k with
      | Some (JArr l) => Returns l
      | _ => Throws (TypeError ("raw." ++ k ++ " is not an array"))
      end
  end.

Definition is_null (v : json) : bool :=
  match v with JNull => true | _ => false end.

(** [l.map(f)] where [f] reads the property [what] of its argument first: a
    [null] element makes it throw. *)
Definition map_records {A} (what : string) (f : json -> A) (l : list json)
  : Outcome (list A) :=
  if existsb is_null l
  then Throws (TypeError ("Cannot read properties of null (reading '" ++ what ++ "')"))
  else Returns (map f l).

(** [raw.map(f)] on a value that should be an array of records. *)
Definition map_array {A} (what : string) (f : json -> A) (raw : json)
  : Outcome (list A) :=
  match raw with
  | JArr l => map_records what f l
  | JNull => Throws (TypeError "Cannot read properties of null (reading 'map')")
  | _ => Throws (TypeError "raw.map is not a function")
  end.

(** [l.map(f)] where [f] itself may throw: the first failure ends the
    traversal. *)
Fixpoint traverse {A B} (f : A -> Outcome B) (l : list A) : Outcome (list B) :=
  match l with
  | [] => Returns []
  | x :: r =>
      and_then (f x) (fun y => and_then (traverse f r) (fun ys => Returns (y :: ys)))
  end.

(** [v ?? []]. *)
Definition or_empty (v : jsval) : json :=
  match v with
  | None | Some JNull => JArr []
  | Some x => x
  end.

(** [raw.k] where [raw] may be [null]. *)
Definition member (k : string) (raw : json) : Outcome jsval :=
  match raw with
  | JNull => Throws (TypeError ("Cannot read properties of null (reading '" ++ k ++ "')"))
  | _ => Returns raw@k
  end.

(** [v?.[0]]: the first element of an array, the first character of a
    string, the property ["0"] of an object. *)
Definition first_of (v : jsval) : jsval :=
  match v with
  | None | Some JNull => None
  | Some (JArr (x :: _)) => Some x
  | Some (JArr []) => None
  | Some (JStr (String ch _)) => Some (JStr (String ch ""))
  | Some (JStr EmptyString) => None
  | Some (JObj props) => (JObj props)@"0"
  | Some (JNum _) | Some (JBool _) => None
  end.

(** [v.length] on a value that is not [null]. *)
Definition length_of (v : json) : jsval :=
  match v with
  | JArr l => Some (JNum (Z.of_nat (List.length l)))
  | JStr s => Some (JNum (Z.of_nat (String.length s)))
  | JObj props => (JObj props)@"length"
  | _ => None
  end.

(** The values [for (const x of v)] and [...v] run through: the elements
    of an array, the characters of a string (its bytes here); no other value
    of a payload is iterable. *)
Definition iterate (what : string) (v : jsval) : Outcome (list json) :=
  match v with
  | Some (JArr l) => Returns l
  | Some (JStr s) => Returns (map (fun ch => JStr (String ch "")) (list_ascii_of_string s))
  | _ => Throws (TypeError (what ++ " is not iterable"))
  end.

(** [v?.k]. *)
Definition opt_chain (v : jsval) (k : string) : jsval :=
  match v with
  | None | Some JNull => None
  | Some o => o@k
  end.

(** [[a, b, ...].filter(Boolean)] on string-valued properties. *)
Definition truthy_strings (vs : list jsval) : list string :=
  flat_map (fun v => match str_or_null v with Some s => [s] | None => [] end) vs.

Section ParseDate.
Context {P : Platform}.

(** Parse ISO date string to Date object; [None] if invalid or empty.
    Each transform file has its own copy of this function. *)
Definition parseDate (dateString : jsval) : option Date :=
  match dateString with
  | Some (JStr s) => if Str.is_empty s then None else Date_parse s
  | _ => None
  end.

(** [new Date(raw.k)] for a string-valued property. *)
Definition new_Date (v : jsval) : option Date :=
  match v with
  | Some (JStr s) => Date_parse s
  | _ => None
  end.

End ParseDate.

(* ================================================================== *)
(** ** CCEW: transform ([src/clients/ccew/transform.ts]) *)

Module CCEWTransform.

(** Map CCEW registration status to normalized CharityStatus. *)
Definition mapStatus (status : jsval) : CharityStatus :=
  match as_opt_string status with
  | Some "Registered" => ACTIVE
  | Some "Removed" => REMOVED
  | _ => ACTIVE
  end.

(** Format address from CCEW address fields. *)
Definition formatAddress (details : json) : option string :=
  let parts := truthy_strings
    [ details@"charityContactAddress1"; details@"charityContactAddress2";
      details@"charityContactAddress3"; details@"charityContactAddress4";
      details@"charityContactAddress5"; details@"charityContactPostcode" ] in
  match parts with
  | [] => None
  | _ => Some (Str.join ", " parts)
  end.

(** [raw.linkedCharityNumber !== 0 ? String(raw.linkedCharityNumber) : undefined]. *)
Definition linked (v : jsval) : option string :=
  match v with
  | Some (JNum 0) => None
  | _ => Some (to_string v)
  end.

(** [raw.otherNames?.map(n => n.charityOtherName) ?? []]. *)
Definition otherNames_of (v : jsval) : Outcome (list string) :=
  match v with
  | None | Some JNull => Returns []
  | Some (JArr l) =>
      map_records "charityOtherName" (fun n => as_string n@"charityOtherName") l
  | Some _ => Throws (TypeError "raw.otherNames?.map is not a function")
  end.

(** [...(v ?? [])] inside the array literal of [areasOfOperation]. *)
Definition spread_of (v : jsval) : Outcome (list string) :=
  match v with
  | None | Some JNull => Returns []
  | Some _ =>
      and_then (iterate "raw.charityAreasOfOperation" v)
               (fun l => Returns (map (fun i => as_string (Some i)) l))
  end.

Section WithPlatform.
Context {P : Platform}.

(** Transform CCEW full charity details to normalized Charity.  The
    object literal is evaluated property by property; the [.map] over
    [otherNames] and the three spreads are the expressions that can throw. *)
Definition transformDetails (raw : json) : Outcome Charity :=
  match raw with
  | JNull =>
      Throws (TypeError
        "Cannot read properties of null (reading 'registeredCharityNumber')")
  | _ =>
  and_then (otherNames_of raw@"otherNames") (fun names =>
  and_then (spread_of (opt_chain raw@"charityAreasOfOperation" "regions"))
           (fun regions =>
  and_then (spread_of (opt_chain raw@"charityAreasOfOperation" "countries"))
           (fun countries =>
  and_then (spread_of (opt_chain raw@"charityAreasOfOperation" "localAuthorities"))
           (fun localAuthorities =>
  Returns
  {| id := to_string raw@"registeredCharityNumber";
     regulator := CCEW;
     registrationNumber := to_string raw@"registeredCharityNumber";
     subsidiaryNumber := linked raw@"linkedCharityNumber";
     companyNumber := str_or_null raw@"charityCompanyRegistrationNumber";
     name := as_string raw@"charityName";
     otherNames := names;
     status := mapStatus raw@"charityRegistrationStatus";
     registeredDate := parseDate raw@"dateOfRegistration";
     removedDate := parseDate raw@"dateOfRemoval";
     website := str_or_null raw@"charityContactWeb";
     email := str_or_null raw@"charityContactEmail";
     phone := str_or_null raw@"charityContactPhone";
     address := formatAddress raw;
     latestIncome := num_or_null raw@"latestIncome";
     latestExpenditure := num_or_null raw@"latestExpenditure";
     financialYearEnd := parseDate raw@"latestFinancialYearEnd";
     employeeCount := num_or_null raw@"numberOfEmployees";
     volunteerCount := num_or_null raw@"numberOfVolunteers";
     trusteeCount := num_or_null raw@"numberOfTrustees";
     purposes := as_strings (opt_chain raw@"charityWhoWhat" "whatTheCharityDoes");
     beneficiaries := as_strings (opt_chain raw@"charityWhoWhat" "whoTheCharityHelps");
     activities := as_strings (opt_chain raw@"charityWhoWhat" "howTheCharityWorks");
     areasOfOperation := (regions ++ countries ++ localAuthorities)%list;
     organisationType := str_or_null raw@"organisationType";
     governingDocumentType := str_or_null raw@"governingDocument";
     charitableObjects := str_or_null raw@"charitableObjects";
     publicBenefit := None;
     activityDescription := None;
     _raw := raw |}))))
  end.

(** Transform CCEW charity summary to normalized Charity. *)
Definition transformSummary (raw : json) : Charity :=
  {| id := to_string raw@"registeredCharityNumber";
     regulator := CCEW;
     registrationNumber := to_string raw@"registeredCharityNumber";
     subsidiaryNumber := linked raw@"linkedCharityNumber";
     companyNumber := None;
     name := as_string raw@"charityName";
     otherNames := [];
     status := mapStatus raw@"registrationStatus";
     registeredDate := parseDate raw@"dateOfRegistration";
     removedDate := parseDate raw@"dateOfRemoval";
     website := None; email := None; phone := None; address := None;
     latestIncome := None; latestExpenditure := None; financialYearEnd := None;
     employeeCount := None; volunteerCount := None; trusteeCount := None;
     purposes := []; beneficiaries := []; activities := []; areasOfOperation := [];
     organisationType := str_or_null raw@"charityType";
     governingDocumentType := None;
     charitableObjects := None; publicBenefit := None; activityDescription := None;
     _raw := raw |}.

(** Transform CCEW search response to normalized SearchResult. *)
Definition transformSearchResponse (raw : json) : Outcome (SearchResult Charity) :=
  and_then (array_at "charities" raw) (fun charities =>
  and_then (map_records "registeredCharityNumber" transformSummary charities)
           (fun summaries =>
      Returns
        {| items := summaries;
           total := as_number raw@"totalResults";
           page := as_number raw@"pageNumber";
           pageSize := as_number raw@"pageSize";
           totalPages := ceil_div (as_number raw@"totalResults")
                                  (as_number raw@"pageSize");
           aggregations := None |})).

(** Transform CCEW financial year to normalized FinancialYear. *)
Definition transformFinancialYear (raw : json) : FinancialYear :=
  {| yearEnd := new_Date raw@"financialYearEnd";
     income := as_number raw@"income";
     expenditure := as_number raw@"expenditure" |}.

(** Transform array of CCEW financial years. *)
Definition transformFinancialHistory (raw : json) : Outcome (list FinancialYear) :=
  map_array "financialYearEnd" transformFinancialYear raw.

End WithPlatform.

(** Transform CCEW trustee to normalized Trustee. *)
Definition transformTrustee (raw : json) : Trustee :=
  {| trustee_name := as_string raw@"trusteeName";
     isChair := as_bool raw@"trusteeIsChair";
     otherTrusteeships := None |}.

(** Transform array of CCEW trustees. *)
Definition transformTrustees (raw : json) : Outcome (list Trustee) :=
  map_array "trusteeName" transformTrustee raw.

End CCEWTransform.

(* ================================================================== *)
(** ** CCNI: transform ([src/clients/ccni/transform.ts]) *)

Module CCNITransform.

(** Map CCNI status string to normalized CharityStatus. *)
Definition mapStatus (status : jsval) : CharityStatus :=
  match as_opt_string status with
  | Some "Up-to-date" => ACTIVE
  | Some "Due documents received late" => LATE
  | Some "In default" => IN_DEFAULT
  | Some "Removed" => REMOVED
  | Some "Recently registered" => RECENTLY_REGISTERED
  | _ => ACTIVE
  end.

(** [raw.x !== '0' ? raw.x : undefined]. *)
Definition unless_zero (v : jsval) : option string :=
  match v with
  | Some (JStr "0") => None
  | _ => as_opt_string v
  end.

(** [raw.x && raw.x !== '0' ? raw.x : undefined]. *)
Definition truthy_unless_zero (v : jsval) : option string :=
  if truthy v then unless_zero v else None.

Definition transformBucket (bucket : json) : AggregationBucket :=
  {| bucket_value := as_string bucket@"key";
     bucket_label := as_string bucket@"displayName";
     bucket_count := as_number bucket@"count" |}.

(** [aggregations[group.name] = group.buckets.map(...)]: the name is read
    first, then the buckets are mapped, then the property is set. *)
Definition add_group (aggregations : SearchAggregations) (group : json)
  : Outcome SearchAggregations :=
  match group with
  | JNull => Throws (TypeError "Cannot read properties of null (reading 'name')")
  | _ =>
      match group@"buckets" with
      | Some (JArr buckets) =>
          and_then (map_records "key" transformBucket buckets)
                   (fun bs => Returns (Obj.set (to_string group@"name") bs aggregations))
      | _ => Throws (TypeError "group.buckets.map is not a function")
      end
  end.

(** [for (const group of groups) { ... }]. *)
Fixpoint add_groups (aggregations : SearchAggregations) (groups : list json)
  : Outcome SearchAggregations :=
  match groups with
  | [] => Returns aggregations
  | group :: rest =>
      and_then (add_group aggregations group) (fun a => add_groups a rest)
  end.

Section WithPlatform.
Context {P : Platform}.

(** Transform CCNI charity details to normalized Charity. *)
Definition transformDetails (raw : json) : Charity :=
  {| id := "NIC" ++ to_string raw@"regCharityNumber";
     regulator := CCNI;
     registrationNumber := to_string raw@"regCharityNumber";
     subsidiaryNumber := unless_zero raw@"subCharityNumber";
     companyNumber := truthy_unless_zero raw@"companyNumber";
     name := as_string raw@"charityName";
     otherNames := as_strings raw@"otherNames";
     status := mapStatus raw@"status";
     registeredDate := parseDate raw@"dateRegistered";
     removedDate := parseDate raw@"dateRemoved";
     website := str_or_null raw@"contactWebsite";
     email := str_or_null raw@"contactEmail";
     phone := str_or_null raw@"contactTel";
     address :=
       match str_or_null raw@"csvContactAddress" with
       | Some a => Some a
       | None => str_or_null raw@"contactAddress"
       end;
     latestIncome := num_or_null raw@"income";
     latestExpenditure := num_or_null raw@"totalExpenditure";
     financialYearEnd := parseDate raw@"dateFinancialYearEnd";
     employeeCount := num_or_null raw@"numberEmployees";
     volunteerCount := num_or_null raw@"numberVolunteers";
     trusteeCount := num_or_null raw@"peopleTrustees";
     purposes := as_strings raw@"classWhat";
     beneficiaries := as_strings raw@"classWho";
     activities := as_strings raw@"classHow";
     areasOfOperation := as_strings raw@"areasOfOperation";
     organisationType := str_or_null raw@"organisationType";
     governingDocumentType := str_or_null (opt_chain raw@"governingDocument" "name");
     charitableObjects := str_or_null raw@"charitableObjects";
     publicBenefit := str_or_null raw@"publicBenefits";
     activityDescription := str_or_null raw@"activities";
     _raw := raw |}.

End WithPlatform.

(** Transform CCNI charity summary to normalized Charity. *)
Definition transformSummary (raw : json) : Charity :=
  let regNo := raw@"regNo" in
  {| id := "NIC" ++ to_string regNo;
     regulator := CCNI;
     registrationNumber := as_string regNo;
     subsidiaryNumber := unless_zero raw@"subNo";
     companyNumber := None;
     name := as_string raw@"name";
     otherNames := [];
     status := mapStatus raw@"orgType";
     registeredDate := None; removedDate := None;
     website := None; email := None; phone := None; address := None;
     latestIncome := None; latestExpenditure := None; financialYearEnd := None;
     employeeCount := None; volunteerCount := None; trusteeCount := None;
     purposes := []; beneficiaries := []; activities := []; areasOfOperation := [];
     organisationType := None; governingDocumentType := None;
     charitableObjects := None; publicBenefit := None; activityDescription := None;
     _raw := raw |}.

(** Transform CCNI search response to normalized SearchResult. *)
Definition transformSearchResponse (raw : json) : Outcome (SearchResult Charity) :=
  match raw with
  | JNull =>
      Throws (TypeError "Cannot read properties of null (reading 'aggregationGroups')")
  | _ =>
  (* Transform aggregation groups *)
  and_then (iterate "raw.aggregationGroups" raw@"aggregationGroups") (fun groups =>
  and_then (add_groups [] groups) (fun aggregations =>
  (* Add onlyShow aggregation *)
  and_then (if truthy raw@"onlyShow"
            then add_group aggregations (raw@"onlyShow" ?? JNull)
            else Returns aggregations) (fun aggregations =>
  and_then (array_at "pageItems" raw) (fun pageItems =>
  and_then (map_records "regNo" transformSummary pageItems) (fun summaries =>
  Returns
    {| items := summaries;
       total := as_number raw@"totalItems";
       page := as_number raw@"pageNumber";
       pageSize := as_number raw@"pageSize";
       totalPages := as_number raw@"totalPages";
       aggregations :=
         match aggregations with
         | [] => None
         | _ => Some aggregations
         end |})))))
  end.

(** Transform CCNI trustee to normalized Trustee. *)
Definition transformTrustee (raw : json) : Outcome Trustee :=
  match raw with
  | JNull => Throws (TypeError "Cannot read properties of null (reading 'name')")
  | _ =>
      and_then
        match raw@"charityNumbersOfOtherTrusteeships" with
        | None | Some JNull => Returns None
        | Some (JArr nums) =>
            Returns (Some (map (fun num => "NIC" ++ js_to_string num) nums))
        | Some _ =>
            Throws (TypeError
              "raw.charityNumbersOfOtherTrusteeships?.map is not a function")
        end
        (fun others =>
           Returns {| trustee_name := as_string raw@"name";
                      isChair := as_bool raw@"isChair";
                      otherTrusteeships := others |})
  end.

(** Transform array of CCNI trustees. *)
Definition transformTrustees (raw : json) : Outcome (list Trustee) :=
  match raw with
  | JArr l => traverse transformTrustee l
  | JNull => Throws (TypeError "Cannot read properties of null (reading 'map')")
  | _ => Throws (TypeError "raw.map is not a function")
  end.

End CCNITransform.

(* ================================================================== *)
(** ** OSCR: transform ([src/clients/oscr/transform.ts]) *)

Module OSCRTransform.

(** Map OSCR status string to normalized CharityStatus. *)
Definition mapStatus (status : jsval) : CharityStatus :=
  match as_opt_string status with
  | Some "Active" => ACTIVE
  | Some "Removed" => REMOVED
  | _ => ACTIVE
  end.

Section WithPlatform.
Context {P : Platform}.

(** Transform OSCR charity to normalized Charity. *)
Definition transformCharity (raw : json) : Charity :=
  {| id := as_string raw@"charityNumber";
     regulator := OSCR;
     registrationNumber := as_string raw@"charityNumber";
     subsidiaryNumber := None;
     companyNumber := None;
     name := as_string raw@"charityName";
     otherNames :=
       match str_or_null raw@"knownAs" with
       | Some k => [k]
       | None => []
       end;
     status := mapStatus raw@"charityStatus";
     registeredDate := parseDate raw@"registeredDate";
     removedDate := None;
     website := str_or_null raw@"website";
     email := None;
     phone := None;
     address :=
       match str_or_null raw@"principalContactAddress" with
       | Some a => Some a
       | None => str_or_null raw@"principalOfficeOrTrusteeAddress"
       end;
     latestIncome := num_or_null raw@"mostRecentYearIncome";
     latestExpenditure := num_or_null raw@"mostRecentYearExpenditure";
     financialYearEnd := parseDate raw@"yearEnd";
     employeeCount := None;
     volunteerCount := None;
     trusteeCount := None;
     purposes := as_strings raw@"purposes";
     beneficiaries := as_strings raw@"beneficiaries";
     activities := as_strings raw@"typesOfActivities";
     areasOfOperation :=
       truthy_strings [raw@"geographicalSpread"; raw@"mainOperatingLocation"];
     organisationType := str_or_null raw@"currentConstitutionalForm";
     governingDocumentType := None;
     charitableObjects := str_or_null raw@"objectives";
     publicBenefit := None;
     activityDescription := str_or_null raw@"notes";
     _raw := raw |}.

(** Transform OSCR all charities response to normalized SearchResult. *)
Definition transformAllCharitiesResponse (raw : json)
  : Outcome (SearchResult Charity) :=
  and_then (array_at "data" raw) (fun data =>
      (* OSCR doesn't provide total count directly, we estimate from pages *)
      let pageSize :=
        match data with
        | [] => Fin 100
        | _ => Fin (Z.of_nat (List.length data))
        end in
      let total := num_mul (as_number raw@"totalPages") pageSize in
  and_then (map_records "charityNumber" transformCharity data) (fun charities =>
      Returns
        {| items := charities;
           total := total;
           page := as_number raw@"currentPage";
           pageSize := pageSize;
           totalPages := as_number raw@"totalPages";
           aggregations := None |})).

(** Transform OSCR annual return to FinancialYear. *)
Definition transformAnnualReturn (raw : json) : FinancialYear :=
  {| yearEnd := new_Date raw@"AccountingReferenceDate";
     income := as_number raw@"GrossIncome";
     expenditure := as_number raw@"GrossExpenditure" |}.

(** Transform array of OSCR annual returns to FinancialYear array:
    [raw.map(transformAnnualReturn)] on what the caller hands over. *)
Definition transformAnnualReturns (raw : json) : Outcome (list FinancialYear) :=
  match raw with
  | JArr l => map_records "AccountingReferenceDate" transformAnnualReturn l
  | JNull => Throws (TypeError "Cannot read properties of null (reading 'map')")
  | _ => Throws (TypeError "raw.map is not a function")
  end.

(** Extract additional data from annual return to enrich Charity. *)
Definition enrichCharityWithAnnualReturn (charity : Charity) (annualReturn : json)
  : Charity :=
  {| id := id charity;
     regulator := regulator charity;
     registrationNumber := registrationNumber charity;
     subsidiaryNumber := subsidiaryNumber charity;
     companyNumber := companyNumber charity;
     name := name charity;
     otherNames := otherNames charity;
     status := status charity;
     registeredDate := registeredDate charity;
     removedDate := removedDate charity;
     website := website charity;
     email := email charity;
     phone := phone charity;
     address := address charity;
     latestIncome :=
       match num_or_null annualReturn@"GrossIncome" with
       | Some n => Some n
       | None => latestIncome charity
       end;
     latestExpenditure :=
       match num_or_null annualReturn@"GrossExpenditure" with
       | Some n => Some n
       | None => latestExpenditure charity
       end;
     financialYearEnd :=
       match parseDate annualReturn@"AccountingReferenceDate" with
       | Some d => Some d
       | None => financialYearEnd charity
       end;
     employeeCount :=
       match num_or_null annualReturn@"PaidStaff" with
       | Some n => Some n
       | None => employeeCount charity
       end;
     volunteerCount := volunteerCount charity;
     trusteeCount :=
       match num_or_null annualReturn@"TotalNumberofCharityTrustees" with
       | Some n => Some n
       | None => trusteeCount charity
       end;
     purposes := purposes charity;
     beneficiaries := beneficiaries charity;
     activities := activities charity;
     areasOfOperation := areasOfOperation charity;
     organisationType := organisationType charity;
     governingDocumentType := governingDocumentType charity;
     charitableObjects := charitableObjects charity;
     publicBenefit := publicBenefit charity;
     activityDescription := activityDescription charity;
     _raw := _raw charity |}.

End WithPlatform.

End OSCRTransform.

(* ================================================================== *)
(** ** CCEW: client ([src/clients/ccew/client.ts]) *)

Module CCEWClient.

Import Http Transport BaseClient.

Definition CCEW_BASE_URL : string :=
  "https://api.charitycommission.gov.uk/register/api".

Definition capabilities : Capabilities :=
  {| cap_regulator := CCEW;
     getDefaultBaseUrl := CCEW_BASE_URL;
     getAuthHeaders := fun apiKey =>
       match apiKey with
       | Some k =>
           if Str.is_empty k then []
           else Obj.literal [("Ocp-Apim-Subscription-Key", k)]
       | None => []
       end |}.

(** [!this.apiKey]. *)
Definition missing_key (c : Client) : bool :=
  match apiKey c with
  | Some k => Str.is_empty k
  | None => true
  end.

Definition new (config : ClientConfig)
  : Outcome (Client * option (LRUCache.t (option Charity))) :=
  and_then (BaseClient.new capabilities config) (fun '(c, cache) =>
  if missing_key c then
    Throws (PlainError (mkJSError "Error"
      "CCEW API requires an API key. Provide it via the apiKey config option."))
  else Returns (c, cache)).

(** Map regulator name from CCEW API to Regulator type. *)
Definition mapRegulatorName (name : string) : Regulator :=
  let normalized := Str.toLowerCase name in
  if Str.includes "scotland" normalized || Str.includes "oscr" normalized then OSCR
  else if Str.includes "northern ireland" normalized || Str.includes "ccni" normalized
  then CCNI
  else CCEW.

Section WithPlatform.
Context {P : Platform}.

(** The endpoint and query string of a search. *)
Definition search_endpoint (query : SearchQuery) : string :=
  let text := q_text query ?? "" in
  let page := q_page query ?? 1 in
  let pageSize := q_pageSize query ?? 20 in
  let endpoint := "/allcharitydetails/GetCharitiesByKeyword" in
  let params := Obj.literal
    [ ("keyword", PString text);
      ("pageNumber", PNumber page);
      ("pageSize", PNumber pageSize) ] in
  let queryString := buildQueryString params in
  endpoint ++ queryString.

(** Search for charities. *)
Definition search (c : Client) (query : SearchQuery) : M (SearchResult Charity) :=
  response <- get c (search_endpoint query) ;;
  lift (CCEWTransform.transformSearchResponse (data response)).

(** Search charities by name. *)
Definition searchByName (c : Client) (name : string)
           (page pageSize : option Z) : M (SearchResult Charity) :=
  let queryString := buildQueryString (Obj.literal
    [ ("charityName", PString name);
      ("pageNumber", PNumber (page ?? 1));
      ("pageSize", PNumber (pageSize ?? 20)) ]) in
  response <- get c ("/allcharitydetails/GetCharitiesByName" ++ queryString) ;;
  lift (CCEWTransform.transformSearchResponse (data response)).

(** The endpoint and query string of the details lookup. *)
Definition details_endpoint (regNumber : string) : string :=
  let queryString := buildQueryString (Obj.literal
    [ ("registeredCharityNumber", PString regNumber) ]) in
  "/allcharitydetails/GetAllCharityDetailsV2" ++ queryString.

(** Get charity details by registration number. *)
Definition getCharity (c : Client) (id : string) : M (option Charity) :=
  (* Remove any non-numeric characters *)
  let regNumber := Str.filter Str.is_digit id in
  (* Check cache first *)
  let cacheKey := getCacheKey c "getCharity" (inl regNumber) in
  cached <- getCached cacheKey ;;
  match cached with
  | Some hit => ret hit
  | None =>
      try_catch
        (response <- get c (details_endpoint regNumber) ;;
         if negb (truthy (Some (data response)))
            || negb (truthy (data response)@"registeredCharityNumber")
         then setCache cacheKey None ;;; ret None
         else
           result <- lift (CCEWTransform.transformDetails (data response)) ;;
           setCache cacheKey (Some result) ;;; ret (Some result))
        (fun error =>
           if Errors.is_CharityNotFoundError error then
             setCache cacheKey None ;;; ret None
           else if Errors.is_AuthenticationError error then throw error
           else setCache cacheKey None ;;; ret None)
  end.

(** [String | number] as a query parameter. *)
Definition number_or_string (v : string + Z) : ParamValue :=
  match v with
  | inl s => PString s
  | inr n => PNumber n
  end.

(** Get charity with linked charity number (subsidiary). *)
Definition getCharityWithLinked (c : Client) (regNumber : string)
           (linkedNumber : string + Z) : M (option Charity) :=
  let cleanRegNumber := Str.filter Str.is_digit regNumber in
  try_catch
    (let queryString := buildQueryString (Obj.literal
       [ ("registeredCharityNumber", PString cleanRegNumber);
         ("linkedCharityNumber", number_or_string linkedNumber) ]) in
     response <-
       get c ("/allcharitydetails/GetAllCharityDetailsV2" ++ queryString) ;;
     if negb (truthy (Some (data response)))
        || negb (truthy (data response)@"registeredCharityNumber")
     then ret None
     else
       result <- lift (CCEWTransform.transformDetails (data response)) ;;
       ret (Some result))
    (fun error =>
       if Errors.is_CharityNotFoundError error then ret None
       else throw error).

(** Get trustees for a charity. *)
Definition getTrustees (c : Client) (id : string) : M (list Trustee) :=
  let regNumber := Str.filter Str.is_digit id in
  try_catch
    (let queryString := buildQueryString (Obj.literal
       [ ("registeredCharityNumber", PString regNumber) ]) in
     response <-
       get c ("/allcharitydetails/GetCharityTrusteeInformationV2" ++ queryString) ;;
     trustees <- lift (member "trustees" (data response)) ;;
     lift (CCEWTransform.transformTrustees (or_empty trustees)))
    (fun _ => ret []).

(** Get financial history for a charity. *)
Definition getFinancialHistory (c : Client) (id : string) : M (list FinancialYear) :=
  let regNumber := Str.filter Str.is_digit id in
  try_catch
    (let queryString := buildQueryString (Obj.literal
       [ ("registeredCharityNumber", PString regNumber) ]) in
     response <-
       get c ("/allcharitydetails/GetCharityFinancialHistory" ++ queryString) ;;
     financialHistory <- lift (member "financialHistory" (data response)) ;;
     lift (CCEWTransform.transformFinancialHistory (or_empty financialHistory)))
    (fun _ => ret []).

(** [{ regulator: this.mapRegulatorName(reg.regulatorName), ... }]: a
    record without a string [regulatorName] makes [name.toLowerCase()]
    throw. *)
Definition other_regulator_of (reg : json) : Outcome OtherRegulatorInfo :=
  match reg with
  | JNull =>
      Throws (TypeError "Cannot read properties of null (reading 'regulatorName')")
  | _ =>
      match reg@"regulatorName" with
      | Some (JStr name) =>
          Returns {| other_regulator := mapRegulatorName name;
                     other_registrationNumber := as_string reg@"registrationNumber" |}
      | None | Some JNull =>
          Throws (TypeError
            "Cannot read properties of undefined (reading 'toLowerCase')")
      | Some _ => Throws (TypeError "name.toLowerCase is not a function")
      end
  end.

(** Check if a charity is registered with other regulators.  What the
    mapping throws, the catch clause turns into the empty list. *)
Definition getOtherRegulators (c : Client) (id : string)
  : M (list OtherRegulatorInfo) :=
  let regNumber := Str.filter Str.is_digit id in
  try_catch
    (let queryString := buildQueryString (Obj.literal
       [ ("registeredCharityNumber", PString regNumber) ]) in
     response <-
       get c ("/allcharitydetails/GetCharityOtherRegulators" ++ queryString) ;;
     otherRegulators <- lift (member "otherRegulators" (data response)) ;;
     (* Map to OtherRegulatorInfo format *)
     match or_empty otherRegulators with
     | JArr regs => lift (traverse other_regulator_of regs)
     | _ => throw (TypeError "(response.data.otherRegulators ?? []).map is not a function")
     end)
    (fun _ => ret []).

End WithPlatform.

End CCEWClient.

(* ================================================================== *)
(** ** CCNI: client ([src/clients/ccni/client.ts]) *)

Module CCNIClient.

Import Http Transport BaseClient.

Definition CCNI_BASE_URL : string :=
  "https://www.charitycommissionni.org.uk/umbraco/api/charityApi".

Definition CCNI_CONTEXT_ID : Z := 2153.

Definition capabilities : Capabilities :=
  {| cap_regulator := CCNI;
     getDefaultBaseUrl := CCNI_BASE_URL;
     getAuthHeaders := fun _ => [] |}.

(** CCNI doesn't require an API key. *)
Definition new (config : ClientConfig)
  : Outcome (Client * option (LRUCache.t (option Charity))) :=
  BaseClient.new capabilities config.

(** [id.replace(/^NIC/i, '')]. *)
Definition strip_NIC (id : string) : string :=
  if Str.startsWith "NIC" (Str.toUpperCase (substring 0 3 id))
  then Str.drop 3 id
  else id.

(** [if (ccniFilters.k) params.k = ccniFilters.k]. *)
Definition add_filter (filters : Obj.t string) (params : Obj.t ParamValue)
           (k : string) : Obj.t ParamValue :=
  match assoc k filters with
  | Some v => if Str.is_empty v then params else Obj.set k (PString v) params
  | None => params
  end.

Section WithPlatform.
Context {P : Platform}.

(** The endpoint and query string of a search. *)
Definition search_endpoint (query : SearchQuery) : string :=
  let text := q_text query ?? "" in
  let page := q_page query ?? 1 in
  let filters := q_filters query ?? [] in
  let params := Obj.literal
    [ ("searchText", PString text);
      ("pageNumber", PNumber page);
      ("contextId", PNumber CCNI_CONTEXT_ID) ] in
  (* Add optional filters *)
  let params :=
    fold_left (add_filter filters)
      [ "onlyShow"; "income"; "classification1"; "classification2";
        "classification3"; "aooa"; "aood" ] params in
  let queryString := buildQueryString params in
  "/getSearchResults" ++ queryString.

(** Search for charities. *)
Definition search (c : Client) (query : SearchQuery) : M (SearchResult Charity) :=
  response <- get c (search_endpoint query) ;;
  lift (CCNITransform.transformSearchResponse (data response)).

(** The endpoint and query string of the details lookup. *)
Definition details_endpoint (regId : string) : string :=
  let queryString := buildQueryString (Obj.literal
    [ ("regId", PString regId); ("subId", PNumber 0) ]) in
  "/getCharityDetails" ++ queryString.

(** Get charity details by registration number. *)
Definition getCharity (c : Client) (id : string) : M (option Charity) :=
  (* Strip NIC prefix if present *)
  let regId := strip_NIC id in
  (* Check cache first *)
  let cacheKey := getCacheKey c "getCharity" (inl regId) in
  cached <- getCached cacheKey ;;
  match cached with
  | Some hit => ret hit
  | None =>
      try_catch
        (response <- get c (details_endpoint regId) ;;
         (* CCNI returns empty object for not found *)
         if negb (truthy (Some (data response)))
            || negb (truthy (data response)@"regCharityNumber")
         then setCache cacheKey None ;;; ret None
         else
           let result := CCNITransform.transformDetails (data response) in
           setCache cacheKey (Some result) ;;; ret (Some result))
        (fun error =>
           if Errors.is_CharityNotFoundError error then
             setCache cacheKey None ;;; ret None
           else throw error)
  end.

(** Get charity details including subsidiary. *)
Definition getCharityWithSubsidiary (c : Client) (regId : string)
           (subId : string + Z) : M (option Charity) :=
  let cleanRegId := strip_NIC regId in
  try_catch
    (let queryString := buildQueryString (Obj.literal
       [ ("regId", PString cleanRegId);
         ("subId", CCEWClient.number_or_string subId) ]) in
     response <- get c ("/getCharityDetails" ++ queryString) ;;
     if negb (truthy (Some (data response)))
        || negb (truthy (data response)@"regCharityNumber")
     then ret None
     else ret (Some (CCNITransform.transformDetails (data response))))
    (fun error =>
       if Errors.is_CharityNotFoundError error then ret None
       else throw error).

(** Search for charities by name. *)
Definition searchByName (c : Client) (name : string) (page : option Z)
  : M (SearchResult Charity) :=
  search c (mkSearchQuery (Some name) (Some (page ?? 1)) None None).

(** Get trustees for a charity. *)
Definition getTrustees (c : Client) (id : string) : M (list Trustee) :=
  charity <- getCharity c id ;;
  match charity with
  | None => ret []
  | Some charity =>
      let raw := _raw charity in
      lift (CCNITransform.transformTrustees (or_empty raw@"trusteesList"))
  end.

(** Get financial history for a charity: the current year only. *)
Definition getFinancialHistory (c : Client) (id : string) : M (list FinancialYear) :=
  charity <- getCharity c id ;;
  match charity with
  | None => ret []
  | Some charity =>
      let raw := _raw charity in
      if negb (truthy raw@"dateFinancialYearEnd") then ret []
      else
        ret [ {| yearEnd := new_Date raw@"dateFinancialYearEnd";
                 income := Fin (num_or_null raw@"income" ?? 0);
                 expenditure := Fin (num_or_null raw@"totalExpenditure" ?? 0) |} ]
  end.

(** Get other regulators where the charity is registered: not supported. *)
Definition getOtherRegulators (c : Client) (_id : string)
  : M (list OtherRegulatorInfo) :=
  logNotImplemented c "getOtherRegulators" ;;;
  ret [].

End WithPlatform.

End CCNIClient.

(* ================================================================== *)
(** ** OSCR: client ([src/clients/oscr/client.ts]) *)

Module OSCRClient.

Import Http Transport BaseClient.

Definition OSCR_BASE_URL : string := "https://oscrapi.azurewebsites.net/api".

Definition capabilities : Capabilities :=
  {| cap_regulator := OSCR;
     getDefaultBaseUrl := OSCR_BASE_URL;
     getAuthHeaders := fun apiKey =>
       match apiKey with
       | Some k =>
           if Str.is_empty k then []
           else Obj.literal [("x-functions-key", k)]
       | None => []
       end |}.

Definition new (config : ClientConfig)
  : Outcome (Client * option (LRUCache.t (option Charity))) :=
  and_then (BaseClient.new capabilities config) (fun '(c, cache) =>
  if CCEWClient.missing_key c then
    Throws (PlainError (mkJSError "Error"
      "OSCR API requires an API key. Provide it via the apiKey config option."))
  else Returns (c, cache)).

(** Ensure SC prefix. *)
Definition with_SC (id : string) : string :=
  if Str.startsWith "SC" (Str.toUpperCase id) then Str.toUpperCase id
  else "SC" ++ id.

(** [raw.id] of an [OSCRCharity], as a query parameter: whatever the
    record holds there. *)
Definition internal_id (raw : json) : ParamValue :=
  match raw@"id" with
  | None => PUndefined
  | Some JNull => PNull
  | Some (JStr s) => PString s
  | Some (JNum n) => PNumber n
  | Some (JBool b) => PBoolean b
  | Some v => PObject (js_to_string v)
  end.

(** [array.sort(compare)]: a stable insertion sort; a comparison that is
    [NaN] counts as zero. *)
Fixpoint insert_sorted {A} (compare : A -> A -> Z) (x : A) (l : list A) : list A :=
  match l with
  | [] => [x]
  | y :: r => if 0 <? compare x y then y :: insert_sorted compare x r else x :: l
  end.

Definition sort {A} (compare : A -> A -> Z) (l : list A) : list A :=
  fold_right (insert_sorted compare) [] l.

Section WithPlatform.
Context {P : Platform}.

(** The endpoint and query string of a page of the register. *)
Definition search_endpoint (query : SearchQuery) : string :=
  let page := q_page query ?? 1 in
  let queryString := buildQueryString (Obj.literal [ ("page", PNumber page) ]) in
  "/all_charities" ++ queryString.

(** Get all charities (paginated). *)
Definition search (c : Client) (query : SearchQuery) : M (SearchResult Charity) :=
  response <- get c (search_endpoint query) ;;
  lift (OSCRTransform.transformAllCharitiesResponse (data response)).

(** The endpoint and query string of the lookup by charity number. *)
Definition charity_endpoint (charityNumber : string) : string :=
  let queryString := buildQueryString (Obj.literal
    [ ("charitynumber", PString charityNumber) ]) in
  "/all_charities" ++ queryString.

(** Get a charity by its Scottish charity number. *)
Definition getCharity (c : Client) (id : string) : M (option Charity) :=
  let charityNumber := with_SC id in
  try_catch
    (response <- get c (charity_endpoint charityNumber) ;;
     listed <- lift (member "data" (data response)) ;;
     match first_of listed with
     | Some firstCharity =>
         if negb (truthy (Some firstCharity)) then ret None
         else ret (Some (OSCRTransform.transformCharity firstCharity))
     | None => ret None
     end)
    (fun error =>
       if Errors.is_AuthenticationError error then throw error
       else ret None).

(** Get annual returns by internal charity UUID: [response.data ?? []],
    whatever the body is. *)
Definition getAnnualReturnsById (c : Client) (charityId : ParamValue)
  : M json :=
  try_catch
    (let queryString := buildQueryString (Obj.literal
       [ ("charityid", charityId) ]) in
     response <- get c ("/annualreturns" ++ queryString) ;;
     ret (or_empty (Some (data response))))
    (fun _ => ret (JArr [])).

(** [new Date(b.AccountingReferenceDate).getTime()
     - new Date(a.AccountingReferenceDate).getTime()] on two records that
    are not [null].  A difference that is [NaN] is read by the sort as
    zero. *)
Definition by_date_descending (a b : json) : Z :=
  match new_Date b@"AccountingReferenceDate",
        new_Date a@"AccountingReferenceDate" with
  | Some tb, Some ta => tb - ta
  | _, _ => 0
  end.

(** The record has a date the comparison can use. *)
Definition dated (r : json) : bool :=
  match new_Date r@"AccountingReferenceDate" with
  | Some _ => true
  | None => false
  end.

(** [returns.sort((a, b) => ...)] on an array.  Fewer than two elements
    are never compared.  Otherwise every element is compared at least
    once, and reading the date of a [null] element throws.  When every
    record has a date the comparison is a consistent order and the sort,
    being stable, is the insertion sort; when some date is missing the
    order is the engine's. *)
Definition sort_returns (returns : list json) : Outcome (list json) :=
  match returns with
  | [] | [_] => Returns returns
  | _ =>
      if existsb is_null returns then
        Throws (TypeError
          "Cannot read properties of null (reading 'AccountingReferenceDate')")
      else if forallb dated returns then Returns (sort by_date_descending returns)
      else Returns (Array_sort by_date_descending returns)
  end.

(** Get the most recent annual return (raw format). *)
Definition getLatestAnnualReturnRaw (c : Client) (charityId : ParamValue)
  : M (option json) :=
  returns <- getAnnualReturnsById c charityId ;;
  match length_of returns with
  | Some (JNum 0) => ret None
  | _ =>
      (* Sort by date descending and get first *)
      match returns with
      | JArr l =>
          sorted <- lift (sort_returns l) ;;
          match sorted with
          | first :: _ => ret (match first with JNull => None | _ => Some first end)
          | [] => ret None
          end
      | _ => throw (TypeError "returns.sort is not a function")
      end
  end.

(** Get annual returns for a charity. *)
Definition getAnnualReturns (c : Client) (id : string) : M (list FinancialYear) :=
  charity <- getCharity c id ;;
  match charity with
  | None => ret []
  | Some charity =>
      let raw := _raw charity in
      response <- getAnnualReturnsById c (internal_id raw) ;;
      lift (OSCRTransform.transformAnnualReturns response)
  end.

(** Get charity with enriched data from annual returns. *)
Definition getCharityWithFinancials (c : Client) (id : string)
  : M (option Charity) :=
  charity <- getCharity c id ;;
  match charity with
  | None => ret None
  | Some charity =>
      annualReturns <- getAnnualReturns c id ;;
      match annualReturns with
      | _ :: _ =>
          let raw := _raw charity in
          latestReturn <- getLatestAnnualReturnRaw c (internal_id raw) ;;
          match latestReturn with
          | Some latestReturn =>
              if truthy (Some latestReturn) then
                ret (Some (OSCRTransform.enrichCharityWithAnnualReturn
                             charity latestReturn))
              else ret (Some charity)
          | None => ret (Some charity)
          end
      | [] => ret (Some charity)
      end
  end.

End WithPlatform.

End OSCRClient.

(* ================================================================== *)
(** ** The six standard operations, as a caller reaches them *)

Module Client.

Import BaseClient.

Section WithPlatform.
Context {P : Platform}.

(** The methods a class defines.  [BaseClient] declares the six
    operations [abstract], which emits no code: an operation a subclass
    does not define is absent from the instance. *)
Record Methods : Type := mkMethods {
  m_search : option (Client -> SearchQuery -> M (SearchResult Charity));
  m_getCharity : option (Client -> string -> M (option Charity));
  m_searchByName :
    option (Client -> string -> option Z -> option Z -> M (SearchResult Charity));
  m_getTrustees : option (Client -> string -> M (list Trustee));
  m_getFinancialHistory : option (Client -> string -> M (list FinancialYear));
  m_getOtherRegulators : option (Client -> string -> M (list OtherRegulatorInfo))
}.

Definition methods (r : Regulator) : Methods :=
  match r with
  | CCEW =>
      {| m_search := Some CCEWClient.search;
         m_getCharity := Some CCEWClient.getCharity;
         m_searchByName := Some CCEWClient.searchByName;
         m_getTrustees := Some CCEWClient.getTrustees;
         m_getFinancialHistory := Some CCEWClient.getFinancialHistory;
         m_getOtherRegulators := Some CCEWClient.getOtherRegulators |}
  | CCNI =>
      {| m_search := Some CCNIClient.search;
         m_getCharity := Some CCNIClient.getCharity;
         m_searchByName :=
           Some (fun c name page _ => CCNIClient.searchByName c name page);
         m_getTrustees := Some CCNIClient.getTrustees;
         m_getFinancialHistory := Some CCNIClient.getFinancialHistory;
         m_getOtherRegulators := Some CCNIClient.getOtherRegulators |}
  | OSCR =>
      {| m_search := Some OSCRClient.search;
         m_getCharity := Some OSCRClient.getCharity;
         m_searchByName := None;
         m_getTrustees := None;
         m_getFinancialHistory := None;
         m_getOtherRegulators := None |}
  end.

(** [client.method(...)] on a method the instance may lack. *)
Definition invoke {F A} (method : string) (m : option F) (call : F -> M A) : M A :=
  match m with
  | Some f => call f
  | None => throw (TypeError ("client." ++ method ++ " is not a function"))
  end.

Definition methods_of (c : Client) : Methods := methods (cap_regulator (caps c)).

Definition search (c : Client) (query : SearchQuery) : M (SearchResult Charity) :=
  invoke "search" (m_search (methods_of c)) (fun f => f c query).

Definition getCharity (c : Client) (id : string) : M (option Charity) :=
  invoke "getCharity" (m_getCharity (methods_of c)) (fun f => f c id).

Definition searchByName (c : Client) (name : string) (page pageSize : option Z)
  : M (SearchResult Charity) :=
  invoke "searchByName" (m_searchByName (methods_of c)) (fun f => f c name page pageSize).

Definition getTrustees (c : Client) (id : string) : M (list Trustee) :=
  invoke "getTrustees" (m_getTrustees (methods_of c)) (fun f => f c id).

Definition getFinancialHistory (c : Client) (id : string) : M (list FinancialYear) :=
  invoke "getFinancialHistory" (m_getFinancialHistory (methods_of c)) (fun f => f c id).

Definition getOtherRegulators (c : Client) (id : string)
  : M (list OtherRegulatorInfo) :=
  invoke "getOtherRegulators" (m_getOtherRegulators (methods_of c)) (fun f => f c id).

End WithPlatform.

End Client.

(* ================================================================== *)
(** ** Sample upstreams, for running the definitions on concrete inputs *)

Module Sample.

Import Http.

Definition json_headers : Headers.t := [("content-type", "application/json")].

Definition answer (status : Z) (statusText : string) (hs : Headers.t)
           (text : string) : FetchOutcome :=
  Resolves (mkResponse status statusText hs text).

(** A [JSON.parse] that knows the given texts. *)
Definition parse_table (table : list (string * json)) (s : string) : option json :=
  assoc s table.

(** An upstream answering its successive invocations from [script], and
    with [otherwise] once the script is used up. *)
Definition platform (script : list FetchOutcome) (otherwise : FetchOutcome)
           (table : list (string * json)) : Platform :=
  {| fetch := fun n _ => nth n script otherwise;
     JSON_parse := parse_table table;
     JSON_stringify := js_to_string;
     Date_parse := fun _ => None;
     Array_sort := fun compare l => OSCRClient.sort compare l;
     double_ceil_quotient := fun x y => Fin (- ((- x) / y));
     double_product := fun x y => Fin (x * y) |}.

Definition key_config : ClientConfig :=
  mkClientConfig (Some "test-key") None None None None None.

Definition uncached_config : ClientConfig :=
  mkClientConfig (Some "test-key") None None None None
                 (Some (mkCacheConfig (Some false) None None)).

(** The instance and the starting world a constructor call gives. *)
Definition instance (made : Outcome (BaseClient.Client
                                     * option (LRUCache.t (option Charity))))
  : BaseClient.Client :=
  match made with
  | Returns (c, _) => c
  | Throws _ => BaseClient.mkClient CCNIClient.capabilities None "" 0 0 0
  end.

Definition start (made : Outcome (BaseClient.Client
                                  * option (LRUCache.t (option Charity))))
  : World :=
  match made with
  | Returns (_, cache) => BaseClient.initial_world cache
  | Throws _ => BaseClient.initial_world None
  end.

Definition ccew : BaseClient.Client := instance (CCEWClient.new key_config).
Definition ccni : BaseClient.Client := instance (CCNIClient.new empty_config).
Definition oscr : BaseClient.Client := instance (OSCRClient.new key_config).

Definition cached_world : World := start (CCNIClient.new empty_config).
Definition uncached_world : World := start (CCNIClient.new uncached_config).

End Sample.


(* ================================================================== *)
(** ** Vocabulary of the specification *)

(** *** Query strings *)

Definition kept_entry (kv : string * BaseClient.ParamValue) : bool :=
  BaseClient.kept (snd kv).

(** One [name=value] pair of the serialized query. *)
Definition pair_text (kv : string * BaseClient.ParamValue) : string :=
  URLSearchParams.encode (fst kv) ++ "="
    ++ URLSearchParams.encode (BaseClient.String_of (snd kv)).

(** The query string that lists the given entries in the given order. *)
Definition query_of (l : list (string * BaseClient.ParamValue)) : string :=
  match l with
  | [] => ""
  | _ => "?" ++ Str.join "&" (map pair_text l)
  end.

(** The specification's wording: the kept parameters, in the insertion
    order of the supplied parameter set. *)
Definition query_in_insertion_order (params : Obj.t BaseClient.ParamValue) : string :=
  query_of (List.filter kept_entry params).

(** The parameter set of the specification's example:
    [{page: 1, search: undefined, note: '', flag: false}]. *)
Definition example_params : Obj.t BaseClient.ParamValue :=
  Obj.literal
    [ ("page", BaseClient.PNumber 1); ("search", BaseClient.PUndefined);
      ("note", BaseClient.PString ""); ("flag", BaseClient.PBoolean false) ].

(** A parameter set whose second name is an array index: [{b: 'x', 1: 'y'}]. *)
Definition index_params : Obj.t BaseClient.ParamValue :=
  Obj.literal [ ("b", BaseClient.PString "x"); ("1", BaseClient.PString "y") ].

(** *** Rate limiting *)

(** A 429 answer as the request core sees it, with the given headers. *)
Definition too_many_requests (hs : Headers.t) : Http.HttpResponse :=
  Http.mkHttpResponse false 429 "Too Many Requests" hs (JStr "") "".

(** *** Search pages *)



(** The endpoint and query string [search] asks the upstream for. *)
Definition search_endpoint (r : Regulator) (query : SearchQuery) : string :=
  match r with
  | CCEW => CCEWClient.search_endpoint query
  | CCNI => CCNIClient.search_endpoint query
  | OSCR => OSCRClient.search_endpoint query
  end.





(** A CCNI aggregation group the transform can read: a record with an
    array of buckets, none of them [null]. *)
Definition bucketed (group : json) : bool :=
  negb (is_null group)
  && match group@"buckets" with
     | Some (JArr buckets) => negb (existsb is_null buckets)
     | _ => false
     end.

(** The body lists its records, none of them [null], where the transform
    looks for them. *)
Definition listed (r : Regulator) (body : json) : Prop :=
  match r with
  | CCEW =>
      exists records,
        body@"charities" = Some (JArr records) /\ existsb is_null records = false
  | OSCR =>
      exists records,
        body@"data" = Some (JArr records) /\ existsb is_null records = false
  | CCNI =>
      exists groups records,
        body@"aggregationGroups" = Some (JArr groups)
        /\ forallb bucketed groups = true
        /\ (truthy body@"onlyShow" = true ->
            bucketed (body@"onlyShow" ?? JNull) = true)
        /\ body@"pageItems" = Some (JArr records)
        /\ existsb is_null records = false
  end.



(** *** Worlds *)

(** The world after one more invocation of [fetch]. *)
Definition after_fetch (req : Http.Request) (w : World) : World :=
  mkWorld (fetch_calls w ++ [req]) (slept w) (clock w) (console_warn w) (cache w).

(** The world after waiting [ms] milliseconds before a retry. *)
Definition after_sleep (ms : Z) (w : World) : World :=
  mkWorld (fetch_calls w) (slept w ++ [ms]) (clock w + ms) (console_warn w) (cache w).

(** The world with another cache in place of the client's. *)
Definition with_cache (c : option (LRUCache.t (option Charity))) (w : World) : World :=
  mkWorld (fetch_calls w) (slept w) (clock w) (console_warn w) c.

(** *** Transport scenarios *)

Definition failed_500 : Http.Response :=
  Http.mkResponse 500 "Internal Server Error" [] "Internal Server Error".

Definition ok_200 : Http.Response :=
  Http.mkResponse 200 "OK" Sample.json_headers "{}".

Definition missing_404 : Http.Response :=
  Http.mkResponse 404 "Not Found" [] "Not Found".

Definition limited_429 : Http.Response :=
  Http.mkResponse 429 "Too Many Requests" [] "Too Many Requests".

(** An upstream that fails once and then succeeds. *)
Definition flaky_upstream : Platform :=
  Sample.platform [ Http.Resolves failed_500 ] (Http.Resolves ok_200)
                  [ ("{}", JObj []) ].

(** An upstream that fails on every attempt. *)
Definition failing_upstream : Platform :=
  Sample.platform [] (Http.Resolves failed_500) [].

(** An upstream that knows no charity. *)
Definition absent_upstream : Platform :=
  Sample.platform [] (Http.Resolves missing_404) [].

(** An upstream that limits every request. *)
Definition limiting_upstream : Platform :=
  Sample.platform [] (Http.Resolves limited_429) [].

(** *** Identifiers *)



(** *** Enrichment scenario *)

(** An OSCR record as the upstream returns it. *)
Definition stoneyburn : json :=
  JObj [ ("id", JStr "a1b2c3"); ("charityName", JStr "Stoneyburn Community Education Centre");
         ("charityNumber", JStr "SC000001"); ("charityStatus", JStr "Active") ].

Definition one_charity : json :=
  JObj [ ("currentPage", JNum 1); ("totalPages", JNum 1); ("data", JArr [stoneyburn]) ].

(** An upstream that knows the charity and has no annual return for it. *)
Definition no_returns_upstream : Platform :=
  Sample.platform
    [ Sample.answer 200 "OK" Sample.json_headers "charity";
      Sample.answer 200 "OK" Sample.json_headers "charity";
      Sample.answer 200 "OK" Sample.json_headers "[]" ]
    (Sample.answer 200 "OK" Sample.json_headers "[]")
    [ ("charity", one_charity); ("[]", JArr []) ].

Definition oscr_world : World := Sample.start (OSCRClient.new Sample.key_config).

(** *** Lookups and the cache *)

(** The endpoint and query string [getCharity] asks the upstream for. *)
Definition lookup_endpoint (r : Regulator) (id : string) : string :=
  match r with
  | CCEW => CCEWClient.details_endpoint (Str.filter Str.is_digit id)
  | CCNI => CCNIClient.details_endpoint (CCNIClient.strip_NIC id)
  | OSCR => OSCRClient.charity_endpoint (OSCRClient.with_SC id)
  end.

(** The cache key [getCharity] consults first; the OSCR client of the
    source consults none. *)
Definition lookup_key {P : Platform} (c : BaseClient.Client) (id : string)
  : option string :=
  match BaseClient.cap_regulator (BaseClient.caps c) with
  | CCEW => Some (BaseClient.getCacheKey c "getCharity"
                                         (inl (Str.filter Str.is_digit id)))
  | CCNI => Some (BaseClient.getCacheKey c "getCharity"
                                         (inl (CCNIClient.strip_NIC id)))
  | OSCR => None
  end.

(** The cache consultation that precedes the upstream lookup. *)
Definition probe {P : Platform} (c : BaseClient.Client) (id : string)
  : M (option (option Charity)) :=
  match lookup_key c id with
  | Some k => BaseClient.getCached k
  | None => ret None
  end.

(** A success body that stands for "no such record". *)
Definition placeholder (r : Regulator) (data : json) : bool :=
  match r with
  | CCEW => negb (truthy (Some data)) || negb (truthy data@"registeredCharityNumber")
  | CCNI => negb (truthy (Some data)) || negb (truthy data@"regCharityNumber")
  | OSCR => negb (truthy (first_of data@"data"))
  end.

(** The shape the CCEW and CCNI [getCharity] share: consult the cache; on a
    miss look the record up, store what is returned, and turn the errors
    selected by [swallow] into a stored [null]. *)
Definition cached_lookup (key : string) (lookup : M Http.HttpResponse)
           (absent : json -> bool) (transform : json -> Outcome Charity)
           (swallow : Exn -> bool) : M (option Charity) :=
  cached <- BaseClient.getCached key ;;
  match cached with
  | Some hit => ret hit
  | None =>
      try_catch
        (response <- lookup ;;
         if absent (Http.data response)
         then BaseClient.setCache key None ;;; ret None
         else
           result <- lift (transform (Http.data response)) ;;
           BaseClient.setCache key (Some result) ;;; ret (Some result))
        (fun error =>
           if swallow error then BaseClient.setCache key None ;;; ret None
           else throw error)
  end.

(** The cache is enabled and able to hold an entry for a while. *)
Definition caching (w : World) : Prop :=
  match cache w with
  | Some ch => (1 <= LRUCache.max ch)%nat /\ 0 < LRUCache.ttl ch
  | None => False
  end.

(** The cache is enabled and holds nothing yet, as after construction or
    [clearCache]. *)
Definition caching_afresh (w : World) : Prop :=
  match cache w with
  | Some ch => (1 <= LRUCache.max ch)%nat /\ 0 < LRUCache.ttl ch
               /\ LRUCache.entries ch = []
  | None => False
  end.

(** The cache holds a live entry for [k] with value [v], most recently used. *)
Definition holds (k : string) (v : option Charity) (w : World) : Prop :=
  exists ch e rest,
    cache w = Some ch
    /\ LRUCache.entries ch = e :: rest
    /\ LRUCache.key e = k /\ LRUCache.value e = v
    /\ clock w < LRUCache.stored_at e + LRUCache.ttl ch.

(** The upstream answers its invocation number [n] with a 404, whatever
    the request. *)
Definition answers_404 {P : Platform} (n : nat) : Prop :=
  forall req, exists r, fetch n req = Http.Resolves r /\ Http.status r = 404.

(** An upstream that rejects the credential. *)
Definition unauthorized_upstream : Platform :=
  Sample.platform [] (Sample.answer 401 "Unauthorized" [] "Unauthorized") [].

(** An upstream whose search answers carry an empty CCEW page. *)
Definition empty_page : json :=
  JObj [ ("charities", JArr []); ("totalResults", JNum 0);
         ("pageNumber", JNum 1); ("pageSize", JNum 20) ].

Definition search_upstream : Platform :=
  Sample.platform [] (Sample.answer 200 "OK" Sample.json_headers "page")
                  [ ("page", empty_page) ].

(** What a call of the request core does not touch, and that it reaches
    the upstream. *)
Definition reaches_upstream (w w' : World) : Prop :=
  cache w' = cache w /\ console_warn w' = console_warn w
  /\ (fetches w < fetches w')%nat.

(** The errors [getCharity] turns into [null], per client. *)
Definition swallowed (r : Regulator) (e : Exn) : bool :=
  match r with
  | CCNI => Errors.is_CharityNotFoundError e
  | CCEW | OSCR =>
      Errors.is_CharityNotFoundError e || negb (Errors.is_AuthenticationError e)
  end.

Definition ccew_world : World := Sample.start (CCEWClient.new Sample.key_config).

(* ================================================================== *)
(** ** Further vocabulary *)

(** The delays waited before the retries number [first .. first + k - 1]. *)
Definition backoff_delays (config : Transport.RetryConfig) (first k : nat) : list Z :=
  map (fun i => Transport.calculateDelay i config) (seq first k).

(** The retry configuration the request core hands to the transport. *)
Definition core_retry_config (c : BaseClient.Client) : Transport.RetryConfig :=
  Transport.merge_retry
    (Transport.mkRetryOverrides (Some (BaseClient.retryAttempts c))
                                (Some (BaseClient.retryDelay c)) None None).

(** The request every attempt of [get] gives to [fetch]. *)
Definition get_request (c : BaseClient.Client) (endpoint : string) : Http.Request :=
  Http.mkRequest
    (BaseClient.baseUrl c ++ endpoint) Http.GET
    (Obj.spread (Obj.literal [("Accept", "application/json")])
                (BaseClient.getAuthHeaders (BaseClient.caps c) (BaseClient.apiKey c)))
    None (BaseClient.timeout c).

(** The value an object built by successive assignments holds for [k]:
    the last one written. *)
Definition own {V} (k : string) (o : list (string * V)) : option V :=
  assoc k (rev o).

(** Occurrences of a character in a string. *)
Fixpoint count_char (ch : ascii) (s : string) : nat :=
  match s with
  | EmptyString => O
  | String a r => (if Ascii.eqb ch a then 1 else 0) + count_char ch r
  end.

(** The accounting date of an annual return, when it parses. *)
Definition return_date {P : Platform} (annualReturn : json) : option Date :=
  new_Date annualReturn@"AccountingReferenceDate".

(** The seven filters the CCNI search understands. *)
Definition ccni_filter_names : list string :=
  [ "onlyShow"; "income"; "classification1"; "classification2";
    "classification3"; "aooa"; "aood" ].

(** An upstream whose every invocation is rejected as a network failure. *)
Definition unreachable_upstream : Platform :=
  Sample.platform [] (Http.Rejects (mkJSError "TypeError" "fetch failed")) [].

(** The trace and the outcome of the attempts from a given one on. *)
Definition traced {P : Platform} (req : Http.Request) (config : Transport.RetryConfig) (left attempt : nat)
           (w : World) (result : Outcome Http.HttpResponse * World) : Prop :=
  exists k,
    (k <= left)%nat
    /\ fetch_calls (snd result) = (fetch_calls w ++ repeat req (S k))%list
    /\ slept (snd result) = (slept w ++ backoff_delays config attempt k)%list
    /\ cache (snd result) = cache w
    /\ console_warn (snd result) = console_warn w
    /\ match fst result with
       | Returns resp =>
           exists a, fetch (fetches w + k) req = Http.Resolves a /\ resp = Transport.wrap a
                     /\ ((k < left)%nat ->
                         Http.ok a = true \/ Transport.isRetryable (Http.status a) = false)
       | Throws e =>
           exists cause, fetch (fetches w + k) req = Http.Rejects cause
                         /\ e = NetworkError cause
                         /\ ((k < left)%nat -> Transport.isNetworkError cause = false)
       end.


(** The request every attempt of [request] gives to [fetch]: the client's
    base address and timeout, and the merged headers. *)
Definition core_request {P : Platform} (c : BaseClient.Client) (endpoint : string)
           (options : Transport.HttpRequestOptions) : Http.Request :=
  Transport.fetch_arguments
    (BaseClient.baseUrl c ++ endpoint)
    (Transport.mkOptions
       (Transport.opt_method options)
       (Some (Obj.spread
                (Obj.spread (Obj.literal [("Accept", "application/json")])
                            (BaseClient.getAuthHeaders (BaseClient.caps c)
                                                       (BaseClient.apiKey c)))
                (Transport.opt_headers options ?? [])))
       (Transport.opt_body options)
       (Some (BaseClient.timeout c))
       (Some (Transport.mkRetryOverrides (Some (BaseClient.retryAttempts c))
                                         (Some (BaseClient.retryDelay c))
                                         None None))).

(** One of the five kinds of the error taxonomy. *)
Definition classified (e : Exn) : bool :=
  match e with
  | PlainError _ => false
  | _ => true
  end.

(** From [w] to [w'] the request core was called at least [lo] and at most
    [hi] times: every call invokes [fetch] at least once and at most
    [1 + retryAttempts] times. *)
Definition core_calls (lo hi : nat) (c : BaseClient.Client) (w w' : World) : Prop :=
  (fetches w + lo <= fetches w')%nat
  /\ (fetches w' <= fetches w + hi * (1 + BaseClient.retryAttempts c))%nat.

(** An operation that answers with the empty list instead of throwing: it
    leaves the world as its one upstream call left it, always returns, and
    returns the empty list when that call failed. *)
Definition fails_empty {A} (upstream : M Http.HttpResponse) (operation : M (list A))
           (w : World) : Prop :=
  snd (operation w) = snd (upstream w)
  /\ match fst (operation w) with
     | Throws _ => False
     | Returns l =>
         match fst (upstream w) with
         | Throws _ => l = []
         | Returns _ => True
         end
     end.

(** The endpoint of a CCEW operation on one registered number. *)
Definition ccew_endpoint (path id : string) : string :=
  path ++ BaseClient.buildQueryString
            (Obj.literal [ ("registeredCharityNumber",
                            BaseClient.PString (Str.filter Str.is_digit id)) ]).

(** The endpoints of the lookups with a linked or subsidiary number. *)
Definition linked_endpoint (regNumber : string) (linkedNumber : string + Z) : string :=
  "/allcharitydetails/GetAllCharityDetailsV2"
  ++ BaseClient.buildQueryString
       (Obj.literal
          [ ("registeredCharityNumber",
             BaseClient.PString (Str.filter Str.is_digit regNumber));
            ("linkedCharityNumber", CCEWClient.number_or_string linkedNumber) ]).

Definition subsidiary_endpoint (regId : string) (subId : string + Z) : string :=
  "/getCharityDetails"
  ++ BaseClient.buildQueryString
       (Obj.literal
          [ ("regId", BaseClient.PString (CCNIClient.strip_NIC regId));
            ("subId", CCEWClient.number_or_string subId) ]).

(** A lookup that goes to the upstream on every call, leaves the cache
    alone, turns "not found" into [null] and lets every other error
    through unchanged. *)
Definition not_found_only {A} (upstream : M Http.HttpResponse)
           (operation : M (option A)) (w : World) : Prop :=
  reaches_upstream w (snd (operation w))
  /\ snd (operation w) = snd (upstream w)
  /\ match fst (upstream w) with
     | Throws e =>
         fst (operation w)
         = if Errors.is_CharityNotFoundError e then Returns None else Throws e
     | Returns _ => True
     end
  /\ match fst (operation w) with
     | Throws e => Errors.is_CharityNotFoundError e = false
     | Returns _ => True
     end.

(** The fields that say which charity a record is about. *)
Definition same_identity (a b : Charity) : Prop :=
  id a = id b /\ regulator a = regulator b
  /\ registrationNumber a = registrationNumber b
  /\ name a = name b /\ status a = status b /\ _raw a = _raw b.

(** [a] is a date and not later than the date [b]. *)
Definition not_after (a b : option Date) : Prop :=
  match a, b with
  | Some x, Some y => x <= y
  | _, _ => False
  end.

(** An upstream with two annual returns, the older one listed first. *)
Definition two_returns : json :=
  JArr [ JObj [ ("AccountingReferenceDate", JStr "2022-03-31");
                ("GrossIncome", JNum 1000) ];
         JObj [ ("AccountingReferenceDate", JStr "2023-03-31");
                ("GrossIncome", JNum 2000) ] ].

Definition dated_upstream : Platform :=
  {| fetch := fun _ _ => Sample.answer 200 "OK" Sample.json_headers "returns";
     JSON_parse := Sample.parse_table [ ("returns", two_returns) ];
     JSON_stringify := js_to_string;
     Date_parse := fun s =>
       if String.eqb s "2022-03-31" then Some 1648684800000
       else if String.eqb s "2023-03-31" then Some 1680220800000
       else None;
     Array_sort := fun compare l => OSCRClient.sort compare l;
     double_ceil_quotient := fun x y => Fin (- ((- x) / y));
     double_product := fun x y => Fin (x * y) |}.

(** The first element of a list of annual returns carries a date and no
    element carries a later one. *)
Definition headed_by_latest {P : Platform} (l : list json) : Prop :=
  match l with
  | [] => True
  | first :: _ => forall r, In r l -> not_after (return_date r) (return_date first)
  end.

(** The number of parameters [buildQueryString] keeps. *)
Definition kept_count (params : Obj.t BaseClient.ParamValue) : nat :=
  List.length (List.filter kept_entry params).

(** The value of a search filter that takes part in a CCNI search: absent
    and empty values do not. *)
Definition effective_filter (filters : Obj.t string) (k : string) : option string :=
  match assoc k filters with
  | Some v => if Str.is_empty v then None else Some v
  | None => None
  end.

(** Two queries that differ in what the CCNI search does not read. *)
Definition busy_query : SearchQuery :=
  mkSearchQuery (Some "hospice") None (Some 50)
                (Some [ ("income", "1"); ("colour", "red"); ("aooa", "") ]).

Definition plain_query : SearchQuery :=
  mkSearchQuery (Some "hospice") (Some 1) None (Some [ ("income", "1") ]).

(** The requests a call added to the log. *)
Definition new_calls (w w' : World) : list Http.Request :=
  skipn (fetches w) (fetch_calls w').

(** A request as [get] makes it: a GET without body of an address under
    the client's base URL, with the client's timeout, the default [Accept]
    header and the regulator's credential header. *)
Definition core_get (c : BaseClient.Client) (req : Http.Request) : Prop :=
  exists endpoint, req = get_request c endpoint.

(** From [w] to [w'] the log of invocations grew by requests of that kind
    only. *)
Definition only_gets (c : BaseClient.Client) (w w' : World) : Prop :=
  exists l, fetch_calls w' = (fetch_calls w ++ l)%list /\ Forall (core_get c) l.

(** Synchronous code that throws nothing but a [TypeError]. *)
Definition only_TypeError {A} (o : Outcome A) : Prop :=
  match o with
  | Throws e => exists message, e = TypeError message
  | Returns _ => True
  end.

(** An exception of the taxonomy or a [TypeError] of the runtime. *)
Definition classified_or_TypeError (e : Exn) : Prop :=
  classified e = true \/ exists message, e = TypeError message.
(* ================================================================== *)
(** ** Vocabulary of identifier normalization *)









(* ================================================================== *)
(** * Properties *)

(** ** Query strings *)

Section QueryStrings.

Import BaseClient.

Lemma collect_kept (l : list (string * ParamValue)) (acc : URLSearchParams.t) :
  fold_left
    (fun sp kv =>
       if kept (snd kv)
       then URLSearchParams.append (fst kv) (String_of (snd kv)) sp
       else sp) l acc
  = (acc ++ map (fun kv => (fst kv, String_of (snd kv)))
                (List.filter kept_entry l))%list.
Proof.
  revert acc; induction l as [|kv l IH]; intros acc; simpl.
  - now rewrite app_nil_r.
  - unfold kept_entry at 1. destruct (kept (snd kv)); simpl.
    + rewrite IH. unfold URLSearchParams.append.
      now rewrite <- app_assoc.
    + apply IH.
Qed.

Lemma append_nonempty (a b : string) :
  Str.is_empty (a ++ "=" ++ b) = false.
Proof. destruct a; reflexivity. Qed.

Lemma join_nonempty (x : string) (l : list string) :
  Str.is_empty x = false -> Str.is_empty (Str.join "&" (x :: l)) = false.
Proof.
  intros Hx. destruct x as [|c x]; [discriminate|].
  destruct l; reflexivity.
Qed.

(** [buildQueryString] lists exactly the kept entries, in the order in
    which [Object.entries] enumerates the parameter object. *)
Lemma buildQueryString_entries (params : Obj.t ParamValue) :
  buildQueryString params = query_of (List.filter kept_entry (Obj.entries params)).
Proof.
  unfold buildQueryString. rewrite collect_kept. simpl.
  unfold URLSearchParams.toString. rewrite map_map.
  destruct (List.filter kept_entry (Obj.entries params)) as [|kv l]; [reflexivity|].
  change (map _ (kv :: l)) with (map pair_text (kv :: l)).
  change (map pair_text (kv :: l)) with (pair_text kv :: map pair_text l).
  rewrite join_nonempty by apply append_nonempty.
  reflexivity.
Qed.

(** Names that are not array indices are enumerated as they were created. *)
Lemma entries_insertion_order {V} (o : Obj.t V) :
  (forall k v, In (k, v) o -> Obj.array_index k = None) ->
  Obj.entries o = o.
Proof.
  intros H. unfold Obj.entries.
  assert (Hidx : Obj.index_entries o = []).
  { induction o as [|[k v] o IH]; [reflexivity|]. simpl.
    rewrite (H k v) by (left; reflexivity).
    apply IH. intros k' v' Hin. apply (H k' v'). now right. }
  assert (Hnamed : Obj.named_entries o = o).
  { unfold Obj.named_entries.
    induction o as [|[k v] o IH]; [reflexivity|]. simpl.
    rewrite (H k v) by (left; reflexivity). f_equal.
    apply IH.
    - intros k' v' Hin. apply (H k' v'). now right.
    - simpl in Hidx. rewrite (H k v) in Hidx by (left; reflexivity). exact Hidx. }
  now rewrite Hidx, Hnamed.
Qed.

(** C9, as amended.  For every parameter map, [buildQueryString] skips the
    entries whose value is [undefined], [null] or the empty string and keeps
    every other value, explicit [0] and [false] included, in the order in
    which [Object.entries] enumerates the map; that is the insertion order
    whenever no parameter name is an array index.  On the example of the
    specification the result is [?page=1&flag=false]. *)
Theorem buildQueryString_kept_in_enumeration_order (params : Obj.t ParamValue) :
  buildQueryString params = query_of (List.filter kept_entry (Obj.entries params))
  /\ ((forall k v, In (k, v) params -> Obj.array_index k = None) ->
      buildQueryString params = query_in_insertion_order params)
  /\ (forall k v, kept_entry (k, v) = false <->
                  v = PUndefined \/ v = PNull \/ v = PString "")
  /\ buildQueryString example_params = "?page=1&flag=false".
Proof.
  split; [apply buildQueryString_entries|].
  split.
  { intros H. rewrite buildQueryString_entries.
    now rewrite (entries_insertion_order params H). }
  split; [|reflexivity].
  intros k v. unfold kept_entry; simpl. split.
  - destruct v as [| |s|n|b|text]; simpl; intros E; try discriminate; auto.
    destruct s; [auto|discriminate].
  - intros [->|[->| ->]]; reflexivity.
Qed.

Lemma example_params_named :
  forall k v, In (k, v) example_params -> Obj.array_index k = None.
Proof.
  intros k v Hin. simpl in Hin.
  destruct Hin as [E|[E|[E|[E|[]]]]]; inversion E; reflexivity.
Qed.

Lemma buildQueryString_kept_in_enumeration_order_witness :
  (forall k v, In (k, v) example_params -> Obj.array_index k = None)
  /\ buildQueryString example_params = query_in_insertion_order example_params.
Proof.
  split; [exact example_params_named|].
  exact (proj1 (proj2 (buildQueryString_kept_in_enumeration_order example_params))
               example_params_named).
Defined.

(** C9, as stated, fails on a map with an array-index name: [{b: 'x', 1: 'y'}]
    is serialized with [1] first, not in insertion order. *)
Lemma buildQueryString_not_insertion_order :
  buildQueryString index_params = "?1=y&b=x"
  /\ query_in_insertion_order index_params = "?b=x&1=y"
  /\ buildQueryString index_params <> query_in_insertion_order index_params.
Proof.
  split; [reflexivity|]. split; [reflexivity|].
  intros E. vm_compute in E. discriminate E.
Qed.

End QueryStrings.

(* ================================================================== *)
(** ** Enrichment is a frame-preserving update *)

(** C10.  For every normalized record and every annual return,
    [enrichCharityWithAnnualReturn] returns a record in which only
    [employeeCount], [trusteeCount], [latestIncome], [latestExpenditure] and
    [financialYearEnd] may differ from the input: every other field is the
    input's.  The function is pure: the result is a new record and the input
    is the same value after the call as before. *)
Theorem enrich_changes_only_five_fields
        {P : Platform} (charity : Charity) (annualReturn : json) :
  let enriched := OSCRTransform.enrichCharityWithAnnualReturn charity annualReturn in
  id enriched = id charity
  /\ regulator enriched = regulator charity
  /\ registrationNumber enriched = registrationNumber charity
  /\ subsidiaryNumber enriched = subsidiaryNumber charity
  /\ companyNumber enriched = companyNumber charity
  /\ name enriched = name charity
  /\ otherNames enriched = otherNames charity
  /\ status enriched = status charity
  /\ registeredDate enriched = registeredDate charity
  /\ removedDate enriched = removedDate charity
  /\ website enriched = website charity
  /\ email enriched = email charity
  /\ phone enriched = phone charity
  /\ address enriched = address charity
  /\ volunteerCount enriched = volunteerCount charity
  /\ purposes enriched = purposes charity
  /\ beneficiaries enriched = beneficiaries charity
  /\ activities enriched = activities charity
  /\ areasOfOperation enriched = areasOfOperation charity
  /\ organisationType enriched = organisationType charity
  /\ governingDocumentType enriched = governingDocumentType charity
  /\ charitableObjects enriched = charitableObjects charity
  /\ publicBenefit enriched = publicBenefit charity
  /\ activityDescription enriched = activityDescription charity
  /\ _raw enriched = _raw charity.
Proof. cbv zeta. repeat split. Qed.

(** Each of the five fields takes the annual return's value when it has
    one and keeps the input's otherwise. *)
Lemma enrich_five_fields {P : Platform} (charity : Charity) (annualReturn : json) :
  let enriched := OSCRTransform.enrichCharityWithAnnualReturn charity annualReturn in
  employeeCount enriched
    = match num_or_null annualReturn@"PaidStaff" with
      | Some n => Some n | None => employeeCount charity end
  /\ trusteeCount enriched
    = match num_or_null annualReturn@"TotalNumberofCharityTrustees" with
      | Some n => Some n | None => trusteeCount charity end
  /\ latestIncome enriched
    = match num_or_null annualReturn@"GrossIncome" with
      | Some n => Some n | None => latestIncome charity end
  /\ latestExpenditure enriched
    = match num_or_null annualReturn@"GrossExpenditure" with
      | Some n => Some n | None => latestExpenditure charity end
  /\ financialYearEnd enriched
    = match parseDate annualReturn@"AccountingReferenceDate" with
      | Some d => Some d | None => financialYearEnd charity end.
Proof. cbv zeta. repeat split. Qed.

(** An annual return that carries none of the five values leaves the
    record as it was. *)
Lemma enrich_with_empty_return {P : Platform} (charity : Charity) :
  OSCRTransform.enrichCharityWithAnnualReturn charity (JObj []) = charity.
Proof. destruct charity; reflexivity. Qed.

(* ================================================================== *)
(** ** The retry-after value of a rate-limit error *)

Lemma digits_all (s : string) (seen : bool) (acc : Z) :
  Str.forallb Str.is_digit s = true ->
  (seen = true \/ s <> "") ->
  ParseInt.digits s seen acc = Some (Obj.digits_value s acc).
Proof.
  revert seen acc. induction s as [|c s IH]; intros seen acc Hall Hne; simpl.
  - destruct Hne as [->|Hne]; [reflexivity|congruence].
  - simpl in Hall. apply andb_true_iff in Hall as [Hc Hs].
    rewrite Hc. apply IH; auto.
Qed.

(** [parseInt] of a string of decimal digits is the number they denote. *)
Lemma parseInt_digits (s : string) :
  Str.forallb Str.is_digit s = true -> s <> "" ->
  ParseInt.parseInt s = Fin (Obj.digits_value s 0).
Proof.
  intros Hall Hne. unfold ParseInt.parseInt.
  destruct s as [|c s]; [congruence|].
  assert (Hc : Str.is_digit c = true)
    by (simpl in Hall; now apply andb_true_iff in Hall).
  assert (Hskip : ParseInt.skip_spaces (String c s) = String c s).
  { simpl. replace (ParseInt.is_space c) with false; [reflexivity|].
    revert Hc. unfold Str.is_digit, ParseInt.is_space.
    destruct (Nat.leb_spec 48 (nat_of_ascii c)), (Nat.leb_spec (nat_of_ascii c) 57);
      simpl; try discriminate; intros _.
    destruct (Nat.leb_spec (nat_of_ascii c) 13); [lia|].
    rewrite andb_false_r. simpl. symmetry. apply Nat.eqb_neq. lia. }
  rewrite Hskip.
  assert (Hsign : (let '(sign, body) :=
                     match String c s with
                     | String "-" r => (-1, r)
                     | String "+" r => (1, r)
                     | _ => (1, String c s)
                     end in
                   match ParseInt.digits body false 0 with
                   | Some n => Fin (sign * n)
                   | None => NaN
                   end)
                  = match ParseInt.digits (String c s) false 0 with
                    | Some n => Fin (1 * n)
                    | None => NaN
                    end).
  { destruct c as [[] [] [] [] [] [] [] []]; try reflexivity; discriminate Hc. }
  rewrite Hsign, digits_all by (auto; right; discriminate).
  f_equal. lia.
Qed.

(** The part of C3 that holds: a 429 answer whose [Retry-After] header is a
    string of decimal digits yields that number. *)
Lemma retryAfter_of_integer_header (s : string) :
  Str.forallb Str.is_digit s = true -> s <> "" ->
  BaseClient.handleErrorResponse (too_many_requests [("Retry-After", s)])
  = RateLimitError (Some (Fin (Obj.digits_value s 0))).
Proof.
  intros Hall Hne.
  unfold BaseClient.handleErrorResponse, too_many_requests; simpl.
  unfold Errors.new_RateLimitError, Headers.get; simpl.
  destruct s as [|c s]; [congruence|]. simpl Str.is_empty. cbv iota.
  rewrite parseInt_digits by auto.
  simpl. now rewrite andb_false_r.
Qed.

(** The part of C3 that holds: without the header the field is unset. *)
Lemma retryAfter_of_absent_header :
  BaseClient.handleErrorResponse (too_many_requests []) = RateLimitError None.
Proof. reflexivity. Qed.

(** Whatever the header holds, the value it yields is never reset: the guard
    [this.retryAfter && isNaN(this.retryAfter)] is false for every number,
    because [NaN] is falsy. *)
Lemma retryAfter_guard_never_fires (n : JSNum) :
  num_truthy n && isNaN n = false.
Proof. destruct n; simpl; auto using andb_false_r. Qed.

(** C3 at the failing input.  A 429 answer whose [Retry-After] header is
    not numeric yields a [RateLimitError] whose [retryAfter] is [NaN], where
    the claim says it is left unset. *)
Theorem retryAfter_of_non_numeric_header_is_NaN :
  BaseClient.handleErrorResponse (too_many_requests [("Retry-After", "invalid")])
  = RateLimitError (Some NaN).
Proof. reflexivity. Qed.
(* ================================================================== *)
(** ** Synchronous code that may throw *)

Lemma and_then_returns {A B} (o : Outcome A) (k : A -> Outcome B) (b : B) :
  and_then o k = Returns b -> exists a, o = Returns a /\ k a = Returns b.
Proof. destruct o as [a|e]; simpl; [eauto|discriminate]. Qed.

Lemma map_records_returns {A} (what : string) (f : json -> A) (l : list json)
      (r : list A) :
  map_records what f l = Returns r -> r = map f l /\ existsb is_null l = false.
Proof.
  unfold map_records. destruct (existsb is_null l); [discriminate|].
  now inversion 1.
Qed.




Lemma lift_returns {A} (o : Outcome A) (w w' : World) (a : A) :
  lift o w = (Returns a, w') -> o = Returns a.
Proof. unfold lift. now inversion 1. Qed.

Lemma only_TypeError_throws {A} (o : Outcome A) (e : Exn) :
  only_TypeError o -> o = Throws e -> exists message, e = TypeError message.
Proof. intros H ->. exact H. Qed.

Lemma and_then_only_TypeError {A B} (o : Outcome A) (k : A -> Outcome B) :
  only_TypeError o -> (forall a, only_TypeError (k a)) ->
  only_TypeError (and_then o k).
Proof. destruct o as [a|e]; simpl; auto. Qed.

Lemma array_at_only_TypeError (k : string) (raw : json) :
  only_TypeError (array_at k raw).
Proof.
  unfold array_at, only_TypeError.
  destruct raw; eauto; destruct (prop k _) as [[]|]; eauto.
Qed.

Lemma array_at_throws_TypeError (k : string) (raw : json) (e : Exn) :
  array_at k raw = Throws e -> exists message, e = TypeError message.
Proof. apply only_TypeError_throws, array_at_only_TypeError. Qed.

Lemma map_records_only_TypeError {A} (what : string) (f : json -> A) (l : list json) :
  only_TypeError (map_records what f l).
Proof. unfold map_records. destruct (existsb is_null l); simpl; eauto. Qed.

Lemma map_array_only_TypeError {A} (what : string) (f : json -> A) (raw : json) :
  only_TypeError (map_array what f raw).
Proof.
  unfold map_array.
  destruct raw; simpl; eauto. apply map_records_only_TypeError.
Qed.

Lemma traverse_only_TypeError {A B} (f : A -> Outcome B) (l : list A) :
  (forall x, only_TypeError (f x)) -> only_TypeError (traverse f l).
Proof.
  intros Hf. induction l as [|x l IH]; simpl; [exact I|].
  apply and_then_only_TypeError; [apply Hf|]. intros y.
  apply and_then_only_TypeError; [exact IH|]. intros ys. exact I.
Qed.

Lemma iterate_only_TypeError (what : string) (v : jsval) :
  only_TypeError (iterate what v).
Proof. destruct v as [[]|]; simpl; eauto. Qed.


Lemma TypeError_not_classified (e : Exn) :
  (exists message, e = TypeError message) ->
  classified e = false
  /\ Errors.is_AuthenticationError e = false
  /\ Errors.is_CharityNotFoundError e = false.
Proof. intros [message ->]. repeat split. Qed.

Section TransformsThrow.

Context {P : Platform}.

Lemma CCEW_transformDetails_only_TypeError (raw : json) :
  only_TypeError (CCEWTransform.transformDetails raw).
Proof.
  assert (Hnames : forall v, only_TypeError (CCEWTransform.otherNames_of v)).
  { intros [[]|]; simpl; eauto. apply map_records_only_TypeError. }
  assert (Hspread : forall v, only_TypeError (CCEWTransform.spread_of v)).
  { intros [v|]; [|exact I]. unfold CCEWTransform.spread_of.
    destruct v; try exact I;
      (apply and_then_only_TypeError; [apply iterate_only_TypeError|];
       intros l; exact I). }
  unfold CCEWTransform.transformDetails.
  destruct raw; try (cbn; eauto; fail);
    (apply and_then_only_TypeError; [apply Hnames|]; intros names;
     apply and_then_only_TypeError; [apply Hspread|]; intros regions;
     apply and_then_only_TypeError; [apply Hspread|]; intros countries;
     apply and_then_only_TypeError; [apply Hspread|]; intros localAuthorities;
     exact I).
Qed.

Lemma CCEW_transformSearchResponse_only_TypeError (raw : json) :
  only_TypeError (CCEWTransform.transformSearchResponse raw).
Proof.
  unfold CCEWTransform.transformSearchResponse.
  apply and_then_only_TypeError; [apply array_at_only_TypeError|]. intros l.
  apply and_then_only_TypeError; [apply map_records_only_TypeError|]. intros s.
  exact I.
Qed.

Lemma add_group_only_TypeError (a : SearchAggregations) (group : json) :
  only_TypeError (CCNITransform.add_group a group).
Proof.
  unfold CCNITransform.add_group.
  destruct group; try (cbn; eauto; fail);
    (destruct (prop "buckets" _) as [[]|]; try (cbn; eauto; fail);
     apply and_then_only_TypeError; [apply map_records_only_TypeError|];
     intros bs; exact I).
Qed.

Lemma add_groups_only_TypeError (groups : list json) (a : SearchAggregations) :
  only_TypeError (CCNITransform.add_groups a groups).
Proof.
  revert a. induction groups as [|g groups IH]; intros a; simpl; [exact I|].
  apply and_then_only_TypeError; [apply add_group_only_TypeError|]. exact IH.
Qed.

Lemma CCNI_transformSearchResponse_only_TypeError (raw : json) :
  only_TypeError (CCNITransform.transformSearchResponse raw).
Proof.
  unfold CCNITransform.transformSearchResponse.
  destruct raw; try (cbn; eauto; fail);
    (apply and_then_only_TypeError; [apply iterate_only_TypeError|]; intros groups;
     apply and_then_only_TypeError; [apply add_groups_only_TypeError|]; intros a1;
     apply and_then_only_TypeError;
       [destruct (truthy _); [apply add_group_only_TypeError|exact I]|];
     intros a2;
     apply and_then_only_TypeError; [apply array_at_only_TypeError|]; intros l;
     apply and_then_only_TypeError; [apply map_records_only_TypeError|]; intros s;
     exact I).
Qed.

Lemma OSCR_transformAllCharitiesResponse_only_TypeError (raw : json) :
  only_TypeError (OSCRTransform.transformAllCharitiesResponse raw).
Proof.
  unfold OSCRTransform.transformAllCharitiesResponse.
  apply and_then_only_TypeError; [apply array_at_only_TypeError|]. intros l.
  apply and_then_only_TypeError; [apply map_records_only_TypeError|]. intros s.
  exact I.
Qed.

Lemma OSCR_transformAnnualReturns_only_TypeError (raw : json) :
  only_TypeError (OSCRTransform.transformAnnualReturns raw).
Proof.
  unfold OSCRTransform.transformAnnualReturns.
  destruct raw; simpl; eauto. apply map_records_only_TypeError.
Qed.

End TransformsThrow.

(* ================================================================== *)
(** ** Sequencing *)

Lemma bind_returns {A B} (c : M A) (k : A -> M B) (w w' : World) (b : B) :
  bind c k w = (Returns b, w') ->
  exists a w1, c w = (Returns a, w1) /\ k a w1 = (Returns b, w').
Proof.
  unfold bind. destruct (c w) as [[a|e] w1]; intros H.
  - now exists a, w1.
  - discriminate.
Qed.

Lemma bind_step {A B} (c : M A) (k : A -> M B) (w w1 : World) (a : A) :
  c w = (Returns a, w1) -> bind c k w = k a w1.
Proof. unfold bind. now intros ->. Qed.

Lemma bind_throws {A B} (c : M A) (k : A -> M B) (w w1 : World) (e : Exn) :
  c w = (Throws e, w1) -> bind c k w = (Throws e, w1).
Proof. unfold bind. now intros ->. Qed.

Lemma try_returns {A} (c : M A) (h : Exn -> M A) (w w1 : World) (a : A) :
  c w = (Returns a, w1) -> try_catch c h w = (Returns a, w1).
Proof. unfold try_catch. now intros ->. Qed.

Lemma try_throws {A} (c : M A) (h : Exn -> M A) (w w1 : World) (e : Exn) :
  c w = (Throws e, w1) -> try_catch c h w = h e w1.
Proof. unfold try_catch. now intros ->. Qed.

Lemma bind_ext {A B} (c : M A) (k1 k2 : A -> M B) (w : World) :
  (forall a w', k1 a w' = k2 a w') -> bind c k1 w = bind c k2 w.
Proof. intros H. unfold bind. destruct (c w) as [[a|e] w']; auto. Qed.

Lemma try_catch_ext {A} (c : M A) (h1 h2 : Exn -> M A) (w : World) :
  (forall e w', h1 e w' = h2 e w') -> try_catch c h1 w = try_catch c h2 w.
Proof. intros H. unfold try_catch. destruct (c w) as [[a|e] w']; auto. Qed.

Lemma fetches_after_fetch (req : Http.Request) (w : World) :
  fetches (after_fetch req w) = S (fetches w).
Proof. unfold fetches, after_fetch; simpl. rewrite length_app; simpl. lia. Qed.

Lemma fetches_after_sleep (ms : Z) (w : World) :
  fetches (after_sleep ms w) = fetches w.
Proof. reflexivity. Qed.

(* ================================================================== *)
(** ** Transport: which answers are retried, and how often *)

Section TransportProperties.

Context {P : Platform}.
Import Http Transport.

Lemma isRetryable_iff (s : Z) :
  isRetryable s = true <-> 500 <= s \/ s = 408 \/ s = 429 \/ s = 0.
Proof.
  unfold isRetryable. rewrite !orb_true_iff, Z.leb_le, !Z.eqb_eq. tauto.
Qed.

Lemma wrap_status (r : Response) :
  r_status (wrap r) = status r /\ r_ok (wrap r) = ok r
  /\ r_statusText (wrap r) = statusText r /\ raw (wrap r) = text r
  /\ r_headers (wrap r) = headers r.
Proof. unfold wrap; simpl; auto. Qed.

(** A response that is successful, or whose status is not retryable, or
    that arrives when no retry is left, ends the call after this one
    invocation. *)
Lemma attempts_done (req : Request) (config : RetryConfig) (left attempt : nat)
      (w : World) (r : Response) :
  fetch (fetches w) req = Resolves r ->
  ok r = true \/ isRetryable (status r) = false \/ left = O ->
  attempts req config left attempt w = (Returns (wrap r), after_fetch req w).
Proof.
  intros Hf Hdone.
  destruct left as [|left]; simpl; unfold bind, call_fetch; rewrite Hf;
    [reflexivity|].
  destruct Hdone as [Hok|[Hnr|Hz]]; [| |discriminate].
  - rewrite Hok. reflexivity.
  - rewrite Hnr, andb_false_r. reflexivity.
Qed.

(** A failed response with a retryable status, with a retry left, is
    followed by the backoff delay and the next attempt. *)
Lemma attempts_retry (req : Request) (config : RetryConfig) (left attempt : nat)
      (w : World) (r : Response) :
  fetch (fetches w) req = Resolves r ->
  ok r = false -> isRetryable (status r) = true ->
  attempts req config (S left) attempt w
  = attempts req config left (S attempt)
             (after_sleep (calculateDelay attempt config) (after_fetch req w)).
Proof.
  intros Hf Hok Hr. simpl. unfold bind at 1, call_fetch. rewrite Hf, Hok, Hr.
  reflexivity.
Qed.

(** A rejection that is not of the connectivity class is not retried. *)
Lemma attempts_rejected (req : Request) (config : RetryConfig) (left attempt : nat)
      (w : World) (e : JSError) :
  fetch (fetches w) req = Rejects e ->
  isNetworkError e = false \/ left = O ->
  attempts req config left attempt w = (Throws (NetworkError e), after_fetch req w).
Proof.
  intros Hf Hdone.
  destruct left as [|left]; simpl; unfold bind, call_fetch; rewrite Hf;
    [reflexivity|].
  destruct Hdone as [Hn|Hz]; [|discriminate].
  rewrite Hn. reflexivity.
Qed.

(** While the upstream keeps failing with a retryable status, every retry
    is used: [left + 1] invocations, and the last response is the result. *)
Lemma attempts_exhausted (req : Request) (config : RetryConfig) (left : nat) :
  forall (attempt : nat) (w : World),
    (forall i, (i <= left)%nat ->
               exists r, fetch (fetches w + i) req = Resolves r
                         /\ ok r = false /\ isRetryable (status r) = true) ->
    exists r w',
      attempts req config left attempt w = (Returns (wrap r), w')
      /\ fetch (fetches w + left) req = Resolves r
      /\ fetches w' = (fetches w + S left)%nat
      /\ cache w' = cache w /\ console_warn w' = console_warn w.
Proof.
  induction left as [|left IH]; intros attempt w H.
  - destruct (H O (Nat.le_refl _)) as (r & Hf & _).
    rewrite Nat.add_0_r in Hf.
    exists r, (after_fetch req w). split; [|split; [|split; [|split]]].
    + apply attempts_done; auto.
    + now rewrite Nat.add_0_r.
    + rewrite fetches_after_fetch. lia.
    + reflexivity.
    + reflexivity.
  - destruct (H O (Nat.le_0_l _)) as (r0 & Hf0 & Hok0 & Hr0).
    rewrite Nat.add_0_r in Hf0.
    rewrite (attempts_retry req config left attempt w Hf0 Hok0 Hr0).
    set (w1 := after_sleep _ _).
    assert (Hn : fetches w1 = S (fetches w))
      by (unfold w1; now rewrite fetches_after_sleep, fetches_after_fetch).
    destruct (@IH (S attempt) w1) as (r & w' & Hrun & Hlast & Hcount & Hc & Hw).
    { intros i Hi. rewrite Hn.
      replace (S (fetches w) + i)%nat with (fetches w + S i)%nat by lia.
      apply H. lia. }
    exists r, w'. rewrite Hrun, Hcount, Hn, Hc, Hw.
    rewrite Hn in Hlast.
    replace (fetches w + S left)%nat with (S (fetches w) + left)%nat by lia.
    repeat split; auto; lia.
Qed.

Lemma status_500_retried (r : Response) :
  status r = 500 -> ok r = false /\ isRetryable (status r) = true.
Proof. unfold ok, isRetryable. intros ->. split; reflexivity. Qed.

(** C4.  For every transport call: (1) an upstream answering 500 and then
    200 yields the 200 response after exactly two invocations, provided a
    retry is allowed; (2) an upstream answering 500 on every attempt yields
    the failed 500 response, which the request core raises as an
    [ApiError], after exactly [1 + maxRetries] invocations; (3) a 404 answer
    is returned after exactly one invocation and classified as
    [CharityNotFoundError]; (4) any failed answer whose status is not
    retryable ends the call after one invocation, and so does a rejection
    that is not of the connectivity class; the retryable statuses are those
    [>= 500], 408, 429, and the status 0 of a network error. *)
Theorem retry_policy (url : string) (options : HttpRequestOptions) (w : World) :
  let req := fetch_arguments url options in
  let n := fetches w in
  let budget := maxRetries (merge_retry (opt_retry options ?? no_overrides)) in
  (forall r1 r2,
      (1 <= budget)%nat ->
      fetch n req = Resolves r1 -> status r1 = 500 ->
      fetch (S n) req = Resolves r2 -> status r2 = 200 ->
      exists w',
        httpRequest url options w = (Returns (wrap r2), w')
        /\ r_status (wrap r2) = 200 /\ r_ok (wrap r2) = true
        /\ fetches w' = (n + 2)%nat)
  /\ ((forall i, (i <= budget)%nat ->
                 exists r, fetch (n + i) req = Resolves r /\ status r = 500) ->
      exists r w',
        httpRequest url options w = (Returns (wrap r), w')
        /\ r_status (wrap r) = 500 /\ r_ok (wrap r) = false
        /\ BaseClient.handleErrorResponse (wrap r)
           = ApiError 500 (statusText r) (text r)
        /\ fetches w' = (n + (1 + budget))%nat)
  /\ (forall r,
         fetch n req = Resolves r -> status r = 404 ->
         exists w',
           httpRequest url options w = (Returns (wrap r), w')
           /\ BaseClient.handleErrorResponse (wrap r) = CharityNotFoundError None
           /\ fetches w' = (n + 1)%nat)
  /\ (forall r,
         fetch n req = Resolves r -> isRetryable (status r) = false ->
         exists w',
           httpRequest url options w = (Returns (wrap r), w')
           /\ fetches w' = (n + 1)%nat)
  /\ (forall e,
         fetch n req = Rejects e -> isNetworkError e = false ->
         exists w',
           httpRequest url options w = (Throws (NetworkError e), w')
           /\ fetches w' = (n + 1)%nat)
  /\ (forall s, isRetryable s = true <-> 500 <= s \/ s = 408 \/ s = 429 \/ s = 0).
Proof.
  cbv zeta. unfold httpRequest.
  set (req := fetch_arguments url options).
  set (config := merge_retry (opt_retry options ?? no_overrides)).
  split; [|split; [|split; [|split; [|split]]]].
  - intros r1 r2 Hbudget H1 S1 H2 S2.
    destruct (maxRetries config) as [|left]; [lia|].
    destruct (status_500_retried r1 S1) as [Hok1 Hr1].
    rewrite (attempts_retry req config left 0%nat w H1 Hok1 Hr1).
    set (w1 := after_sleep _ _).
    assert (Hn : fetches w1 = S (fetches w))
      by (unfold w1; now rewrite fetches_after_sleep, fetches_after_fetch).
    assert (Hok2 : ok r2 = true) by (unfold ok; rewrite S2; reflexivity).
    exists (after_fetch req w1).
    rewrite (@attempts_done req config left 1%nat w1 r2);
      [|now rewrite Hn|now left].
    destruct (wrap_status r2) as (-> & -> & _).
    rewrite fetches_after_fetch, Hn. repeat split; auto. lia.
  - intros Hall.
    destruct (@attempts_exhausted req config (maxRetries config) 0%nat w)
      as (r & w' & Hrun & Hlast & Hcount & _).
    { intros i Hi. destruct (Hall i Hi) as (r & Hf & Hs).
      exists r. split; [exact Hf|]. now apply status_500_retried. }
    destruct (Hall (maxRetries config) (Nat.le_refl _)) as (r' & Hf' & Hs').
    rewrite Hlast in Hf'. injection Hf' as <-.
    exists r, w'. rewrite Hrun, Hcount.
    destruct (wrap_status r) as (Hst & Hok & Htxt & Hraw & _).
    rewrite Hst, Hok.
    destruct (status_500_retried r Hs') as [Hok' _].
    split; [reflexivity|]. split; [exact Hs'|]. split; [exact Hok'|].
    split; [|lia].
    unfold BaseClient.handleErrorResponse. rewrite Hst, Htxt, Hraw, Hs'. reflexivity.
  - intros r Hf Hs.
    exists (after_fetch req w).
    rewrite (@attempts_done req config (maxRetries config) 0%nat w r); auto.
    + rewrite fetches_after_fetch. split; [reflexivity|]. split; [|lia].
      unfold BaseClient.handleErrorResponse.
      destruct (wrap_status r) as (-> & _). rewrite Hs. reflexivity.
    + right; left. rewrite Hs. reflexivity.
  - intros r Hf Hs.
    exists (after_fetch req w).
    rewrite (@attempts_done req config (maxRetries config) 0%nat w r); auto.
    rewrite fetches_after_fetch. split; [reflexivity|lia].
  - intros e Hf He.
    exists (after_fetch req w).
    rewrite (@attempts_rejected req config (maxRetries config) 0%nat w e); auto.
    rewrite fetches_after_fetch. split; [reflexivity|lia].
  - apply isRetryable_iff.
Qed.

End TransportProperties.

Lemma retry_policy_witness :
  (exists w',
      Transport.httpRequest (P := flaky_upstream) "https://example.org/x"
                            Transport.no_options Sample.cached_world
      = (Returns (Transport.wrap (P := flaky_upstream) ok_200), w')
      /\ fetches w' = 2%nat)
  /\ (exists r w',
         Transport.httpRequest (P := failing_upstream) "https://example.org/x"
                               Transport.no_options Sample.cached_world
         = (Returns (Transport.wrap (P := failing_upstream) r), w')
         /\ Http.r_status (Transport.wrap (P := failing_upstream) r) = 500
         /\ fetches w' = 4%nat)
  /\ (exists w',
         Transport.httpRequest (P := absent_upstream) "https://example.org/x"
                               Transport.no_options Sample.cached_world
         = (Returns (Transport.wrap (P := absent_upstream) missing_404), w')
         /\ BaseClient.handleErrorResponse
              (Transport.wrap (P := absent_upstream) missing_404)
            = CharityNotFoundError None
         /\ fetches w' = 1%nat).
Proof.
  split; [|split].
  - destruct (proj1 (@retry_policy flaky_upstream "https://example.org/x"
                                   Transport.no_options Sample.cached_world)
                    failed_500 ok_200)
      as (w' & Hrun & _ & _ & Hcount);
      [simpl; lia|reflexivity|reflexivity|reflexivity|reflexivity|].
    exists w'. split; [exact Hrun|exact Hcount].
  - destruct (proj1 (proj2 (@retry_policy failing_upstream "https://example.org/x"
                                          Transport.no_options Sample.cached_world)))
      as (r & w' & Hrun & Hstatus & _ & _ & Hcount).
    { intros i _. exists failed_500. split; [|reflexivity].
      simpl. destruct i; reflexivity. }
    exists r, w'. split; [exact Hrun|]. split; [exact Hstatus|exact Hcount].
  - destruct (proj1 (proj2 (proj2 (@retry_policy absent_upstream "https://example.org/x"
                                          Transport.no_options Sample.cached_world)))
                    missing_404)
      as (w' & Hrun & Hclass & Hcount); [reflexivity|reflexivity|].
    exists w'. split; [exact Hrun|]. split; [exact Hclass|exact Hcount].
Defined.
(* ================================================================== *)
(** ** Search pages: how [totalPages] relates to [total] and [pageSize] *)

Section SearchPages.

Context {P : Platform}.
Import BaseClient.










End SearchPages.



(* ================================================================== *)
(** ** Enrichment tolerates an empty secondary lookup *)

(** C8.  For every charity id whose primary record resolves, when the
    secondary financial-return lookup returns an empty list,
    [getCharityWithFinancials] returns the primary record unchanged: not
    [null] and not an error. *)
Theorem enrichment_without_returns
        {P : Platform} (c : BaseClient.Client) (id : string)
        (w w1 w2 : World) (charity : Charity) :
  OSCRClient.getCharity c id w = (Returns (Some charity), w1) ->
  OSCRClient.getAnnualReturns c id w1 = (Returns [], w2) ->
  OSCRClient.getCharityWithFinancials c id w = (Returns (Some charity), w2).
Proof.
  intros Hprimary Hsecondary.
  unfold OSCRClient.getCharityWithFinancials.
  rewrite (bind_step _ _ _ Hprimary).
  rewrite (bind_step _ _ _ Hsecondary).
  reflexivity.
Qed.

Lemma enrichment_without_returns_witness :
  exists charity w2,
    OSCRClient.getCharityWithFinancials (P := no_returns_upstream)
                                        Sample.oscr "SC000001" oscr_world
    = (Returns (Some charity), w2)
    /\ name charity = "Stoneyburn Community Education Centre"
    /\ employeeCount charity = None.
Proof.
  eexists. eexists. split.
  - eapply (@enrichment_without_returns no_returns_upstream Sample.oscr "SC000001"
                                        oscr_world).
    + vm_compute. reflexivity.
    + vm_compute. reflexivity.
  - split; reflexivity.
Defined.

(** The secondary endpoint failing outright is tolerated as well: the list
    of returns is then empty. *)
Lemma getAnnualReturnsById_never_throws
      {P : Platform} (c : BaseClient.Client) (charityId : BaseClient.ParamValue)
      (w : World) :
  exists v w', OSCRClient.getAnnualReturnsById c charityId w = (Returns v, w').
Proof.
  unfold OSCRClient.getAnnualReturnsById.
  match goal with
  | |- context [BaseClient.get c ?ep] =>
      destruct (BaseClient.get c ep w) as [[resp|e] w1] eqn:Hget
  end.
  - exists (or_empty (Some (Http.data resp))), w1.
    unfold try_catch, bind. now rewrite Hget.
  - exists (JArr []), w1.
    unfold try_catch, bind. now rewrite Hget.
Qed.

(* ================================================================== *)
(** ** The six operations of each client *)

Section Operations.

Context {P : Platform}.

(** CCEW and CCNI define all six operations. *)
Lemma CCEW_CCNI_define_all_six (r : Regulator) :
  r = CCEW \/ r = CCNI ->
  exists f1 f2 f3 f4 f5 f6,
    Client.methods r = Client.mkMethods (Some f1) (Some f2) (Some f3)
                                        (Some f4) (Some f5) (Some f6).
Proof. intros [->| ->]; simpl; repeat eexists. Qed.

(** The one operation CCNI has no upstream for returns the empty list,
    emits one notice naming the regulator and the method, and does not
    throw. *)
Lemma CCNI_getOtherRegulators_notice (c : BaseClient.Client) (id : string) (w : World) :
  BaseClient.cap_regulator (BaseClient.caps c) = CCNI ->
  Client.getOtherRegulators c id w
  = (Returns [],
     mkWorld (fetch_calls w) (slept w) (clock w)
             (console_warn w
                ++ ["[CCNI] getOtherRegulators is not supported by this regulator's API"])
             (cache w)).
Proof.
  intros Hreg.
  unfold Client.getOtherRegulators, Client.methods_of. rewrite Hreg. simpl.
  unfold CCNIClient.getOtherRegulators, BaseClient.logNotImplemented, bind,
    console_warn_line. rewrite Hreg. reflexivity.
Qed.

(** C2 at the failing inputs.  The OSCR client defines [search] and
    [getCharity] only: a call of [searchByName], [getTrustees],
    [getFinancialHistory] or [getOtherRegulators] on it throws a [TypeError]
    and emits no notice, where the claim has an empty result and one
    diagnostic notice. *)
Theorem OSCR_lacks_four_operations (w : World) :
  Client.searchByName Sample.oscr "Test Charity" (Some 5) None w
  = (Throws (TypeError "client.searchByName is not a function"), w)
  /\ Client.getTrustees Sample.oscr "SC000001" w
     = (Throws (TypeError "client.getTrustees is not a function"), w)
  /\ Client.getFinancialHistory Sample.oscr "SC000001" w
     = (Throws (TypeError "client.getFinancialHistory is not a function"), w)
  /\ Client.getOtherRegulators Sample.oscr "SC000001" w
     = (Throws (TypeError "client.getOtherRegulators is not a function"), w).
Proof. repeat split. Qed.

End Operations.

(* ================================================================== *)
(** ** Identifier normalization *)

Section Identifiers.

Context {P : Platform}.

Lemma filter_app (f : ascii -> bool) (a b : string) :
  Str.filter f (a ++ b) = Str.filter f a ++ Str.filter f b.
Proof.
  induction a as [|ch a IH]; simpl; [reflexivity|].
  destruct (f ch); simpl; now rewrite IH.
Qed.













End Identifiers.

(* ================================================================== *)
(** ** The request core leaves the cache and the console alone *)

Section RequestFrame.

Context {P : Platform}.
Import Http Transport BaseClient.

Lemma reaches_after_fetch (req : Request) (w : World) :
  reaches_upstream w (after_fetch req w).
Proof.
  unfold reaches_upstream. rewrite fetches_after_fetch. simpl. auto.
Qed.

Lemma reaches_after_retry (req : Request) (ms : Z) (w w' : World) :
  reaches_upstream (after_sleep ms (after_fetch req w)) w' ->
  reaches_upstream w w'.
Proof.
  unfold reaches_upstream.
  rewrite fetches_after_sleep, fetches_after_fetch. simpl.
  intros (Hc & Hw & Hn). repeat split; auto. lia.
Qed.

Lemma attempts_frame (req : Request) (config : RetryConfig) (left : nat) :
  forall (attempt : nat) (w w' : World) (o : Outcome HttpResponse),
    attempts req config left attempt w = (o, w') -> reaches_upstream w w'.
Proof.
  induction left as [|left IH]; intros attempt w w' o; simpl;
    unfold bind at 1, call_fetch.
  - destruct (fetch (fetches w) req); unfold ret, throw; inversion 1; subst;
      apply reaches_after_fetch.
  - destruct (fetch (fetches w) req) as [r|e].
    + destruct (negb (ok r) && isRetryable (status r)).
      * unfold bind, sleep. intros Hrun. apply IH in Hrun.
        now apply reaches_after_retry in Hrun.
      * unfold ret; inversion 1; subst. apply reaches_after_fetch.
    + destruct (isNetworkError e).
      * unfold bind, sleep. intros Hrun. apply IH in Hrun.
        now apply reaches_after_retry in Hrun.
      * unfold throw; inversion 1; subst. apply reaches_after_fetch.
Qed.

Lemma request_frame (c : Client) (endpoint : string) (options : HttpRequestOptions)
      (w w' : World) (o : Outcome HttpResponse) :
  request c endpoint options w = (o, w') -> reaches_upstream w w'.
Proof.
  unfold request, bind, httpRequest.
  match goal with
  | |- context [attempts ?rq ?cf ?l ?a w] =>
      destruct (attempts rq cf l a w) as [[resp|e] w1] eqn:Hrun
  end; apply attempts_frame in Hrun.
  - destruct (negb (r_ok resp)); unfold throw, ret; inversion 1; subst; auto.
  - inversion 1; subst; auto.
Qed.

Lemma get_frame (c : Client) (endpoint : string) (w w' : World)
      (o : Outcome HttpResponse) :
  get c endpoint w = (o, w') -> reaches_upstream w w'.
Proof. apply request_frame. Qed.

(** A 404 answer reaches the caller of [get] as [CharityNotFoundError],
    after one invocation and without delay. *)
Lemma get_404 (c : Client) (endpoint : string) (w : World) :
  answers_404 (fetches w) ->
  exists req,
    get c endpoint w = (Throws (CharityNotFoundError None), after_fetch req w).
Proof.
  intros H404. unfold get, request, httpRequest.
  match goal with
  | |- context [attempts ?rq ?cf ?l ?a] =>
      set (req := rq); set (config := cf)
  end.
  destruct (H404 req) as (r & Hf & Hs).
  exists req. unfold bind.
  rewrite (@attempts_done P req config (maxRetries config) 0%nat w r Hf);
    [|right; left; rewrite Hs; reflexivity].
  destruct (wrap_status r) as (Hst & Hok & _).
  rewrite Hok. unfold ok. rewrite Hs. simpl.
  unfold throw, handleErrorResponse. rewrite Hst, Hs. reflexivity.
Qed.

End RequestFrame.

(* ================================================================== *)
(** ** The cache as the request core uses it *)

Section CacheAccess.

Import BaseClient.

Lemma getCached_frame (k : string) (w w' : World) (o : Outcome (option (option Charity))) :
  getCached k w = (o, w') ->
  fetch_calls w' = fetch_calls w /\ clock w' = clock w
  /\ console_warn w' = console_warn w
  /\ (caching w -> caching w')
  /\ (cache w = None -> cache w' = None)
  /\ exists hit, o = Returns hit.
Proof.
  unfold getCached, caching.
  destruct (cache w) as [ch|] eqn:Hc.
  - unfold LRUCache.get.
    destruct (LRUCache.find k (LRUCache.entries ch)) as [e|];
      [destruct (LRUCache.fresh ch (clock w) e)|];
      inversion 1; subst; simpl; rewrite ?Hc;
      repeat split; eauto; try tauto; try discriminate.
  - inversion 1; subst; rewrite Hc; repeat split; eauto.
Qed.

(** A hit leaves the entry in the cache, live and most recently used. *)
Lemma getCached_hit_holds (k : string) (v : option Charity) (w w' : World) :
  getCached k w = (Returns (Some v), w') -> holds k v w'.
Proof.
  unfold getCached, holds.
  destruct (cache w) as [ch|]; [|discriminate].
  unfold LRUCache.get.
  destruct (LRUCache.find k (LRUCache.entries ch)) as [e|] eqn:Hfind;
    [|discriminate].
  destruct (LRUCache.fresh ch (clock w) e) eqn:Hfresh; [|discriminate].
  inversion 1; subst; simpl.
  apply find_some in Hfind as [_ Hk]. apply String.eqb_eq in Hk.
  unfold LRUCache.fresh in Hfresh. apply Z.ltb_lt in Hfresh.
  eexists. exists e. eexists. repeat split; eauto.
Qed.

(** A live, most recently used entry is a hit, without any invocation. *)
Lemma holds_hit (k : string) (v : option Charity) (w : World) :
  holds k v w ->
  exists w', getCached k w = (Returns (Some v), w')
             /\ fetch_calls w' = fetch_calls w.
Proof.
  intros (ch & e & rest & Hc & He & Hk & Hv & Hlive).
  unfold getCached. rewrite Hc. unfold LRUCache.get, LRUCache.find.
  rewrite He. simpl. rewrite Hk, String.eqb_refl.
  unfold LRUCache.fresh. apply Z.ltb_lt in Hlive. rewrite Hlive, Hv.
  eexists. split; reflexivity.
Qed.

Lemma store_and_return {A} (k : string) (v : option Charity) (a : A) (w : World) :
  (setCache k v ;;; ret a) w = (Returns a, snd (setCache k v w)).
Proof. unfold bind, setCache, ret. destruct (cache w); reflexivity. Qed.

Lemma setCache_frame (k : string) (v : option Charity) (w : World) :
  fetch_calls (snd (setCache k v w)) = fetch_calls w
  /\ (cache w = None -> snd (setCache k v w) = w).
Proof.
  unfold setCache. destruct (cache w) eqn:Hc; simpl; split; auto; discriminate.
Qed.

(** With caching enabled, what is stored is held. *)
Lemma setCache_holds (k : string) (v : option Charity) (w : World) :
  caching w -> holds k v (snd (setCache k v w)).
Proof.
  unfold caching, setCache, holds.
  destruct (cache w) as [ch|]; [|tauto]. intros [Hmax Httl]. simpl.
  unfold LRUCache.set.
  destruct (LRUCache.max ch) as [|m] eqn:Hm; [lia|].
  eexists. eexists. eexists. split; [reflexivity|]. simpl.
  split; [reflexivity|]. repeat split. simpl. lia.
Qed.

(** An empty cache misses and stays as it is. *)
Lemma getCached_afresh (k : string) (w : World) :
  caching_afresh w -> getCached k w = (Returns None, w).
Proof.
  unfold caching_afresh, getCached.
  destruct (cache w) as [ch|] eqn:Hc; [|tauto]. intros (_ & _ & He).
  unfold LRUCache.get, LRUCache.find. rewrite He. simpl.
  destruct w as [calls sl cl cw ca]; simpl in *. subst ca.
  destruct ch as [m t es]; simpl in *. now subst es.
Qed.

Lemma getCached_disabled (k : string) (w : World) :
  cache w = None -> getCached k w = (Returns None, w).
Proof. unfold getCached. now intros ->. Qed.

Lemma caching_afresh_caching (w : World) : caching_afresh w -> caching w.
Proof. unfold caching_afresh, caching. destruct (cache w); tauto. Qed.

Lemma clearCache_afresh (w : World) :
  caching w -> caching_afresh (snd (clearCache w)).
Proof.
  unfold caching, caching_afresh, clearCache.
  destruct (cache w) as [ch|]; [|tauto]. simpl. tauto.
Qed.

Lemma clearCache_frame (w : World) :
  fetch_calls (snd (clearCache w)) = fetch_calls w
  /\ (cache w = None -> snd (clearCache w) = w).
Proof.
  unfold clearCache. destruct (cache w); simpl; split; auto; discriminate.
Qed.

End CacheAccess.

(* ================================================================== *)
(** ** Cached lookups *)

Section CachedLookup.

Context {P : Platform}.
Import BaseClient.

Variables (key : string) (lookup : M Http.HttpResponse)
          (absent : json -> bool) (transform : json -> Outcome Charity)
          (swallow : Exn -> bool).

Local Notation "'run'" := (cached_lookup key lookup absent transform swallow).

Lemma cached_lookup_hit (v : option Charity) (w : World) :
  holds key v w ->
  exists w', run w = (Returns v, w') /\ fetch_calls w' = fetch_calls w.
Proof.
  intros H. destruct (holds_hit H) as (w' & Hhit & Hcalls).
  exists w'. unfold cached_lookup, bind. rewrite Hhit. now split.
Qed.

Lemma cached_lookup_miss_throws (w wm w2 : World) (e : Exn) :
  getCached key w = (Returns None, wm) ->
  lookup wm = (Throws e, w2) ->
  run w = if swallow e then (Returns None, snd (setCache key None w2))
          else (Throws e, w2).
Proof.
  intros Hmiss Hlook. unfold cached_lookup.
  unfold bind at 1. rewrite Hmiss. unfold try_catch, bind at 1. rewrite Hlook.
  destruct (swallow e); [apply store_and_return|reflexivity].
Qed.

Lemma cached_lookup_miss_returns (w wm w2 : World) (resp : Http.HttpResponse) :
  getCached key w = (Returns None, wm) ->
  lookup wm = (Returns resp, w2) ->
  run w = if absent (Http.data resp)
          then (Returns None, snd (setCache key None w2))
          else match transform (Http.data resp) with
               | Returns result =>
                   (Returns (Some result), snd (setCache key (Some result) w2))
               | Throws e =>
                   if swallow e then (Returns None, snd (setCache key None w2))
                   else (Throws e, w2)
               end.
Proof.
  intros Hmiss Hlook. unfold cached_lookup.
  unfold bind at 1. rewrite Hmiss. unfold try_catch, bind at 1. rewrite Hlook.
  destruct (absent (Http.data resp)); [now rewrite store_and_return|].
  unfold bind at 1, lift.
  destruct (transform (Http.data resp)) as [result|e].
  - now rewrite store_and_return.
  - destruct (swallow e); [apply store_and_return|reflexivity].
Qed.

Hypothesis lookup_frame :
  forall w w' o, lookup w = (o, w') -> reaches_upstream w w'.

(** Whatever a cached lookup returns is held in the cache afterwards. *)
Lemma cached_lookup_returns_holds (w w1 : World) (v : option Charity) :
  caching w -> run w = (Returns v, w1) -> holds key v w1.
Proof.
  intros Hcaching Hrun.
  destruct (getCached key w) as [o wm] eqn:Hprobe.
  destruct (getCached_frame _ _ Hprobe) as (_ & _ & _ & Hkeep & _ & [hit ->]).
  specialize (Hkeep Hcaching).
  destruct hit as [hit|].
  - unfold cached_lookup, bind in Hrun. rewrite Hprobe in Hrun.
    inversion Hrun; subst. now apply getCached_hit_holds in Hprobe.
  - destruct (lookup wm) as [[resp|e] w2] eqn:Hlook.
    + assert (Hc2 : caching w2).
      { destruct (lookup_frame Hlook) as (Hc & _). unfold caching in *.
        now rewrite Hc. }
      rewrite (cached_lookup_miss_returns _ Hprobe Hlook) in Hrun.
      destruct (absent (Http.data resp));
        [|destruct (transform (Http.data resp)) as [result|e];
          [|destruct (swallow e)]];
        inversion Hrun; subst; now apply setCache_holds.
    + assert (Hc2 : caching w2).
      { destruct (lookup_frame Hlook) as (Hc & _). unfold caching in *.
        now rewrite Hc. }
      rewrite (cached_lookup_miss_throws _ Hprobe Hlook) in Hrun.
      destruct (swallow e); inversion Hrun; subst.
      now apply setCache_holds.
Qed.

(** A repeat of a cached lookup that returned is served from the cache. *)
Lemma cached_lookup_repeat (w w1 : World) (v : option Charity) :
  caching w -> run w = (Returns v, w1) ->
  exists w2, run w1 = (Returns v, w2) /\ fetch_calls w2 = fetch_calls w1.
Proof.
  intros Hcaching Hrun. apply cached_lookup_hit.
  eapply cached_lookup_returns_holds; eassumption.
Qed.

(** A cached lookup that misses reaches the upstream. *)
Lemma cached_lookup_miss_fetches (w wm : World) :
  getCached key w = (Returns None, wm) ->
  (fetches w < fetches (snd (run w)))%nat.
Proof.
  intros Hprobe.
  destruct (getCached_frame _ _ Hprobe) as (Hcalls & _).
  assert (Hsame : fetches wm = fetches w) by (unfold fetches; now rewrite Hcalls).
  destruct (lookup wm) as [[resp|e] w2] eqn:Hlook;
    destruct (lookup_frame Hlook) as (_ & _ & Hn).
  - rewrite (cached_lookup_miss_returns _ Hprobe Hlook).
    destruct (absent (Http.data resp));
      [|destruct (transform (Http.data resp)) as [result|e];
        [|destruct (swallow e)]];
      simpl; unfold fetches in *; rewrite ?(proj1 (setCache_frame _ _ _)); lia.
  - rewrite (cached_lookup_miss_throws _ Hprobe Hlook).
    destruct (swallow e); simpl; [|lia].
    unfold fetches in *; rewrite (proj1 (setCache_frame _ _ _)); lia.
Qed.

End CachedLookup.

(* ================================================================== *)
(** ** [getCharity]: which outcomes become [null], which propagate *)

Section LookupPolicy.

Context {P : Platform}.
Import BaseClient.

Lemma CCEW_getCharity_shape (c : Client) (id : string) (w : World) :
  CCEWClient.getCharity c id w
  = cached_lookup (getCacheKey c "getCharity" (inl (Str.filter Str.is_digit id)))
                  (get c (lookup_endpoint CCEW id))
                  (placeholder CCEW) CCEWTransform.transformDetails
                  (swallowed CCEW) w.
Proof.
  unfold CCEWClient.getCharity, cached_lookup, lookup_endpoint, placeholder, swallowed.
  apply bind_ext. intros [hit|] wm; [reflexivity|].
  apply try_catch_ext. intros e w2.
  destruct (Errors.is_CharityNotFoundError e), (Errors.is_AuthenticationError e);
    reflexivity.
Qed.

Lemma CCNI_getCharity_shape (c : Client) (id : string) (w : World) :
  CCNIClient.getCharity c id w
  = cached_lookup (getCacheKey c "getCharity" (inl (CCNIClient.strip_NIC id)))
                  (get c (lookup_endpoint CCNI id))
                  (placeholder CCNI)
                  (fun raw => Returns (CCNITransform.transformDetails raw))
                  (swallowed CCNI) w.
Proof. reflexivity. Qed.

Lemma auth_not_swallowed (r : Regulator) (e : Exn) :
  Errors.is_AuthenticationError e = true -> swallowed r e = false.
Proof. destruct e, r; simpl; congruence. Qed.

Lemma not_found_swallowed (r : Regulator) (e : Exn) :
  Errors.is_CharityNotFoundError e = true -> swallowed r e = true.
Proof. destruct r; simpl; intros H; rewrite ?H; reflexivity. Qed.

Lemma other_errors (r : Regulator) (e : Exn) :
  Errors.is_AuthenticationError e = false ->
  Errors.is_CharityNotFoundError e = false ->
  swallowed r e = match r with CCNI => false | CCEW | OSCR => true end.
Proof. destruct r; simpl; intros H1 H2; rewrite ?H1, ?H2; reflexivity. Qed.

End LookupPolicy.

(** C1 at the failing input.  The upstream answers every attempt with
    429 Too Many Requests.  On the CCEW and the OSCR client the lookup inside
    [getCharity] throws [RateLimitError], and [getCharity] returns [null]
    where the claim has the error reach the caller; the CCEW client caches
    that [null] as well, so the next call returns it without asking the
    upstream.  The sibling paths, [getCharity] of the CCNI client and
    [getCharityWithLinked] of the CCEW client, let the same error through.
    Where the claim and the code agree: a rejected credential reaches the
    caller as [AuthenticationError], and an explicit 404 becomes [null]. *)
Theorem getCharity_swallows_rate_limit :
  fst (BaseClient.get (P := limiting_upstream) Sample.ccew
                      (lookup_endpoint CCEW "1234567") ccew_world)
  = Throws (RateLimitError None)
  /\ fst (Client.getCharity (P := limiting_upstream) Sample.ccew "1234567" ccew_world)
     = Returns None
  /\ holds (BaseClient.getCacheKey (P := limiting_upstream) Sample.ccew "getCharity"
                                    (inl "1234567")) None
           (snd (Client.getCharity (P := limiting_upstream) Sample.ccew "1234567"
                                   ccew_world))
  /\ fst (BaseClient.get (P := limiting_upstream) Sample.oscr
                         (lookup_endpoint OSCR "SC000001") oscr_world)
     = Throws (RateLimitError None)
  /\ fst (Client.getCharity (P := limiting_upstream) Sample.oscr "SC000001" oscr_world)
     = Returns None
  /\ fst (Client.getCharity (P := limiting_upstream) Sample.ccni "NIC100002"
                            Sample.cached_world)
     = Throws (RateLimitError None)
  /\ fst (CCEWClient.getCharityWithLinked (P := limiting_upstream) Sample.ccew
                                          "1234567" (inr 0) ccew_world)
     = Throws (RateLimitError None)
  /\ fst (Client.getCharity (P := unauthorized_upstream) Sample.ccew "1234567"
                            ccew_world)
     = Throws (AuthenticationError 401 "Unauthorized")
  /\ fst (Client.getCharity (P := absent_upstream) Sample.ccew "1234567" ccew_world)
     = Returns None.
Proof.
  repeat match goal with |- _ /\ _ => split end; try (vm_compute; reflexivity).
  unfold holds. vm_compute.
  eexists. eexists. eexists.
  repeat match goal with |- _ /\ _ => split end; reflexivity.
Qed.

(* ================================================================== *)
(** ** Repeated calls and the cache *)

Section RepeatedCalls.

Context {P : Platform}.
Import BaseClient.

Lemma getCharity_shape (c : Client) (id : string) (w : World) :
  cap_regulator (caps c) <> OSCR ->
  exists key absent transform,
    lookup_key c id = Some key
    /\ Client.getCharity c id w
       = cached_lookup key (get c (lookup_endpoint (cap_regulator (caps c)) id))
                       absent transform (swallowed (cap_regulator (caps c))) w.
Proof.
  unfold lookup_key, Client.getCharity, Client.methods_of.
  destruct (cap_regulator (caps c));
    cbn [Client.methods Client.m_getCharity Client.invoke]; intros Hreg.
  - do 3 eexists. split; [reflexivity|apply CCEW_getCharity_shape].
  - congruence.
  - do 3 eexists. split; [reflexivity|apply CCNI_getCharity_shape].
Qed.

Lemma getCached_after_clear (k : string) (w : World) :
  getCached k (snd (clearCache w)) = (Returns None, snd (clearCache w)).
Proof.
  unfold clearCache, getCached.
  destruct (cache w) as [ch|] eqn:Hc; simpl; rewrite ?Hc; reflexivity.
Qed.

(** Every [search] reaches the upstream: no client caches search pages. *)
Lemma search_reaches_upstream (c : Client) (query : SearchQuery) (w : World) :
  (fetches w < fetches (snd (Client.search c query w)))%nat.
Proof.
  unfold Client.search, Client.methods_of.
  destruct (cap_regulator (caps c));
    cbn [Client.methods Client.m_search Client.invoke];
    [unfold CCEWClient.search|unfold OSCRClient.search|unfold CCNIClient.search];
    unfold bind;
    match goal with
    | |- context [get c ?ep w] =>
        destruct (get c ep w) as [[resp|e] w1] eqn:Hget
    end;
    apply get_frame in Hget; destruct Hget as (_ & _ & Hn); exact Hn.
Qed.

(** A known-absent id, first call: one invocation, [null], and the
    negative result is stored under the lookup's key. *)
Lemma absent_first_call (c : Client) (id : string) (w wm : World) :
  cap_regulator (caps c) <> OSCR ->
  probe c id w = (Returns None, wm) ->
  answers_404 (fetches w) ->
  exists w1,
    Client.getCharity c id w = (Returns None, w1)
    /\ fetches w1 = S (fetches w)
    /\ (caching w -> caching w1)
    /\ (cache w = None -> cache w1 = None).
Proof.
  intros Hreg Hprobe H404.
  destruct (getCharity_shape c id w Hreg) as (key & absent & transform & Hkey & ->).
  unfold probe in Hprobe. rewrite Hkey in Hprobe.
  destruct (getCached_frame _ _ Hprobe) as (Hcalls & _ & _ & Hkeep & Hoff & _).
  assert (Hsame : fetches wm = fetches w) by (unfold fetches; now rewrite Hcalls).
  rewrite <- Hsame in H404.
  destruct (get_404 c (lookup_endpoint (cap_regulator (caps c)) id) wm H404)
    as (req & Hget).
  erewrite cached_lookup_miss_throws by eassumption.
  rewrite (@not_found_swallowed _ (CharityNotFoundError None) eq_refl).
  eexists. split; [reflexivity|].
  unfold fetches. rewrite (proj1 (setCache_frame _ _ _)).
  change (List.length (fetch_calls (after_fetch req wm)))
    with (fetches (after_fetch req wm)).
  rewrite fetches_after_fetch, Hsame. split; [reflexivity|]. split.
  - intros Hc. specialize (Hkeep Hc).
    assert (Hc2 : caching (after_fetch req wm)) by exact Hkeep.
    destruct (setCache_holds key None (after_fetch req wm) Hc2)
      as (ch & e & rest & Hcache & _).
    unfold caching in *. rewrite Hcache.
    unfold setCache in Hcache.
    destruct (cache (after_fetch req wm)) as [ch0|]; [|tauto].
    simpl in Hcache. inversion Hcache; subst ch. simpl. exact Hc2.
  - intros Hnone. specialize (Hoff Hnone).
    assert (Hc2 : cache (after_fetch req wm) = None) by exact Hoff.
    now rewrite (proj2 (setCache_frame key None (after_fetch req wm)) Hc2).
Qed.

(** C5, as amended.  No client serves [search] from the cache: every
    search call invokes the transport.  On the CCEW and CCNI clients, with
    caching enabled, a [getCharity] call that returned (a record or [null]) is
    repeated without any further invocation and with the same result;
    [clearCache()] followed by a repeat invokes the transport again; for a
    known-absent id (the upstream answers 404) both of two successive calls
    return [null] with exactly one invocation across both, and with caching
    disabled with exactly two. *)
Theorem cache_absorbs_repeated_lookups (c : Client) (id : string) (w : World) :
  (forall query, (fetches w < fetches (snd (Client.search c query w)))%nat)
  /\ (cap_regulator (caps c) <> OSCR ->
      (caching w ->
       forall v w1,
         Client.getCharity c id w = (Returns v, w1) ->
         exists w2, Client.getCharity c id w1 = (Returns v, w2)
                    /\ fetch_calls w2 = fetch_calls w1)
      /\ (fetches w < fetches (snd (Client.getCharity c id (snd (clearCache w)))))%nat
      /\ (caching_afresh w -> answers_404 (fetches w) ->
          exists w1 w2,
            Client.getCharity c id w = (Returns None, w1)
            /\ Client.getCharity c id w1 = (Returns None, w2)
            /\ fetches w2 = S (fetches w))
      /\ (cache w = None -> answers_404 (fetches w) -> answers_404 (S (fetches w)) ->
          exists w1 w2,
            Client.getCharity c id w = (Returns None, w1)
            /\ Client.getCharity c id w1 = (Returns None, w2)
            /\ fetches w2 = S (S (fetches w)))).
Proof.
  split; [intros query; apply search_reaches_upstream|].
  intros Hreg. split; [|split; [|split]].
  - intros Hcaching v w1 Hrun.
    destruct (getCharity_shape c id w Hreg) as (key & absent & transform & Hkey & E).
    destruct (getCharity_shape c id w1 Hreg) as (key' & absent' & transform' & Hkey' & E').
    rewrite Hkey in Hkey'. inversion Hkey'; subst key'.
    rewrite E in Hrun. rewrite E'.
    assert (Hheld : holds key v w1).
    { eapply cached_lookup_returns_holds; [|exact Hcaching|exact Hrun].
      intros wa wb o. apply get_frame. }
    now apply cached_lookup_hit.
  - destruct (getCharity_shape c id (snd (clearCache w)) Hreg)
      as (key & absent & transform & Hkey & ->).
    pose proof (@cached_lookup_miss_fetches key
                  (get c (lookup_endpoint (cap_regulator (caps c)) id))
                  absent transform (swallowed (cap_regulator (caps c)))
                  (fun wa wb o => @get_frame P c _ wa wb o)
                  (snd (clearCache w)) (snd (clearCache w))
                  (getCached_after_clear key w)) as Hn.
    unfold fetches in *. rewrite (proj1 (clearCache_frame w)) in Hn. exact Hn.
  - intros Hfresh H404.
    assert (Hprobe : probe c id w = (Returns None, w)).
    { destruct (getCharity_shape c id w Hreg) as (key & _ & _ & Hkey & _).
      unfold probe. rewrite Hkey. now apply getCached_afresh. }
    destruct (@absent_first_call c id w w Hreg Hprobe H404)
      as (w1 & Hfirst & Hcount & Hkeep & _).
    assert (Hcaching : caching w) by now apply caching_afresh_caching.
    destruct (getCharity_shape c id w Hreg) as (key & absent & transform & Hkey & E).
    destruct (getCharity_shape c id w1 Hreg) as (key' & absent' & transform' & Hkey' & E').
    rewrite Hkey in Hkey'. inversion Hkey'; subst key'.
    assert (Hheld : holds key None w1).
    { rewrite E in Hfirst.
      eapply cached_lookup_returns_holds; [|exact Hcaching|exact Hfirst].
      intros wa wb o. apply get_frame. }
    destruct (@cached_lookup_hit key
                (get c (lookup_endpoint (cap_regulator (caps c)) id))
                absent' transform' (swallowed (cap_regulator (caps c)))
                None w1 Hheld) as (w2 & Hsecond & Hcalls).
    exists w1, w2. rewrite E'. repeat split; auto.
    unfold fetches in *. now rewrite Hcalls.
  - intros Hoff H404 H404'.
    assert (Hprobe : probe c id w = (Returns None, w)).
    { destruct (getCharity_shape c id w Hreg) as (key & _ & _ & Hkey & _).
      unfold probe. rewrite Hkey. now apply getCached_disabled. }
    destruct (@absent_first_call c id w w Hreg Hprobe H404)
      as (w1 & Hfirst & Hcount & _ & Hoff1).
    specialize (Hoff1 Hoff).
    assert (Hprobe1 : probe c id w1 = (Returns None, w1)).
    { destruct (getCharity_shape c id w1 Hreg) as (key & _ & _ & Hkey & _).
      unfold probe. rewrite Hkey. now apply getCached_disabled. }
    rewrite <- Hcount in H404'.
    destruct (@absent_first_call c id w1 w1 Hreg Hprobe1 H404')
      as (w2 & Hsecond & Hcount2 & _).
    exists w1, w2. repeat split; auto. now rewrite Hcount2, Hcount.
Qed.

End RepeatedCalls.

Lemma absent_upstream_404 (n : nat) : answers_404 (P := absent_upstream) n.
Proof.
  intros req. exists missing_404. split; [|reflexivity].
  simpl. destruct n; reflexivity.
Qed.

Lemma cache_absorbs_repeated_lookups_witness :
  (exists w1 w2,
      Client.getCharity (P := absent_upstream) Sample.ccni "999999" Sample.cached_world
      = (Returns None, w1)
      /\ Client.getCharity (P := absent_upstream) Sample.ccni "999999" w1
         = (Returns None, w2)
      /\ fetches w2 = 1%nat)
  /\ (exists w1 w2,
         Client.getCharity (P := absent_upstream) Sample.ccni "999999"
                           Sample.uncached_world
         = (Returns None, w1)
         /\ Client.getCharity (P := absent_upstream) Sample.ccni "999999" w1
            = (Returns None, w2)
         /\ fetches w2 = 2%nat).
Proof.
  assert (Hreg : BaseClient.cap_regulator (BaseClient.caps Sample.ccni) <> OSCR)
    by discriminate.
  split.
  - destruct (proj2 (@cache_absorbs_repeated_lookups absent_upstream Sample.ccni
                       "999999" Sample.cached_world) Hreg)
      as (_ & _ & Habsent & _).
    apply Habsent.
    + unfold caching_afresh; simpl.
      unfold BaseClient.DEFAULT_CACHE_maxSize, BaseClient.DEFAULT_CACHE_ttl.
      repeat split; lia.
    + apply absent_upstream_404.
  - destruct (proj2 (@cache_absorbs_repeated_lookups absent_upstream Sample.ccni
                       "999999" Sample.uncached_world) Hreg)
      as (_ & _ & _ & Hoff).
    apply Hoff.
    + reflexivity.
    + apply absent_upstream_404.
    + apply absent_upstream_404.
Defined.

(** C5, as stated, fails for [search]: with caching enabled, two successive
    identical searches invoke the transport twice. *)
Lemma search_twice_invokes_twice :
  caching ccew_world
  /\ fetches (snd (Client.search (P := search_upstream) Sample.ccew empty_query
                                 ccew_world)) = 1%nat
  /\ fetches (snd (Client.search (P := search_upstream) Sample.ccew empty_query
                    (snd (Client.search (P := search_upstream) Sample.ccew
                                        empty_query ccew_world)))) = 2%nat.
Proof.
  split.
  { unfold caching; simpl.
    unfold BaseClient.DEFAULT_CACHE_maxSize, BaseClient.DEFAULT_CACHE_ttl.
    split; lia. }
  split; vm_compute; reflexivity.
Qed.

(* ================================================================== *)
(** * Further properties *)

(** ** Transport: the trace of a call *)

Section TransportTrace.

Context {P : Platform}.
Import Http Transport.

(** A connectivity-class rejection, with a retry left, is followed by the
    backoff delay and the next attempt. *)
Lemma attempts_retry_rejected (req : Request) (config : RetryConfig)
      (left attempt : nat) (w : World) (e : JSError) :
  fetch (fetches w) req = Rejects e -> isNetworkError e = true ->
  attempts req config (S left) attempt w
  = attempts req config left (S attempt)
             (after_sleep (calculateDelay attempt config) (after_fetch req w)).
Proof.
  intros Hf Hnet. simpl. unfold bind at 1, call_fetch. rewrite Hf, Hnet.
  reflexivity.
Qed.

Lemma traced_after_retry (req : Request) (config : RetryConfig) (left attempt : nat)
      (w : World) (result : Outcome HttpResponse * World) :
  traced req config left (S attempt)
         (after_sleep (calculateDelay attempt config) (after_fetch req w)) result ->
  traced req config (S left) attempt w result.
Proof.
  intros (k & Hk & Hcalls & Hslept & Hc & Hw & Hlast).
  exists (S k). simpl in *.
  rewrite fetches_after_sleep, fetches_after_fetch in Hlast.
  replace (fetches w + S k)%nat with (S (fetches w) + k)%nat by lia.
  rewrite Hcalls, Hslept, Hc, Hw, <- !app_assoc. simpl.
  split; [lia|]. repeat split.
  destruct (fst result) as [resp|ex].
  - destruct Hlast as (a & Ha & Hr & Hcond). exists a.
    repeat split; auto. intros Hlt. apply Hcond. lia.
  - destruct Hlast as (c & Ha & He & Hcond). exists c.
    repeat split; auto. intros Hlt. apply Hcond. lia.
Qed.

(** Every attempt gives [fetch] the same request; the waits between the
    attempts are the backoff delays in order; the result is what the last
    invocation produced, and a retryable failure is the result only when
    no retry is left. *)
Lemma attempts_trace (req : Request) (config : RetryConfig) (left : nat) :
  forall (attempt : nat) (w : World),
    traced req config left attempt w (attempts req config left attempt w).
Proof.
  induction left as [|left IH]; intros attempt w.
  - destruct (fetch (fetches w) req) as [a|e] eqn:Hf.
    + rewrite (@attempts_done P req config 0%nat attempt w a Hf) by auto.
      exists O. simpl. unfold backoff_delays; simpl.
      rewrite app_nil_r, Nat.add_0_r. repeat split; auto.
      exists a. repeat split; auto. lia.
    + rewrite (@attempts_rejected P req config 0%nat attempt w e Hf) by auto.
      exists O. simpl. unfold backoff_delays; simpl.
      rewrite app_nil_r, Nat.add_0_r. repeat split; auto.
      exists e. repeat split; auto. lia.
  - destruct (fetch (fetches w) req) as [a|e] eqn:Hf.
    + destruct (ok a) eqn:Hok; [|destruct (isRetryable (status a)) eqn:Hretry].
      * rewrite (@attempts_done P req config (S left) attempt w a Hf) by auto.
        exists O. simpl. unfold backoff_delays; simpl.
        rewrite app_nil_r, Nat.add_0_r. split; [lia|]. repeat split.
        exists a. repeat split; auto.
      * rewrite (@attempts_retry P req config left attempt w a Hf Hok Hretry).
        apply traced_after_retry, IH.
      * rewrite (@attempts_done P req config (S left) attempt w a Hf) by auto.
        exists O. simpl. unfold backoff_delays; simpl.
        rewrite app_nil_r, Nat.add_0_r. split; [lia|]. repeat split.
        exists a. repeat split; auto.
    + destruct (isNetworkError e) eqn:Hnet.
      * rewrite (@attempts_retry_rejected req config left attempt w e Hf Hnet).
        apply traced_after_retry, IH.
      * rewrite (@attempts_rejected P req config (S left) attempt w e Hf) by auto.
        exists O. simpl. unfold backoff_delays; simpl.
        rewrite app_nil_r, Nat.add_0_r. split; [lia|]. repeat split.
        exists e. repeat split; auto.
Qed.

Lemma httpRequest_traced (url : string) (options : HttpRequestOptions) (w : World) :
  traced (fetch_arguments url options)
         (merge_retry (opt_retry options ?? no_overrides))
         (maxRetries (merge_retry (opt_retry options ?? no_overrides)))
         0 w (httpRequest url options w).
Proof. unfold httpRequest. apply attempts_trace. Qed.

(** X1.  Whatever the upstream does, a transport call invokes [fetch]
    between one and [1 + maxRetries] times, always with the same request,
    waits exactly the backoff delays of the attempts that failed, in order,
    and touches neither the cache nor the console. *)
Theorem httpRequest_trace (url : string) (options : HttpRequestOptions) (w : World) :
  let config := merge_retry (opt_retry options ?? no_overrides) in
  let w' := snd (httpRequest url options w) in
  exists k,
    (k <= maxRetries config)%nat
    /\ fetch_calls w' = (fetch_calls w ++ repeat (fetch_arguments url options) (S k))%list
    /\ slept w' = (slept w ++ backoff_delays config 0 k)%list
    /\ cache w' = cache w
    /\ console_warn w' = console_warn w.
Proof.
  cbv zeta. unfold httpRequest.
  destruct (@attempts_trace (fetch_arguments url options)
              (merge_retry (opt_retry options ?? no_overrides))
              (maxRetries (merge_retry (opt_retry options ?? no_overrides)))
              0%nat w) as (k & Hk & Hcalls & Hslept & Hc & Hw & _).
  exists k. auto.
Qed.

(** X2.  The outcome of a transport call is the outcome of its last
    invocation: a returned response wraps the last answer, and the only
    exception ever raised is a [NetworkError] whose cause is the last
    rejection.  A failed answer with a retryable status, or a
    connectivity-class rejection, is the outcome only after all
    [1 + maxRetries] invocations were made. *)
Theorem httpRequest_outcome_is_last (url : string) (options : HttpRequestOptions)
        (w : World) :
  let config := merge_retry (opt_retry options ?? no_overrides) in
  let req := fetch_arguments url options in
  let w' := snd (httpRequest url options w) in
  (fetches w < fetches w')%nat
  /\ match fst (httpRequest url options w) with
     | Returns resp =>
         exists a, fetch (fetches w' - 1) req = Resolves a /\ resp = wrap a
                   /\ (ok a = false -> isRetryable (status a) = true ->
                       fetches w' = (fetches w + 1 + maxRetries config)%nat)
     | Throws e =>
         exists cause, fetch (fetches w' - 1) req = Rejects cause
                       /\ e = NetworkError cause
                       /\ (isNetworkError cause = true ->
                           fetches w' = (fetches w + 1 + maxRetries config)%nat)
     end.
Proof.
  cbv zeta. unfold httpRequest.
  set (req := fetch_arguments url options).
  set (config := merge_retry (opt_retry options ?? no_overrides)).
  destruct (@attempts_trace req config (maxRetries config) 0%nat w)
    as (k & Hk & Hcalls & _ & _ & _ & Hlast).
  assert (Hn : fetches (snd (attempts req config (maxRetries config) 0 w))
               = (fetches w + S k)%nat).
  { unfold fetches. rewrite Hcalls, length_app, repeat_length. reflexivity. }
  rewrite Hn. split; [lia|].
  replace (fetches w + S k - 1)%nat with (fetches w + k)%nat by lia.
  destruct (fst (attempts req config (maxRetries config) 0 w)) as [resp|e].
  - destruct Hlast as (a & Ha & Hr & Hcond). exists a. repeat split; auto.
    intros Hok Hretry.
    destruct (Nat.eq_dec k (maxRetries config)) as [->|Hne]; [lia|].
    destruct Hcond as [H|H]; [lia|congruence|congruence].
  - destruct Hlast as (c & Ha & He & Hcond). exists c. repeat split; auto.
    intros Hnet.
    destruct (Nat.eq_dec k (maxRetries config)) as [->|Hne]; [lia|].
    rewrite Hcond in Hnet by lia. discriminate.
Qed.

End TransportTrace.

(* ================================================================== *)
(** ** The request core: what it sends, what it returns, what it throws *)

Section CoreExtra.

Context {P : Platform}.
Import Http Transport BaseClient.

Lemma request_world (c : Client) (endpoint : string) (options : HttpRequestOptions)
      (w : World) :
  exists opts,
    core_request c endpoint options = fetch_arguments (baseUrl c ++ endpoint) opts
    /\ merge_retry (opt_retry opts ?? no_overrides) = core_retry_config c
    /\ snd (request c endpoint options w)
       = snd (httpRequest (baseUrl c ++ endpoint) opts w)
    /\ fst (request c endpoint options w)
       = match fst (httpRequest (baseUrl c ++ endpoint) opts w) with
         | Returns response =>
             if negb (r_ok response) then Throws (handleErrorResponse response)
             else Returns response
         | Throws e => Throws e
         end.
Proof.
  eexists. split; [reflexivity|]. split; [reflexivity|].
  unfold request, bind.
  match goal with
  | |- context [httpRequest ?u ?o w] => destruct (httpRequest u o w) as [[resp|e] w1]
  end; simpl; [destruct (negb (r_ok resp))|]; split; reflexivity.
Qed.

(** The delay before retry [i] of a client call doubles from the client's
    [retryDelay] and is capped at ten seconds. *)
Lemma core_delay (c : Client) (i : nat) :
  calculateDelay i (core_retry_config c)
  = Z.min (retryDelay c * 2 ^ Z.of_nat i) 10000.
Proof. reflexivity. Qed.

Lemma core_delays_capped (c : Client) (first k : nat) :
  Forall (fun d => d <= 10000) (backoff_delays (core_retry_config c) first k).
Proof.
  unfold backoff_delays. apply Forall_forall. intros d Hin.
  apply in_map_iff in Hin as (i & <- & _). rewrite core_delay. lia.
Qed.

(** X3.  Whatever the upstream does, a request of the core invokes [fetch]
    between one and [1 + retryAttempts] times, every time with the same
    request (base address plus endpoint, the client's timeout, the merged
    headers); between attempts it waits [min(retryDelay * 2^i, 10000)]
    milliseconds, so never more than ten seconds at a time; it touches
    neither the cache nor the console. *)
Theorem request_trace (c : Client) (endpoint : string)
        (options : HttpRequestOptions) (w : World) :
  let w' := snd (request c endpoint options w) in
  exists k,
    (k <= retryAttempts c)%nat
    /\ fetch_calls w'
       = (fetch_calls w ++ repeat (core_request c endpoint options) (S k))%list
    /\ slept w' = (slept w ++ backoff_delays (core_retry_config c) 0 k)%list
    /\ Forall (fun d => d <= 10000) (backoff_delays (core_retry_config c) 0 k)
    /\ (forall i, calculateDelay i (core_retry_config c)
                  = Z.min (retryDelay c * 2 ^ Z.of_nat i) 10000)
    /\ cache w' = cache w
    /\ console_warn w' = console_warn w.
Proof.
  cbv zeta.
  destruct (request_world c endpoint options w) as (opts & Hreq & Hcfg & Hw & _).
  rewrite Hw, Hreq.
  destruct (httpRequest_traced (baseUrl c ++ endpoint) opts w)
    as (k & Hk & Hcalls & Hslept & Hc & Hcw & _).
  rewrite Hcfg in Hk, Hslept.
  exists k. repeat split; auto using core_delays_capped, core_delay.
Qed.

(** The requests of [get]: a GET without body, carrying the default
    [Accept] header and the regulator's credential header. *)
Lemma get_request_shape (c : Client) (endpoint : string) :
  core_request c endpoint (mkOptions (Some GET) None None None None)
  = get_request c endpoint.
Proof. reflexivity. Qed.

Lemma handleErrorResponse_classified (response : HttpResponse) :
  classified (handleErrorResponse response) = true.
Proof.
  unfold handleErrorResponse.
  destruct ((r_status response =? 401) || (r_status response =? 403));
    [reflexivity|].
  destruct (r_status response =? 404); [reflexivity|].
  destruct (r_status response =? 429); [|reflexivity].
  unfold Errors.new_RateLimitError. reflexivity.
Qed.

(** X4.  A request of the core returns successful responses only; whatever
    it throws is one of the five kinds of the taxonomy: a [NetworkError], or
    the classification by status of the failed answer. *)
Theorem request_outcomes (c : Client) (endpoint : string)
        (options : HttpRequestOptions) (w : World) :
  match fst (request c endpoint options w) with
  | Returns response => r_ok response = true
  | Throws e =>
      classified e = true
      /\ ((exists cause, e = NetworkError cause)
          \/ (exists failed, r_ok failed = false
                             /\ e = handleErrorResponse failed))
  end.
Proof.
  destruct (request_world c endpoint options w) as (opts & _ & _ & _ & Hfst).
  rewrite Hfst.
  destruct (httpRequest_traced (baseUrl c ++ endpoint) opts w)
    as (k & _ & _ & _ & _ & _ & Hlast).
  destruct (fst (httpRequest (baseUrl c ++ endpoint) opts w)) as [resp|e].
  - destruct (r_ok resp) eqn:Hok; simpl; [exact Hok|].
    split; [apply handleErrorResponse_classified|].
    right. now exists resp.
  - destruct Hlast as (cause & _ & -> & _). split; [reflexivity|].
    left. now exists cause.
Qed.

(** X5.  The error kind is decided by the status alone and carries the
    response's details: 401 and 403 give an [AuthenticationError] with the
    status and its text; 404 a [CharityNotFoundError]; 429 a
    [RateLimitError]; every other status an [ApiError] with the status, its
    text and the raw body. *)
Theorem handleErrorResponse_by_status (response : HttpResponse) :
  match handleErrorResponse response with
  | AuthenticationError s t =>
      (r_status response = 401 \/ r_status response = 403)
      /\ s = r_status response /\ t = r_statusText response
  | CharityNotFoundError i => r_status response = 404 /\ i = None
  | RateLimitError _ => r_status response = 429
  | ApiError s t b =>
      r_status response <> 401 /\ r_status response <> 403
      /\ r_status response <> 404 /\ r_status response <> 429
      /\ s = r_status response /\ t = r_statusText response /\ b = raw response
  | NetworkError _ | PlainError _ => False
  end.
Proof.
  unfold handleErrorResponse.
  destruct (Z.eqb_spec (r_status response) 401) as [E1|N1]; simpl; [auto|].
  destruct (Z.eqb_spec (r_status response) 403) as [E3|N3]; simpl; [auto|].
  destruct (Z.eqb_spec (r_status response) 404) as [E4|N4]; [auto|].
  destruct (Z.eqb_spec (r_status response) 429) as [E9|N9].
  - unfold Errors.new_RateLimitError. exact E9.
  - repeat split; auto.
Qed.

(* ------------------------------------------------------------------ *)
(** *** Header precedence *)

Lemma assoc_app {V} (k : string) (a b : list (string * V)) :
  assoc k (a ++ b) = match assoc k a with Some v => Some v | None => assoc k b end.
Proof.
  induction a as [|[k' v'] a IH]; simpl; [reflexivity|].
  destruct (String.eqb k k'); auto.
Qed.

Lemma assoc_set {V} (k k' : string) (v : V) (o : Obj.t V) :
  assoc k (Obj.set k' v o) = if String.eqb k k' then Some v else assoc k o.
Proof.
  induction o as [|[k2 v2] o IH]; simpl; [reflexivity|].
  destruct (String.eqb_spec k' k2) as [->|Hne]; simpl.
  - destruct (String.eqb k k2); reflexivity.
  - rewrite IH. destruct (String.eqb_spec k k2) as [->|Hne2]; [|reflexivity].
    destruct (String.eqb_spec k2 k') as [E|_]; [congruence|reflexivity].
Qed.

(** [{...acc, ...o}] holds for every name what [o] holds for it, and what
    [acc] holds where [o] holds nothing. *)
Lemma assoc_spread {V} (k : string) (o acc : Obj.t V) :
  assoc k (Obj.spread acc o)
  = match own k o with Some v => Some v | None => assoc k acc end.
Proof.
  unfold Obj.spread, own. revert acc.
  induction o as [|[k1 v1] o IH]; intros acc; simpl; [reflexivity|].
  rewrite IH, assoc_app, assoc_set. simpl.
  destruct (assoc k (rev o)); [reflexivity|].
  destruct (String.eqb k k1); reflexivity.
Qed.

(** X6.  In every request of the core a header supplied by the caller
    wins over the regulator's credential header, which wins over the default
    [Accept: application/json]; no other header is sent. *)
Theorem request_header_precedence (c : Client) (endpoint : string)
        (options : HttpRequestOptions) (k : string) :
  assoc k (req_headers (core_request c endpoint options))
  = match own k (opt_headers options ?? []) with
    | Some v => Some v
    | None =>
        match own k (getAuthHeaders (caps c) (apiKey c)) with
        | Some v => Some v
        | None => if String.eqb k "Accept" then Some "application/json" else None
        end
    end.
Proof.
  unfold core_request, fetch_arguments. simpl req_headers.
  rewrite !assoc_spread. reflexivity.
Qed.

(* ------------------------------------------------------------------ *)
(** *** Cache keys *)

Lemma append_cancel (a b c : string) : a ++ b = a ++ c -> b = c.
Proof. induction a as [|ch a IH]; simpl; [auto|]. intros H. inversion H. auto. Qed.

Lemma regulator_name_inj (r r' : Regulator) (s s' : string) :
  regulator_name r ++ s = regulator_name r' ++ s' -> r = r' /\ s = s'.
Proof. destruct r, r'; simpl; intros H; inversion H; auto. Qed.

(** X7.  Two lookups of the same operation share a cache key exactly when
    they are made for the same regulator with the same normalized
    identifier. *)
Theorem getCacheKey_injective (c c' : Client) (method a b : string) :
  getCacheKey c method (inl a) = getCacheKey c' method (inl b)
  <-> cap_regulator (caps c) = cap_regulator (caps c') /\ a = b.
Proof.
  unfold getCacheKey. split.
  - intros H. apply regulator_name_inj in H as [Hr H]. split; [exact Hr|].
    apply (append_cancel ":") in H. apply append_cancel in H.
    now apply (append_cancel ":") in H.
  - intros [-> ->]. reflexivity.
Qed.

End CoreExtra.

(* ================================================================== *)
(** ** What the operations cost and how they fail *)

Ltac conjuncts := repeat match goal with |- _ /\ _ => split end; intros.

Ltac split_scrutinee :=
  match goal with
  | |- context [match ?x with _ => _ end] =>
      lazymatch x with
      | context [match _ with _ => _ end] => fail
      | _ => destruct x
      end
  end.

Ltac leaves_world :=
  intros; cbv zeta; unfold bind, lift, ret, throw; cbv beta iota;
  repeat (split_scrutinee; cbv beta iota);
  reflexivity.

Section OperationsExtra.

Context {P : Platform}.
Import Http Transport BaseClient.

Lemma request_cases (c : Client) (endpoint : string) (options : HttpRequestOptions)
      (w : World) :
  match fst (request c endpoint options w) with
  | Returns response => r_ok response = true
  | Throws e =>
      (exists cause, e = NetworkError cause)
      \/ (exists failed, r_ok failed = false /\ e = handleErrorResponse failed)
  end.
Proof.
  destruct (request_world c endpoint options w) as (opts & _ & _ & _ & Hfst).
  rewrite Hfst.
  destruct (httpRequest_traced (baseUrl c ++ endpoint) opts w)
    as (k & _ & _ & _ & _ & _ & Hlast).
  destruct (fst (httpRequest (baseUrl c ++ endpoint) opts w)) as [resp|e].
  - destruct (r_ok resp) eqn:Hok; simpl; [exact Hok|].
    right. now exists resp.
  - destruct Hlast as (cause & _ & -> & _). left. now exists cause.
Qed.

Lemma fetches_of_calls (w w' : World) :
  fetch_calls w' = fetch_calls w -> fetches w' = fetches w.
Proof. unfold fetches. now intros ->. Qed.

Lemma core_calls_same (c : Client) (w w' : World) :
  fetches w' = fetches w -> core_calls 0 0 c w w'.
Proof. unfold core_calls. lia. Qed.

Lemma core_calls_then (a b a' b' : nat) (c : Client) (w w1 w2 : World) :
  core_calls a b c w w1 -> core_calls a' b' c w1 w2 ->
  core_calls (a + a') (b + b') c w w2.
Proof. unfold core_calls. rewrite Nat.mul_add_distr_r. lia. Qed.

Lemma core_calls_weaken (a b a' b' : nat) (c : Client) (w w' : World) :
  core_calls a b c w w' -> (a' <= a)%nat -> (b <= b')%nat ->
  core_calls a' b' c w w'.
Proof. unfold core_calls. nia. Qed.

(** One call of the request core. *)
Lemma get_cost (c : Client) (endpoint : string) (w : World) :
  core_calls 1 1 c w (snd (get c endpoint w))
  /\ cache (snd (get c endpoint w)) = cache w
  /\ console_warn (snd (get c endpoint w)) = console_warn w.
Proof.
  unfold get.
  destruct (request_world c endpoint (mkOptions (Some GET) None None None None) w)
    as (opts & _ & Hcfg & Hw & _).
  rewrite Hw.
  destruct (httpRequest_traced (baseUrl c ++ endpoint) opts w)
    as (k & Hk & Hcalls & _ & Hc & Hcw & _).
  rewrite Hcfg in Hk. simpl in Hk.
  repeat split; auto; unfold fetches; rewrite Hcalls, length_app, repeat_length; lia.
Qed.

Lemma bind_world {A B} (m : M A) (k : A -> M B) (w : World) :
  (forall a w1, snd (k a w1) = w1) -> snd (bind m k w) = snd (m w).
Proof. intros Hk. unfold bind. destruct (m w) as [[a|e] w1]; simpl; auto. Qed.

Lemma try_world {A} (m : M A) (h : Exn -> M A) (w : World) :
  (forall e w1, snd (h e w1) = w1) -> snd (try_catch m h w) = snd (m w).
Proof. intros Hh. unfold try_catch. destruct (m w) as [[a|e] w1]; simpl; auto. Qed.

Lemma bind_cost {A B} (a b b' : nat) (c : Client) (m : M A) (k : A -> M B)
      (w : World) :
  core_calls a b c w (snd (m w)) ->
  (forall x w1, core_calls 0 b' c w1 (snd (k x w1))) ->
  core_calls a (b + b') c w (snd (bind m k w)).
Proof.
  intros Hm Hk. unfold bind. destruct (m w) as [[x|e] w1]; simpl in *.
  - replace a with (a + 0)%nat by lia. eapply core_calls_then; eauto.
  - eapply core_calls_weaken; eauto; lia.
Qed.

(** A list operation wrapped in a catch-all. *)
Lemma fails_empty_intro {A} (upstream : M HttpResponse) (f : HttpResponse -> M (list A))
      (w : World) :
  (forall r w1, snd (f r w1) = w1) ->
  fails_empty upstream (try_catch (bind upstream f) (fun _ => ret [])) w.
Proof.
  intros Hf. unfold fails_empty, try_catch, bind.
  destruct (upstream w) as [[r|e] w1]; simpl; [|auto].
  specialize (Hf r w1). destruct (f r w1) as [[l|e] w2]; simpl in *; auto.
Qed.

(** X8.  The CCEW operations [getTrustees], [getFinancialHistory] and
    [getOtherRegulators] never throw: each makes one call of the request
    core, leaves the world as that call left it, and answers with the empty
    list whenever the call failed, an authentication failure included. *)
Theorem CCEW_list_operations_fail_empty (c : Client) (id : string) (w : World) :
  fails_empty
    (get c (ccew_endpoint "/allcharitydetails/GetCharityTrusteeInformationV2" id))
    (CCEWClient.getTrustees c id) w
  /\ fails_empty
       (get c (ccew_endpoint "/allcharitydetails/GetCharityFinancialHistory" id))
       (CCEWClient.getFinancialHistory c id) w
  /\ fails_empty
       (get c (ccew_endpoint "/allcharitydetails/GetCharityOtherRegulators" id))
       (CCEWClient.getOtherRegulators c id) w.
Proof.
  conjuncts; apply fails_empty_intro; leaves_world.
Qed.

(* ------------------------------------------------------------------ *)
(** *** Upstream traffic *)

Lemma get_then_cost {A} (c : Client) (endpoint : string) (k : HttpResponse -> M A)
      (w : World) :
  (forall r w1, snd (k r w1) = w1) ->
  core_calls 1 1 c w (snd (bind (get c endpoint) k w)).
Proof. intros Hk. rewrite bind_world by exact Hk. apply get_cost. Qed.

Lemma try_get_cost {A} (c : Client) (endpoint : string) (k : HttpResponse -> M A)
      (h : Exn -> M A) (w : World) :
  (forall r w1, snd (k r w1) = w1) -> (forall e w1, snd (h e w1) = w1) ->
  core_calls 1 1 c w (snd (try_catch (bind (get c endpoint) k) h w)).
Proof.
  intros Hk Hh. rewrite try_world by exact Hh. now apply get_then_cost.
Qed.

Lemma cached_lookup_cost (c : Client) (key endpoint : string)
      (absent : json -> bool) (transform : json -> Outcome Charity)
      (swallow : Exn -> bool) (w : World) :
  core_calls 0 1 c w
    (snd (cached_lookup key (get c endpoint) absent transform swallow w)).
Proof.
  destruct (getCached key w) as [o wm] eqn:Hprobe.
  destruct (getCached_frame _ _ Hprobe) as (Hcalls & _ & _ & _ & _ & [hit ->]).
  apply fetches_of_calls in Hcalls.
  destruct hit as [hit|].
  - unfold cached_lookup, bind. rewrite Hprobe. simpl.
    eapply core_calls_weaken; [apply core_calls_same; eassumption|lia|lia].
  - assert (Hget := get_cost c endpoint wm).
    destruct Hget as (Hcost & _).
    assert (Hstore : forall k v, fetches (snd (setCache k v (snd (get c endpoint wm))))
                                 = fetches (snd (get c endpoint wm))).
    { intros k v. apply fetches_of_calls, setCache_frame. }
    destruct (get c endpoint wm) as [[resp|e] w2] eqn:Hlook; simpl in *.
    + erewrite cached_lookup_miss_returns by eassumption.
      unfold core_calls in *.
      destruct (absent (data resp));
        [|destruct (transform (data resp)) as [result|e];
          [|destruct (swallow e)]];
        simpl; rewrite ?Hstore; lia.
    + erewrite cached_lookup_miss_throws by eassumption.
      unfold core_calls in *.
      destruct (swallow e); simpl; rewrite ?Hstore; lia.
Qed.

(** X9.  Upstream traffic of the CCEW client: every operation makes
    exactly one call of the request core, so between one and
    [1 + retryAttempts] invocations of [fetch]; [getCharity] makes at most
    one, and [getCharityWithLinked] always one. *)
Theorem CCEW_operations_cost (c : Client) (w : World) :
  (forall query, core_calls 1 1 c w (snd (CCEWClient.search c query w)))
  /\ (forall name page pageSize,
         core_calls 1 1 c w (snd (CCEWClient.searchByName c name page pageSize w)))
  /\ (forall id, core_calls 0 1 c w (snd (CCEWClient.getCharity c id w)))
  /\ (forall regNumber linkedNumber,
         core_calls 1 1 c w
           (snd (CCEWClient.getCharityWithLinked c regNumber linkedNumber w)))
  /\ (forall id, core_calls 1 1 c w (snd (CCEWClient.getTrustees c id w)))
  /\ (forall id, core_calls 1 1 c w (snd (CCEWClient.getFinancialHistory c id w)))
  /\ (forall id, core_calls 1 1 c w (snd (CCEWClient.getOtherRegulators c id w))).
Proof.
  conjuncts.
  - apply get_then_cost. reflexivity.
  - apply get_then_cost. reflexivity.
  - rewrite CCEW_getCharity_shape. apply cached_lookup_cost.
  - apply try_get_cost; leaves_world.
  - apply try_get_cost; leaves_world.
  - apply try_get_cost; leaves_world.
  - apply try_get_cost; leaves_world.
Qed.

Lemma CCNI_getCharity_cost (c : Client) (id : string) (w : World) :
  core_calls 0 1 c w (snd (CCNIClient.getCharity c id w)).
Proof. rewrite CCNI_getCharity_shape. apply cached_lookup_cost. Qed.

(** X10.  Upstream traffic of the CCNI client: a search makes one call of
    the request core; [getCharity], [getTrustees] and [getFinancialHistory]
    make at most one (they share the lookup and its cache);
    [getCharityWithSubsidiary] always one; [getOtherRegulators] none. *)
Theorem CCNI_operations_cost (c : Client) (w : World) :
  (forall query, core_calls 1 1 c w (snd (CCNIClient.search c query w)))
  /\ (forall name page,
         core_calls 1 1 c w (snd (CCNIClient.searchByName c name page w)))
  /\ (forall id, core_calls 0 1 c w (snd (CCNIClient.getCharity c id w)))
  /\ (forall regId subId,
         core_calls 1 1 c w
           (snd (CCNIClient.getCharityWithSubsidiary c regId subId w)))
  /\ (forall id, core_calls 0 1 c w (snd (CCNIClient.getTrustees c id w)))
  /\ (forall id, core_calls 0 1 c w (snd (CCNIClient.getFinancialHistory c id w)))
  /\ (forall id, core_calls 0 0 c w (snd (CCNIClient.getOtherRegulators c id w))).
Proof.
  conjuncts.
  - apply get_then_cost. reflexivity.
  - apply get_then_cost. reflexivity.
  - apply CCNI_getCharity_cost.
  - apply try_get_cost; leaves_world.
  - unfold CCNIClient.getTrustees. rewrite bind_world by leaves_world.
    apply CCNI_getCharity_cost.
  - unfold CCNIClient.getFinancialHistory. rewrite bind_world by leaves_world.
    apply CCNI_getCharity_cost.
  - apply core_calls_same. reflexivity.
Qed.

Lemma OSCR_getCharity_cost (c : Client) (id : string) (w : World) :
  core_calls 1 1 c w (snd (OSCRClient.getCharity c id w)).
Proof. apply try_get_cost; leaves_world. Qed.

Lemma OSCR_getAnnualReturnsById_cost (c : Client) (charityId : ParamValue) (w : World) :
  core_calls 1 1 c w (snd (OSCRClient.getAnnualReturnsById c charityId w)).
Proof. apply try_get_cost; leaves_world. Qed.

Lemma OSCR_getLatestAnnualReturnRaw_cost (c : Client) (charityId : ParamValue)
      (w : World) :
  core_calls 1 1 c w (snd (OSCRClient.getLatestAnnualReturnRaw c charityId w)).
Proof.
  unfold OSCRClient.getLatestAnnualReturnRaw. rewrite bind_world by leaves_world.
  apply OSCR_getAnnualReturnsById_cost.
Qed.

Lemma OSCR_getAnnualReturns_cost (c : Client) (id : string) (w : World) :
  core_calls 1 2 c w (snd (OSCRClient.getAnnualReturns c id w)).
Proof.
  unfold OSCRClient.getAnnualReturns.
  apply (@bind_cost _ _ 1 1 1); [apply OSCR_getCharity_cost|].
  intros [charity|] w1.
  - rewrite bind_world by reflexivity.
    eapply core_calls_weaken; [apply OSCR_getAnnualReturnsById_cost|lia|lia].
  - eapply core_calls_weaken; [apply core_calls_same; reflexivity|lia|lia].
Qed.

(** X11.  Upstream traffic of the OSCR client: [search] and [getCharity]
    make one call of the request core, [getAnnualReturns] one or two, and
    [getCharityWithFinancials] between one and four (the record is looked
    up twice and the annual returns are fetched twice), so at most
    [4 * (1 + retryAttempts)] invocations of [fetch]. *)
Theorem OSCR_operations_cost (c : Client) (w : World) :
  (forall query, core_calls 1 1 c w (snd (OSCRClient.search c query w)))
  /\ (forall id, core_calls 1 1 c w (snd (OSCRClient.getCharity c id w)))
  /\ (forall id, core_calls 1 2 c w (snd (OSCRClient.getAnnualReturns c id w)))
  /\ (forall id, core_calls 1 4 c w (snd (OSCRClient.getCharityWithFinancials c id w))).
Proof.
  conjuncts.
  - apply get_then_cost. reflexivity.
  - apply OSCR_getCharity_cost.
  - apply OSCR_getAnnualReturns_cost.
  - unfold OSCRClient.getCharityWithFinancials.
    apply (@bind_cost _ _ 1 1 3); [apply OSCR_getCharity_cost|].
    intros [charity|] w1;
      [|eapply core_calls_weaken; [apply core_calls_same; reflexivity|lia|lia]].
    eapply core_calls_weaken;
      [apply (@bind_cost _ _ 1 2 1); [apply OSCR_getAnnualReturns_cost|]|lia|lia].
    intros [|y l] w2;
      [eapply core_calls_weaken; [apply core_calls_same; reflexivity|lia|lia]|].
    rewrite bind_world by leaves_world.
    eapply core_calls_weaken; [apply OSCR_getLatestAnnualReturnRaw_cost|lia|lia].
Qed.

End OperationsExtra.

(* ================================================================== *)
(** ** Lookups: what they throw, what they store, what they share *)

Section LookupExtra.

Context {P : Platform}.
Import Http Transport BaseClient.

Lemma handleErrorResponse_auth (response : HttpResponse) :
  Errors.is_AuthenticationError (handleErrorResponse response) = true ->
  exists s t, handleErrorResponse response = AuthenticationError s t
              /\ (s = 401 \/ s = 403).
Proof.
  unfold handleErrorResponse.
  destruct (Z.eqb_spec (r_status response) 401) as [E1|N1]; simpl;
    [intros _; eauto|].
  destruct (Z.eqb_spec (r_status response) 403) as [E3|N3]; simpl;
    [intros _; eauto|].
  destruct (r_status response =? 404); [discriminate|].
  destruct (r_status response =? 429); [|discriminate].
  unfold Errors.new_RateLimitError. discriminate.
Qed.

(** What [get] throws is of the taxonomy, and an [AuthenticationError]
    carries status 401 or 403. *)
Lemma get_throws (c : Client) (endpoint : string) (w : World) (e : Exn) :
  fst (get c endpoint w) = Throws e ->
  classified e = true
  /\ (Errors.is_AuthenticationError e = true ->
      exists s t, e = AuthenticationError s t /\ (s = 401 \/ s = 403)).
Proof.
  intros Hget. unfold get in Hget.
  pose proof (request_cases c endpoint (mkOptions (Some GET) None None None None) w)
    as Hcases.
  rewrite Hget in Hcases.
  destruct Hcases as [[cause ->]|(failed & _ & ->)].
  - split; [reflexivity|discriminate].
  - split; [apply handleErrorResponse_classified|apply handleErrorResponse_auth].
Qed.





(* ------------------------------------------------------------------ *)
(** *** Lookups with a linked or subsidiary number *)

Lemma not_found_only_intro {A} (c : Client) (endpoint : string)
      (k : HttpResponse -> M (option A)) (w : World) :
  (forall r w1,
      snd (k r w1) = w1
      /\ match fst (k r w1) with
         | Throws e => Errors.is_CharityNotFoundError e = false
         | Returns _ => True
         end) ->
  not_found_only (get c endpoint)
    (try_catch (bind (get c endpoint) k)
               (fun error => if Errors.is_CharityNotFoundError error
                             then ret None else throw error)) w.
Proof.
  intros Hk. unfold not_found_only, reaches_upstream.
  destruct (get_cost c endpoint w) as ((Hlo & _) & Hcache & Hwarn).
  unfold try_catch, bind.
  destruct (get c endpoint w) as [[r|e] w1]; simpl in *.
  - destruct (Hk r w1) as [Hw Hnf].
    destruct (k r w1) as [[v|e] w2]; simpl in *; subst w2.
    + repeat split; eauto. lia.
    + rewrite Hnf. simpl. repeat split; auto. lia.
  - destruct (Errors.is_CharityNotFoundError e) eqn:Hnf; simpl;
      repeat split; auto; lia.
Qed.

(** X13.  [getCharityWithLinked] (CCEW) and [getCharityWithSubsidiary]
    (CCNI) never use the cache: every call reaches the upstream and leaves
    the cache as it was.  An explicit "not found" becomes [null]; every
    other error, rate limits and server failures included, reaches the
    caller unchanged. *)
Theorem linked_lookups_bypass_cache (c : Client) (number : string)
        (other : string + Z) (w : World) :
  not_found_only (get c (linked_endpoint number other))
                 (CCEWClient.getCharityWithLinked c number other) w
  /\ not_found_only (get c (subsidiary_endpoint number other))
                    (CCNIClient.getCharityWithSubsidiary c number other) w.
Proof.
  split; apply not_found_only_intro; intros r w1; cbv beta;
    match goal with
    | |- context [if ?b then _ else _] => destruct b
    end; try (split; [reflexivity|exact I]).
  unfold bind, lift.
  pose proof (CCEW_transformDetails_only_TypeError (data r)) as Ht.
  destruct (CCEWTransform.transformDetails (data r)) as [result|e];
    cbn [fst snd]; split; auto.
  apply TypeError_not_classified in Ht. tauto.
Qed.

(** X14.  With the cache disabled, the CCNI [getCharity] is
    [getCharityWithSubsidiary] for subsidiary number 0: same requests, same
    result, same final state. *)
Theorem CCNI_getCharity_is_subsidiary_zero (c : Client) (id : string) (w : World) :
  cache w = None ->
  CCNIClient.getCharity c id w = CCNIClient.getCharityWithSubsidiary c id (inr 0) w.
Proof.
  intros Hoff. unfold CCNIClient.getCharity, CCNIClient.getCharityWithSubsidiary.
  unfold bind at 1. rewrite (getCached_disabled _ _ Hoff).
  unfold CCNIClient.details_endpoint. simpl CCEWClient.number_or_string.
  set (endpoint := ("/getCharityDetails" ++ _)%string).
  destruct (get_cost c endpoint w) as (_ & Hcache & _).
  destruct (get c endpoint w) as [[resp|e] w1] eqn:Hget; simpl in Hcache;
    assert (Hnone : cache w1 = None) by congruence.
  - unfold try_catch. erewrite !bind_step by exact Hget.
    destruct (negb (truthy (Some (data resp)))
              || negb (truthy (data resp)@"regCharityNumber"));
      rewrite store_and_return, (proj2 (setCache_frame _ _ w1) Hnone); reflexivity.
  - unfold try_catch. erewrite !bind_throws by exact Hget.
    destruct (Errors.is_CharityNotFoundError e); [|reflexivity].
    rewrite store_and_return, (proj2 (setCache_frame _ _ w1) Hnone); reflexivity.
Qed.

(** X15.  On CCNI, once [getCharity] has returned with caching enabled,
    [getTrustees] and [getFinancialHistory] for the same id are answered
    from the cached result without any further request; when the lookup
    found nothing, both give the empty list. *)
Theorem CCNI_details_served_from_cache (c : Client) (id : string) (w : World)
        (v : option Charity) :
  caching w ->
  fst (CCNIClient.getCharity c id w) = Returns v ->
  let w1 := snd (CCNIClient.getCharity c id w) in
  fetch_calls (snd (CCNIClient.getTrustees c id w1)) = fetch_calls w1
  /\ fetch_calls (snd (CCNIClient.getFinancialHistory c id w1)) = fetch_calls w1
  /\ match v with
     | None =>
         fst (CCNIClient.getTrustees c id w1) = Returns []
         /\ fst (CCNIClient.getFinancialHistory c id w1) = Returns []
     | Some _ => True
     end.
Proof.
  intros Hcaching Hfirst. cbv zeta.
  destruct (CCNIClient.getCharity c id w) as [o w1] eqn:Hrun.
  simpl in Hfirst. subst o. simpl.
  rewrite CCNI_getCharity_shape in Hrun.
  assert (Hrepeat :
            exists w2,
              cached_lookup (getCacheKey c "getCharity" (inl (CCNIClient.strip_NIC id)))
                            (get c (lookup_endpoint CCNI id)) (placeholder CCNI)
                            (fun raw => Returns (CCNITransform.transformDetails raw))
                            (swallowed CCNI) w1
              = (Returns v, w2)
              /\ fetch_calls w2 = fetch_calls w1).
  { eapply cached_lookup_repeat;
      [intros ? ? ? Hf; eapply get_frame; exact Hf|exact Hcaching|exact Hrun]. }
  destruct Hrepeat as (w2 & Hagain & Hcalls).
  rewrite <- CCNI_getCharity_shape in Hagain.
  unfold CCNIClient.getTrustees, CCNIClient.getFinancialHistory, bind.
  rewrite Hagain.
  destruct v as [charity|]; simpl; auto.
  destruct (negb (truthy (_raw charity)@"dateFinancialYearEnd")); simpl; auto.
Qed.

End LookupExtra.

Lemma CCNI_getCharity_is_subsidiary_zero_witness :
  CCNIClient.getCharity (P := absent_upstream) Sample.ccni "NIC100002"
                        Sample.uncached_world
  = CCNIClient.getCharityWithSubsidiary (P := absent_upstream) Sample.ccni
                                        "NIC100002" (inr 0) Sample.uncached_world.
Proof.
  apply (@CCNI_getCharity_is_subsidiary_zero absent_upstream Sample.ccni
           "NIC100002" Sample.uncached_world).
  reflexivity.
Defined.

Lemma CCNI_details_served_from_cache_witness :
  fetches (snd (CCNIClient.getCharity (P := absent_upstream) Sample.ccni
                                      "NIC100002" Sample.cached_world)) = 1%nat
  /\ fst (CCNIClient.getTrustees (P := absent_upstream) Sample.ccni "NIC100002"
            (snd (CCNIClient.getCharity (P := absent_upstream) Sample.ccni
                                        "NIC100002" Sample.cached_world)))
     = Returns [].
Proof.
  split; [vm_compute; reflexivity|].
  apply (@CCNI_details_served_from_cache absent_upstream Sample.ccni "NIC100002"
           Sample.cached_world None).
  - unfold caching. simpl. split; [apply Nat.leb_le; reflexivity|reflexivity].
  - vm_compute. reflexivity.
Defined.

(* ================================================================== *)
(** ** OSCR: the latest annual return and the enriched record *)

Section OSCRExtra.

Context {P : Platform}.
Import Http Transport BaseClient.

Lemma insert_sorted_In {A} (compare : A -> A -> Z) (x z : A) (l : list A) :
  In z (OSCRClient.insert_sorted compare x l) <-> z = x \/ In z l.
Proof.
  induction l as [|y r IH]; simpl; [intuition|].
  destruct (0 <? compare x y); simpl; rewrite ?IH; intuition.
Qed.

Lemma sort_In {A} (compare : A -> A -> Z) (z : A) (l : list A) :
  In z (OSCRClient.sort compare l) <-> In z l.
Proof.
  unfold OSCRClient.sort. induction l as [|x l IH]; simpl; [tauto|].
  rewrite insert_sorted_In, IH. intuition.
Qed.

Lemma by_date_descending_dates (a b : json) :
  OSCRClient.by_date_descending a b
  = match return_date b, return_date a with
    | Some tb, Some ta => tb - ta
    | _, _ => 0
    end.
Proof. reflexivity. Qed.

Lemma insert_keeps_latest_first (x : json) (l : list json) :
  return_date x <> None ->
  headed_by_latest l ->
  headed_by_latest (OSCRClient.insert_sorted OSCRClient.by_date_descending x l).
Proof.
  intros Hx. destruct l as [|y r]; cbn [OSCRClient.insert_sorted headed_by_latest].
  - intros _ z [<-|[]]. unfold not_after.
    destruct (return_date x); [lia|congruence].
  - intros Hhead.
    assert (Hy := Hhead y (or_introl eq_refl)).
    rewrite by_date_descending_dates.
    destruct (return_date y) as [ty|] eqn:Hdy; [|contradiction].
    destruct (return_date x) as [tx|] eqn:Hdx; [|congruence].
    destruct (Z.ltb_spec 0 (ty - tx)) as [Hlater|Hnot]; cbn [headed_by_latest].
    + intros z [<-|Hz].
      * rewrite Hdy. simpl. lia.
      * rewrite Hdy. apply insert_sorted_In in Hz as [->|Hz].
        -- rewrite Hdx. simpl. lia.
        -- apply Hhead. now right.
    + intros z [<-|Hz].
      * rewrite Hdx. simpl. lia.
      * specialize (Hhead z Hz). rewrite Hdx. unfold not_after in *.
        destruct (return_date z); [lia|contradiction].
Qed.
Lemma sort_latest_first (l : list json) :
  Forall (fun r => return_date r <> None) l ->
  headed_by_latest (OSCRClient.sort OSCRClient.by_date_descending l).
Proof.
  unfold OSCRClient.sort. induction 1 as [|x l Hx _ IH]; simpl; [exact I|].
  now apply insert_keeps_latest_first.
Qed.

Lemma dated_returns_sort (l : list json) :
  Forall (fun r => return_date r <> None) l ->
  exists sorted,
    OSCRClient.sort_returns l = Returns sorted
    /\ headed_by_latest sorted
    /\ (forall z, In z sorted <-> In z l).
Proof.
  intros Hdated.
  assert (Hnull : existsb is_null l = false).
  { apply not_true_is_false. intros H. apply existsb_exists in H as (x & Hin & Hx).
    rewrite Forall_forall in Hdated. apply (Hdated x Hin).
    destruct x; try discriminate. reflexivity. }
  assert (Hall : forallb OSCRClient.dated l = true).
  { apply forallb_forall. intros x Hin. rewrite Forall_forall in Hdated.
    specialize (Hdated x Hin). unfold OSCRClient.dated, return_date in *.
    destruct (new_Date _); congruence. }
  destruct l as [|x [|y l']].
  - exists []. split; [reflexivity|]. split; [exact I|]. intros z. tauto.
  - exists [x]. split; [reflexivity|]. split; [|intros z; tauto].
    intros z [<-|[]]. inversion Hdated as [|? ? Hx _]; subst.
    unfold not_after. destruct (return_date x); [lia|congruence].
  - exists (OSCRClient.sort OSCRClient.by_date_descending (x :: y :: l')).
    unfold OSCRClient.sort_returns. rewrite Hnull, Hall.
    split; [reflexivity|]. split; [now apply sort_latest_first|].
    intros z. apply sort_In.
Qed.

(** X16.  When the annual returns [getAnnualReturnsById] hands over are an
    array in which every record carries a date that parses,
    [getLatestAnnualReturnRaw] returns one of those records whose date no
    other record exceeds; it returns [null] exactly when the array is empty
    (as it is after every failure of the upstream call), and it does not
    throw. *)
Theorem latest_return_is_latest (c : Client) (charityId : ParamValue) (w : World)
        (returns : list json) :
  fst (OSCRClient.getAnnualReturnsById c charityId w) = Returns (JArr returns) ->
  Forall (fun r => return_date r <> None) returns ->
  match fst (OSCRClient.getLatestAnnualReturnRaw c charityId w) with
  | Returns (Some latest) =>
      In latest returns
      /\ Forall (fun r => not_after (return_date r) (return_date latest)) returns
  | Returns None => returns = []
  | Throws _ => False
  end.
Proof.
  intros Hrun Hdated. unfold OSCRClient.getLatestAnnualReturnRaw.
  destruct (OSCRClient.getAnnualReturnsById c charityId w) as [o w1] eqn:Hby.
  cbn [fst] in Hrun. subst o.
  erewrite bind_step by exact Hby.
  destruct returns as [|x l']; [reflexivity|].
  set (l := x :: l') in *.
  assert (Hlen : length_of (JArr l) <> Some (JNum 0)).
  { unfold l. cbn [length_of List.length]. intros H. inversion H; lia. }
  destruct (length_of (JArr l)) as [[| |n| | |]|] eqn:Hl;
    try (destruct n; [congruence| |]);
    (destruct (dated_returns_sort Hdated) as (sorted & Hsort & Hhead & Hin);
     unfold bind, lift; rewrite Hsort;
     (destruct sorted as [|first rest];
      [exfalso; apply (Hin x); now left|]);
     assert (Hfirst : In first l) by (apply Hin; now left);
     assert (Hd : return_date first <> None)
       by (rewrite Forall_forall in Hdated; now apply Hdated);
     assert (Hlatest : Forall (fun r => not_after (return_date r)
                                                  (return_date first)) l)
       by (apply Forall_forall; intros r Hr; apply Hhead, Hin, Hr);
     destruct first; cbn [fst ret]; try (split; assumption);
     exfalso; apply Hd; reflexivity).
Qed.

(* ------------------------------------------------------------------ *)
(** *** The enriched record *)

Lemma enrich_same_identity (charity : Charity) (annualReturn : json) :
  same_identity (OSCRTransform.enrichCharityWithAnnualReturn charity annualReturn)
                charity.
Proof. unfold same_identity. repeat split. Qed.

(** X17.  [getCharityWithFinancials] against [getCharity] from the same
    state: when the lookup throws, so does the enriched lookup, with the
    same exception; when it returns [null], so does the enriched lookup,
    without any further request; when it returns a record, the enriched
    lookup never returns [null]: what it returns is a record about the
    same charity (same id, regulator, registration number, name, status and
    raw record). *)
Theorem getCharityWithFinancials_follows_getCharity (c : Client) (id : string)
        (w : World) :
  let enriched := OSCRClient.getCharityWithFinancials c id w in
  match fst (OSCRClient.getCharity c id w) with
  | Throws e => fst enriched = Throws e
  | Returns None =>
      fst enriched = Returns None
      /\ snd enriched = snd (OSCRClient.getCharity c id w)
  | Returns (Some primary) =>
      match fst enriched with
      | Returns (Some charity) => same_identity charity primary
      | Returns None => False
      | Throws _ => True
      end
  end.
Proof.
  cbv zeta. unfold OSCRClient.getCharityWithFinancials.
  destruct (OSCRClient.getCharity c id w) as [[[primary|]|e] w1] eqn:Hprimary;
    cbn [fst snd].
  - erewrite bind_step by exact Hprimary.
    destruct (OSCRClient.getAnnualReturns c id w1) as [[[|y l]|e] w2] eqn:Hreturns;
      cbn [fst] in *.
    + erewrite bind_step by exact Hreturns. unfold same_identity. repeat split.
    + erewrite bind_step by exact Hreturns.
      destruct (OSCRClient.getLatestAnnualReturnRaw c
                  (OSCRClient.internal_id (_raw primary)) w2)
        as [[latest|e] w3] eqn:Hl;
        [|erewrite bind_throws by exact Hl; exact I].
      erewrite bind_step by exact Hl.
      destruct latest as [latest|]; [|unfold same_identity; repeat split].
      destruct (truthy (Some latest)); cbn [fst ret].
      * apply enrich_same_identity.
      * unfold same_identity. repeat split.
    + erewrite bind_throws by exact Hreturns. exact I.
  - erewrite bind_step by exact Hprimary. split; reflexivity.
  - erewrite bind_throws by exact Hprimary. reflexivity.
Qed.

End OSCRExtra.

Lemma latest_return_is_latest_witness :
  match fst (OSCRClient.getLatestAnnualReturnRaw (P := dated_upstream) Sample.oscr
               (BaseClient.PString "a1b2c3") oscr_world) with
  | Returns (Some latest) =>
      In latest (as_array (Some two_returns))
      /\ Forall (fun r => not_after (return_date (P := dated_upstream) r)
                                    (return_date (P := dated_upstream) latest))
                (as_array (Some two_returns))
  | Returns None => as_array (Some two_returns) = []
  | Throws _ => False
  end.
Proof.
  apply (@latest_return_is_latest dated_upstream Sample.oscr
           (BaseClient.PString "a1b2c3") oscr_world (as_array (Some two_returns))).
  - vm_compute. reflexivity.
  - vm_compute. repeat constructor; discriminate.
Defined.

(* ================================================================== *)
(** ** Query strings, search pages, construction and the transport
       wrappers *)

Section QueryExtra.

Import BaseClient.

Lemma count_char_app (ch : ascii) (a b : string) :
  count_char ch (a ++ b) = (count_char ch a + count_char ch b)%nat.
Proof. induction a as [|x a IH]; simpl; [reflexivity|]. rewrite IH. lia. Qed.

(** The serializer writes no separator of its own accord: every ["&"],
    ["="] and ["?"] of a name or value is percent-encoded. *)
Lemma encode_byte_clean (c : ascii) :
  count_char "&" (URLSearchParams.encode_byte c) = 0%nat
  /\ count_char "=" (URLSearchParams.encode_byte c) = 0%nat
  /\ count_char "?" (URLSearchParams.encode_byte c) = 0%nat.
Proof.
  destruct c as [[] [] [] [] [] [] [] []]; vm_compute; repeat split.
Qed.

Lemma encode_clean (s : string) :
  count_char "&" (URLSearchParams.encode s) = 0%nat
  /\ count_char "=" (URLSearchParams.encode s) = 0%nat
  /\ count_char "?" (URLSearchParams.encode s) = 0%nat.
Proof.
  induction s as [|c s (IHa & IHe & IHq)]; [repeat split|].
  destruct (encode_byte_clean c) as (Ha & He & Hq).
  cbn [URLSearchParams.encode]. rewrite !count_char_app. lia.
Qed.

Lemma pair_text_separators (kv : string * ParamValue) :
  count_char "&" (pair_text kv) = 0%nat
  /\ count_char "=" (pair_text kv) = 1%nat
  /\ count_char "?" (pair_text kv) = 0%nat.
Proof.
  unfold pair_text.
  destruct (encode_clean (fst kv)) as (Ha & He & Hq).
  destruct (encode_clean (String_of (snd kv))) as (Ha' & He' & Hq').
  rewrite !count_char_app.
  change (count_char "&" "=") with 0%nat.
  change (count_char "=" "=") with 1%nat.
  change (count_char "?" "=") with 0%nat. lia.
Qed.

Lemma join_separators (l : list (string * ParamValue)) :
  count_char "&" (Str.join "&" (map pair_text l)) = (List.length l - 1)%nat
  /\ count_char "=" (Str.join "&" (map pair_text l)) = List.length l
  /\ count_char "?" (Str.join "&" (map pair_text l)) = 0%nat.
Proof.
  induction l as [|kv l (IHa & IHe & IHq)]; [repeat split|].
  destruct (pair_text_separators kv) as (Ha & He & Hq).
  destruct l as [|kv' l]; [simpl; lia|].
  change (Str.join "&" (map pair_text (kv :: kv' :: l)))
    with (pair_text kv ++ "&" ++ Str.join "&" (map pair_text (kv' :: l))).
  rewrite !count_char_app.
  change (count_char "&" "&") with 1%nat.
  change (count_char "=" "&") with 0%nat.
  change (count_char "?" "&") with 0%nat.
  simpl List.length in *. lia.
Qed.

Lemma insert_index_filter {V} (f : string * V -> bool) (n : Z) (kv : string * V)
      (l : list (Z * (string * V))) :
  List.length (List.filter f (map snd (Obj.insert_index n kv l)))
  = ((if f kv then 1 else 0) + List.length (List.filter f (map snd l)))%nat.
Proof.
  induction l as [|[m kv'] l IH]; simpl; [destruct (f kv); reflexivity|].
  destruct (n <? m); simpl; [destruct (f kv); reflexivity|].
  destruct (f kv'); simpl; rewrite IH; destruct (f kv); lia.
Qed.

(** Enumeration reorders the properties and loses none. *)
Lemma entries_filter_length {V} (f : string * V -> bool) (o : Obj.t V) :
  List.length (List.filter f (Obj.entries o)) = List.length (List.filter f o).
Proof.
  unfold Obj.entries. rewrite List.filter_app, length_app.
  induction o as [|[k v] o IH]; [reflexivity|].
  unfold Obj.named_entries in *. cbn [Obj.index_entries List.filter fst].
  destruct (Obj.array_index k) as [n|].
  - rewrite insert_index_filter.
    destruct (f (k, v)); cbn [List.length]; rewrite <- IH; lia.
  - cbn [List.filter]. destruct (f (k, v)); cbn [List.length]; rewrite <- IH; lia.
Qed.

(** X18.  Parameter names and values cannot add parameters to a query:
    the string [buildQueryString] returns holds exactly one ["="] for each
    parameter it keeps, an ["&"] only between two of them and a ["?"] only
    in front; it is empty exactly when no parameter is kept. *)
Theorem buildQueryString_separators (params : Obj.t ParamValue) :
  let query := buildQueryString params in
  let n := kept_count params in
  count_char "=" query = n
  /\ count_char "&" query = (n - 1)%nat
  /\ count_char "?" query = Nat.min n 1
  /\ (query = "" <-> n = 0%nat).
Proof.
  cbv zeta. unfold kept_count.
  rewrite buildQueryString_entries, <- (entries_filter_length kept_entry params).
  destruct (List.filter kept_entry (Obj.entries params)) as [|kv l] eqn:Hl.
  - simpl. repeat split; reflexivity.
  - destruct (join_separators (kv :: l)) as (Ha & He & Hq).
    unfold query_of.
    change (count_char "=" ("?" ++ ?s)) with (count_char "=" s).
    change (count_char "&" ("?" ++ ?s)) with (count_char "&" s).
    change (count_char "?" ("?" ++ ?s)) with (S (count_char "?" s)).
    rewrite Ha, He, Hq. simpl List.length.
    repeat split; try lia; discriminate.
Qed.

End QueryExtra.

Section PagesExtra.

Context {P : Platform}.
Import Http Transport BaseClient.

Lemma map_raw_of (f : json -> Charity) (l : list json) :
  (forall raw, _raw (f raw) = raw) -> map _raw (map f l) = l.
Proof.
  intros Hf. rewrite map_map. induction l as [|x l IH]; simpl; [reflexivity|].
  now rewrite Hf, IH.
Qed.

(** X19.  A search page that is returned lists the upstream's records one
    for one and in order: each item carries the record it was made from as
    [_raw] and the regulator's tag.  A body without the array of records
    makes the transform throw a [TypeError]. *)
Theorem search_items_keep_raw (raw : json) :
  match CCEWTransform.transformSearchResponse raw with
  | Returns r =>
      array_at "charities" raw = Returns (map _raw (items r))
      /\ Forall (fun charity => regulator charity = CCEW) (items r)
  | Throws e => exists message, e = TypeError message
  end
  /\ match CCNITransform.transformSearchResponse raw with
     | Returns r =>
         array_at "pageItems" raw = Returns (map _raw (items r))
         /\ Forall (fun charity => regulator charity = CCNI) (items r)
     | Throws e => exists message, e = TypeError message
     end
  /\ match OSCRTransform.transformAllCharitiesResponse raw with
     | Returns r =>
         array_at "data" raw = Returns (map _raw (items r))
         /\ Forall (fun charity => regulator charity = OSCR) (items r)
     | Throws e => exists message, e = TypeError message
     end.
Proof.
  assert (Hitems : forall (f : json -> Charity) (tag : Regulator) (l : list json),
             (forall x, _raw (f x) = x) -> (forall x, regulator (f x) = tag) ->
             map _raw (map f l) = l
             /\ Forall (fun charity => regulator charity = tag) (map f l)).
  { intros f tag l Hraw Htag. split; [now apply map_raw_of|].
    apply Forall_forall. intros ch Hin. apply in_map_iff in Hin as (x & <- & _).
    apply Htag. }
  repeat match goal with |- _ /\ _ => split end.
  - pose proof (CCEW_transformSearchResponse_only_TypeError raw) as Ht.
    destruct (CCEWTransform.transformSearchResponse raw) as [r|e] eqn:Hr;
      [|exact Ht].
    unfold CCEWTransform.transformSearchResponse in Hr.
    apply and_then_returns in Hr as (l & Harr & Hr).
    apply and_then_returns in Hr as (summaries & Hmap & Hr).
    apply map_records_returns in Hmap as [-> _].
    inversion Hr; subst r; cbn [items]. rewrite Harr.
    destruct (Hitems CCEWTransform.transformSummary CCEW l) as [-> Hall];
      try reflexivity.
    now split.
  - pose proof (CCNI_transformSearchResponse_only_TypeError raw) as Ht.
    destruct (CCNITransform.transformSearchResponse raw) as [r|e] eqn:Hr;
      [|exact Ht].
    unfold CCNITransform.transformSearchResponse in Hr.
    destruct raw; try discriminate Hr;
      (apply and_then_returns in Hr as (groups & _ & Hr);
       apply and_then_returns in Hr as (a1 & _ & Hr);
       apply and_then_returns in Hr as (a2 & _ & Hr);
       apply and_then_returns in Hr as (l & Harr & Hr);
       apply and_then_returns in Hr as (summaries & Hmap & Hr);
       apply map_records_returns in Hmap as [-> _];
       inversion Hr; subst r; cbn [items]; rewrite Harr;
       destruct (Hitems CCNITransform.transformSummary CCNI l) as [-> Hall];
       try reflexivity; now split).
  - pose proof (OSCR_transformAllCharitiesResponse_only_TypeError raw) as Ht.
    destruct (OSCRTransform.transformAllCharitiesResponse raw) as [r|e] eqn:Hr;
      [|exact Ht].
    unfold OSCRTransform.transformAllCharitiesResponse in Hr.
    apply and_then_returns in Hr as (l & Harr & Hr).
    apply and_then_returns in Hr as (charities & Hmap & Hr).
    apply map_records_returns in Hmap as [-> _].
    inversion Hr; subst r; cbn [items]. rewrite Harr.
    destruct (Hitems OSCRTransform.transformCharity OSCR l) as [-> Hall];
      try reflexivity.
    now split.
Qed.

(* ------------------------------------------------------------------ *)
(** *** Construction and credentials *)

Lemma is_empty_iff (s : string) : Str.is_empty s = true <-> s = "".
Proof. destruct s; simpl; split; congruence. Qed.

Lemma default_cache_is_made (k : Capabilities) (config : ClientConfig) :
  cfg_cache config = None ->
  exists c cache, BaseClient.new k config = Returns (c, cache) /\ caps c = k
                  /\ apiKey c = cfg_apiKey config.
Proof.
  intros Hdefault. unfold BaseClient.new. rewrite Hdefault. cbn.
  do 2 eexists. split; [reflexivity|]. split; reflexivity.
Qed.

Lemma new_keeps_key (k : Capabilities) (config : ClientConfig) (c : Client)
      (cache : option (LRUCache.t (option Charity))) :
  BaseClient.new k config = Returns (c, cache) ->
  caps c = k /\ apiKey c = cfg_apiKey config.
Proof.
  unfold BaseClient.new.
  destruct (cfg_enabled _) as [[|]|];
    try (destruct (new_LRUCache _ _); [|discriminate]);
    cbn; inversion 1; split; reflexivity.
Qed.

Lemma keyed_constructor (k : Capabilities) (message : string)
      (config : ClientConfig) :
  let made :=
    and_then (BaseClient.new k config)
             (fun '(c, cache) =>
                if CCEWClient.missing_key c
                then Throws (PlainError (mkJSError "Error" message))
                else Returns (c, cache)) in
  match made with
  | Returns (c, _) =>
      exists key, cfg_apiKey config = Some key /\ key <> ""
                  /\ caps c = k /\ apiKey c = Some key
                  /\ Str.is_empty key = false
  | Throws _ => True
  end
  /\ (cfg_apiKey config = None \/ cfg_apiKey config = Some "" ->
      exists e, made = Throws e)
  /\ (cfg_cache config = None ->
      forall key, cfg_apiKey config = Some key -> key <> "" ->
                  exists c cache, made = Returns (c, cache)).
Proof.
  cbv zeta. repeat match goal with |- _ /\ _ => split end.
  - destruct (BaseClient.new k config) as [[c cache]|e] eqn:Hnew; [|exact I].
    apply new_keeps_key in Hnew as [Hcaps Hkey]. cbn [and_then].
    unfold CCEWClient.missing_key. rewrite Hkey.
    destruct (cfg_apiKey config) as [key|]; [|exact I].
    destruct (Str.is_empty key) eqn:Hempty; [exact I|].
    exists key. repeat split; auto.
    intros ->. discriminate.
  - intros Hmissing.
    destruct (BaseClient.new k config) as [[c cache]|e] eqn:Hnew;
      [|eexists; reflexivity].
    apply new_keeps_key in Hnew as [_ Hkey]. cbn [and_then].
    unfold CCEWClient.missing_key. rewrite Hkey.
    destruct Hmissing as [-> | ->]; eexists; reflexivity.
  - intros Hdefault key Hsome Hfull.
    destruct (default_cache_is_made k config Hdefault) as (c & cache & -> & _ & Hkey).
    cbn [and_then]. unfold CCEWClient.missing_key. rewrite Hkey, Hsome.
    destruct (Str.is_empty key) eqn:Hempty.
    + apply is_empty_iff in Hempty. contradiction.
    + do 2 eexists. reflexivity.
Qed.

(** X20.  A CCEW or OSCR client exists only with a non-empty API key, and
    then every GET request it makes carries that key in the regulator's
    credential header beside [Accept: application/json]; without a key, or
    with an empty one, the constructor throws; with a key and the default
    cache configuration it returns a client.  A CCNI client sends the
    [Accept] header alone, and with the default cache configuration its
    constructor returns a client whatever the key. *)
Theorem constructed_clients_send_credentials (config : ClientConfig) :
  match CCEWClient.new config with
  | Returns (c, _) =>
      exists key, cfg_apiKey config = Some key /\ key <> ""
                  /\ forall endpoint,
                       req_headers (get_request c endpoint)
                       = [ ("Accept", "application/json");
                           ("Ocp-Apim-Subscription-Key", key) ]
  | Throws _ => True
  end
  /\ (cfg_apiKey config = None \/ cfg_apiKey config = Some "" ->
      exists e, CCEWClient.new config = Throws e)
  /\ (cfg_cache config = None ->
      forall key, cfg_apiKey config = Some key -> key <> "" ->
                  exists c cache, CCEWClient.new config = Returns (c, cache))
  /\ match OSCRClient.new config with
     | Returns (c, _) =>
         exists key, cfg_apiKey config = Some key /\ key <> ""
                     /\ forall endpoint,
                          req_headers (get_request c endpoint)
                          = [ ("Accept", "application/json");
                              ("x-functions-key", key) ]
     | Throws _ => True
     end
  /\ (cfg_apiKey config = None \/ cfg_apiKey config = Some "" ->
      exists e, OSCRClient.new config = Throws e)
  /\ (cfg_cache config = None ->
      forall key, cfg_apiKey config = Some key -> key <> "" ->
                  exists c cache, OSCRClient.new config = Returns (c, cache))
  /\ match CCNIClient.new config with
     | Returns (c, _) =>
         forall endpoint,
           req_headers (get_request c endpoint) = [ ("Accept", "application/json") ]
     | Throws _ => True
     end
  /\ (cfg_cache config = None ->
      exists c cache, CCNIClient.new config = Returns (c, cache)).
Proof.
  destruct (@keyed_constructor CCEWClient.capabilities
              "CCEW API requires an API key. Provide it via the apiKey config option."
              config) as (H1 & H2 & H3).
  destruct (@keyed_constructor OSCRClient.capabilities
              "OSCR API requires an API key. Provide it via the apiKey config option."
              config) as (H4 & H5 & H6).
  repeat match goal with |- _ /\ _ => split end;
    try assumption.
  - fold (CCEWClient.new config) in H1.
    destruct (CCEWClient.new config) as [[c cache]|e]; [|exact I].
    destruct H1 as (key & Hsome & Hfull & Hcaps & Hkey & Hempty).
    exists key. split; [exact Hsome|]. split; [exact Hfull|].
    intros endpoint. unfold get_request. cbn.
    rewrite Hcaps, Hkey. cbn. rewrite Hempty. reflexivity.
  - fold (OSCRClient.new config) in H4.
    destruct (OSCRClient.new config) as [[c cache]|e]; [|exact I].
    destruct H4 as (key & Hsome & Hfull & Hcaps & Hkey & Hempty).
    exists key. split; [exact Hsome|]. split; [exact Hfull|].
    intros endpoint. unfold get_request. cbn.
    rewrite Hcaps, Hkey. cbn. rewrite Hempty. reflexivity.
  - unfold CCNIClient.new.
    destruct (BaseClient.new CCNIClient.capabilities config) as [[c cache]|e] eqn:Hnew;
      [|exact I].
    apply new_keeps_key in Hnew as [Hcaps _].
    intros endpoint. unfold get_request. cbn. rewrite Hcaps. reflexivity.
  - intros Hdefault. unfold CCNIClient.new.
    destruct (default_cache_is_made CCNIClient.capabilities config Hdefault)
      as (c & cache & -> & _). eauto.
Qed.

(* ------------------------------------------------------------------ *)
(** *** Backoff *)

(** X21.  Backoff never shrinks: with a positive base delay, the delay
    before a later retry is at least the delay before an earlier one.  (A
    base delay of zero is left out: from attempt 1024 on the source
    multiplies it by [Infinity].) *)
Theorem calculateDelay_monotone (config : RetryConfig) (earlier later : nat) :
  0 < delayMs config -> (earlier <= later)%nat ->
  calculateDelay earlier config <= calculateDelay later config.
Proof.
  intros Hbase Horder. unfold calculateDelay.
  destruct (exponentialBackoff config ?? false); [|lia].
  assert (Hpow : 2 ^ Z.of_nat earlier <= 2 ^ Z.of_nat later)
    by (apply Z.pow_le_mono_r; lia).
  assert (delayMs config * 2 ^ Z.of_nat earlier
          <= delayMs config * 2 ^ Z.of_nat later) by nia.
  lia.
Qed.

(* ------------------------------------------------------------------ *)
(** *** The transport wrappers *)

Lemma new_calls_appended (w w' : World) (l : list Request) :
  fetch_calls w' = (fetch_calls w ++ l)%list -> new_calls w w' = l.
Proof.
  intros H. unfold new_calls, fetches. rewrite H.
  rewrite skipn_app, skipn_all, Nat.sub_diag. reflexivity.
Qed.

(** X22.  Whatever method or body the caller's options name, every
    request [httpGet] makes is a GET of the given address and every request
    [httpPost] makes is a POST of it that carries a body; both make at
    least one request. *)
Theorem httpGet_httpPost_requests (address : string) (body : Body)
        (options : HttpRequestOptions) (w : World) :
  let got := new_calls w (snd (httpGet address options w)) in
  let posted := new_calls w (snd (httpPost address body options w)) in
  got <> [] /\ posted <> []
  /\ Forall (fun req => method req = GET /\ url req = address) got
  /\ Forall (fun req => method req = POST /\ url req = address
                        /\ req_body req <> None) posted.
Proof.
  cbv zeta. unfold httpGet, httpPost.
  match goal with
  | |- context [httpRequest address (mkOptions (Some GET) ?h ?b ?t ?r) w] =>
      destruct (httpRequest_traced address (mkOptions (Some GET) h b t r) w)
        as (k & _ & Hget & _)
  end.
  match goal with
  | |- context [httpRequest address (mkOptions (Some POST) ?h ?b ?t ?r) w] =>
      destruct (httpRequest_traced address (mkOptions (Some POST) h b t r) w)
        as (k' & _ & Hpost & _)
  end.
  erewrite (@new_calls_appended w) by exact Hget.
  erewrite (@new_calls_appended w) by exact Hpost.
  repeat match goal with |- _ /\ _ => split end; try discriminate.
  - apply Forall_forall. intros req Hin. apply repeat_spec in Hin. subst req.
    split; reflexivity.
  - apply Forall_forall. intros req Hin. apply repeat_spec in Hin. subst req.
    repeat split. cbn. destruct body; discriminate.
Qed.

(* ------------------------------------------------------------------ *)
(** *** CCNI: what a search reads, and the operations built on the lookup *)

Lemma add_filter_effective (filters : Obj.t string) (params : Obj.t ParamValue)
      (k : string) :
  CCNIClient.add_filter filters params k
  = match effective_filter filters k with
    | Some v => Obj.set k (PString v) params
    | None => params
    end.
Proof.
  unfold CCNIClient.add_filter, effective_filter.
  destruct (assoc k filters) as [v|]; [|reflexivity].
  destruct (Str.is_empty v); reflexivity.
Qed.

Lemma add_filters_agree (f f' : Obj.t string) (names : list string) :
  (forall k, In k names -> effective_filter f k = effective_filter f' k) ->
  forall params,
    fold_left (CCNIClient.add_filter f) names params
    = fold_left (CCNIClient.add_filter f') names params.
Proof.
  induction names as [|k names IH]; intros Hsame params; [reflexivity|].
  simpl. rewrite !add_filter_effective, (Hsame k (or_introl eq_refl)).
  apply IH. intros k' Hin. apply Hsame. now right.
Qed.

(** X23.  A CCNI search reads the text, the page and the non-empty values
    of seven filters, and nothing else: two queries that agree on these
    make the same requests and give the same result, whatever their page
    size and their other filters. *)
Theorem CCNI_search_reads_seven_filters (c : Client) (q q' : SearchQuery) (w : World) :
  q_text q ?? "" = q_text q' ?? "" ->
  q_page q ?? 1 = q_page q' ?? 1 ->
  (forall k, In k ccni_filter_names ->
             effective_filter (q_filters q ?? []) k
             = effective_filter (q_filters q' ?? []) k) ->
  CCNIClient.search c q w = CCNIClient.search c q' w.
Proof.
  intros Htext Hpage Hfilters.
  unfold CCNIClient.search, CCNIClient.search_endpoint. cbv zeta.
  rewrite Htext, Hpage.
  rewrite (@add_filters_agree (q_filters q ?? []) (q_filters q' ?? [])
             ccni_filter_names Hfilters).
  reflexivity.
Qed.

(** X24.  The CCNI [getTrustees] and [getFinancialHistory] are views of
    [getCharity]: they leave the world as the lookup leaves it, throw
    exactly what it throws and give the empty list when it finds nothing;
    for a record that was found, the financial history holds one year when
    the record has a financial year end, and is empty otherwise. *)
Theorem CCNI_details_follow_getCharity (c : Client) (id : string) (w : World) :
  let trustees := CCNIClient.getTrustees c id w in
  let history := CCNIClient.getFinancialHistory c id w in
  snd trustees = snd (CCNIClient.getCharity c id w)
  /\ snd history = snd (CCNIClient.getCharity c id w)
  /\ match fst (CCNIClient.getCharity c id w) with
     | Throws e => fst trustees = Throws e /\ fst history = Throws e
     | Returns None => fst trustees = Returns [] /\ fst history = Returns []
     | Returns (Some charity) =>
         exists years,
           fst history = Returns years
           /\ List.length years
              = if truthy (_raw charity)@"dateFinancialYearEnd" then 1%nat else 0%nat
     end.
Proof.
  cbv zeta. unfold CCNIClient.getTrustees, CCNIClient.getFinancialHistory, bind.
  destruct (CCNIClient.getCharity c id w) as [[[charity|]|e] w1]; cbn [fst snd];
    [|repeat split|repeat split].
  destruct (truthy (_raw charity)@"dateFinancialYearEnd") eqn:Hdate; cbn [negb];
    repeat split; eexists; split; reflexivity.
Qed.

End PagesExtra.

Lemma calculateDelay_monotone_witness :
  Transport.calculateDelay 1 Transport.DEFAULT_RETRY_CONFIG
  <= Transport.calculateDelay 2 Transport.DEFAULT_RETRY_CONFIG.
Proof.
  apply (@calculateDelay_monotone Transport.DEFAULT_RETRY_CONFIG 1%nat 2%nat).
  - simpl. lia.
  - lia.
Defined.

Lemma CCNI_search_reads_seven_filters_witness :
  CCNIClient.search (P := search_upstream) Sample.ccni busy_query Sample.cached_world
  = CCNIClient.search (P := search_upstream) Sample.ccni plain_query
                      Sample.cached_world.
Proof.
  apply (@CCNI_search_reads_seven_filters search_upstream Sample.ccni
           busy_query plain_query Sample.cached_world).
  - reflexivity.
  - reflexivity.
  - intros k Hin. simpl in Hin.
    destruct Hin as [<-|[<-|[<-|[<-|[<-|[<-|[<-|[]]]]]]]]; reflexivity.
Defined.

(* ================================================================== *)
(** ** What the operations send and what a search throws *)

Section RequestsExtra.

Context {P : Platform}.
Import Http Transport BaseClient.

Lemma only_gets_same (c : Client) (w w' : World) :
  fetch_calls w' = fetch_calls w -> only_gets c w w'.
Proof. intros H. exists []. rewrite app_nil_r. now split. Qed.

Lemma only_gets_then (c : Client) (w w1 w2 : World) :
  only_gets c w w1 -> only_gets c w1 w2 -> only_gets c w w2.
Proof.
  intros (l1 & H1 & F1) (l2 & H2 & F2). exists (l1 ++ l2)%list. split.
  - rewrite H2, H1, app_assoc. reflexivity.
  - apply Forall_app. now split.
Qed.

Lemma get_only_gets (c : Client) (endpoint : string) (w : World) :
  only_gets c w (snd (get c endpoint w)).
Proof.
  unfold get.
  destruct (request_world c endpoint (mkOptions (Some GET) None None None None) w)
    as (opts & Hreq & _ & Hw & _).
  rewrite Hw.
  destruct (httpRequest_traced (baseUrl c ++ endpoint) opts w)
    as (k & _ & Hcalls & _).
  rewrite <- Hreq, get_request_shape in Hcalls.
  eexists. split; [exact Hcalls|].
  apply Forall_forall. intros req Hin. apply repeat_spec in Hin. subst req.
  now exists endpoint.
Qed.

Lemma bind_only_gets {A B} (c : Client) (m : M A) (k : A -> M B) (w : World) :
  only_gets c w (snd (m w)) ->
  (forall x w1, only_gets c w1 (snd (k x w1))) ->
  only_gets c w (snd (bind m k w)).
Proof.
  intros Hm Hk. unfold bind. destruct (m w) as [[x|e] w1]; simpl in *; [|exact Hm].
  eapply only_gets_then; eauto.
Qed.

Lemma try_only_gets {A} (c : Client) (m : M A) (h : Exn -> M A) (w : World) :
  only_gets c w (snd (m w)) ->
  (forall e w1, only_gets c w1 (snd (h e w1))) ->
  only_gets c w (snd (try_catch m h w)).
Proof.
  intros Hm Hh. unfold try_catch. destruct (m w) as [[x|e] w1]; simpl in *; [exact Hm|].
  eapply only_gets_then; eauto.
Qed.

Lemma getCached_only_gets (c : Client) (key : string) (w : World) :
  only_gets c w (snd (getCached key w)).
Proof.
  apply only_gets_same.
  destruct (getCached key w) as [o w1] eqn:H.
  now destruct (getCached_frame _ _ H) as (Hcalls & _).
Qed.

Lemma setCache_only_gets (c : Client) (key : string) (v : option Charity) (w : World) :
  only_gets c w (snd (setCache key v w)).
Proof. apply only_gets_same, setCache_frame. Qed.

Ltac sends_gets :=
  cbv zeta;
  repeat first
    [ apply get_only_gets
    | apply getCached_only_gets
    | apply setCache_only_gets
    | apply bind_only_gets; [|intros ? ?; cbv beta zeta]
    | apply try_only_gets; [|intros ? ?; cbv beta zeta]
    | match goal with
      | |- only_gets _ _ (snd (match ?x with _ => _ end _)) => destruct x
      end
    | apply only_gets_same; reflexivity ].

Lemma CCEW_getCharity_gets (c : Client) (id : string) (w : World) :
  only_gets c w (snd (CCEWClient.getCharity c id w)).
Proof. unfold CCEWClient.getCharity. sends_gets. Qed.

Lemma CCNI_getCharity_gets (c : Client) (id : string) (w : World) :
  only_gets c w (snd (CCNIClient.getCharity c id w)).
Proof. unfold CCNIClient.getCharity. sends_gets. Qed.

Lemma OSCR_getCharity_gets (c : Client) (id : string) (w : World) :
  only_gets c w (snd (OSCRClient.getCharity c id w)).
Proof. unfold OSCRClient.getCharity. sends_gets. Qed.

Lemma OSCR_getAnnualReturnsById_gets (c : Client) (charityId : ParamValue) (w : World) :
  only_gets c w (snd (OSCRClient.getAnnualReturnsById c charityId w)).
Proof. unfold OSCRClient.getAnnualReturnsById. sends_gets. Qed.

Lemma OSCR_getAnnualReturns_gets (c : Client) (id : string) (w : World) :
  only_gets c w (snd (OSCRClient.getAnnualReturns c id w)).
Proof.
  unfold OSCRClient.getAnnualReturns.
  apply bind_only_gets; [apply OSCR_getCharity_gets|].
  intros [charity|] w1; [|apply only_gets_same; reflexivity].
  apply bind_only_gets; [apply OSCR_getAnnualReturnsById_gets|].
  intros l w2. apply only_gets_same. reflexivity.
Qed.

Lemma OSCR_getLatestAnnualReturnRaw_gets (c : Client) (charityId : ParamValue)
      (w : World) :
  only_gets c w (snd (OSCRClient.getLatestAnnualReturnRaw c charityId w)).
Proof.
  unfold OSCRClient.getLatestAnnualReturnRaw.
  apply bind_only_gets; [apply OSCR_getAnnualReturnsById_gets|].
  intros l w1. apply only_gets_same.
  match goal with
  | |- fetch_calls ?x = _ => replace x with w1; [reflexivity|symmetry; leaves_world]
  end.
Qed.

(** X25.  Every operation of every client sends nothing but the GET
    requests of the request core: no body, an address under the client's
    base URL, the client's timeout, and the [Accept] and credential headers
    only.  This holds for the six standard operations on any regulator
    (where OSCR lacks one, nothing is sent) and for the lookups with a
    linked or subsidiary number and the OSCR annual-return operations. *)
Theorem operations_only_get (c : Client) (w : World) :
  (forall query, only_gets c w (snd (Client.search c query w)))
  /\ (forall id, only_gets c w (snd (Client.getCharity c id w)))
  /\ (forall name page pageSize,
         only_gets c w (snd (Client.searchByName c name page pageSize w)))
  /\ (forall id, only_gets c w (snd (Client.getTrustees c id w)))
  /\ (forall id, only_gets c w (snd (Client.getFinancialHistory c id w)))
  /\ (forall id, only_gets c w (snd (Client.getOtherRegulators c id w)))
  /\ (forall number other,
         only_gets c w (snd (CCEWClient.getCharityWithLinked c number other w)))
  /\ (forall number other,
         only_gets c w (snd (CCNIClient.getCharityWithSubsidiary c number other w)))
  /\ (forall id, only_gets c w (snd (OSCRClient.getAnnualReturns c id w)))
  /\ (forall id, only_gets c w (snd (OSCRClient.getCharityWithFinancials c id w))).
Proof.
  repeat match goal with |- _ /\ _ => split end; intros.
  - unfold Client.search, Client.methods_of.
    destruct (cap_regulator (caps c));
      cbn [Client.methods Client.m_search Client.invoke].
    + unfold CCEWClient.search. sends_gets.
    + unfold OSCRClient.search. sends_gets.
    + unfold CCNIClient.search. sends_gets.
  - unfold Client.getCharity, Client.methods_of.
    destruct (cap_regulator (caps c));
      cbn [Client.methods Client.m_getCharity Client.invoke].
    + apply CCEW_getCharity_gets.
    + apply OSCR_getCharity_gets.
    + apply CCNI_getCharity_gets.
  - unfold Client.searchByName, Client.methods_of.
    destruct (cap_regulator (caps c));
      cbn [Client.methods Client.m_searchByName Client.invoke].
    + unfold CCEWClient.searchByName. sends_gets.
    + apply only_gets_same. reflexivity.
    + unfold CCNIClient.searchByName, CCNIClient.search. sends_gets.
  - unfold Client.getTrustees, Client.methods_of.
    destruct (cap_regulator (caps c));
      cbn [Client.methods Client.m_getTrustees Client.invoke].
    + unfold CCEWClient.getTrustees. sends_gets.
    + apply only_gets_same. reflexivity.
    + unfold CCNIClient.getTrustees.
      apply bind_only_gets; [apply CCNI_getCharity_gets|].
      intros [charity|] w1; apply only_gets_same; reflexivity.
  - unfold Client.getFinancialHistory, Client.methods_of.
    destruct (cap_regulator (caps c));
      cbn [Client.methods Client.m_getFinancialHistory Client.invoke].
    + unfold CCEWClient.getFinancialHistory. sends_gets.
    + apply only_gets_same. reflexivity.
    + unfold CCNIClient.getFinancialHistory.
      apply bind_only_gets; [apply CCNI_getCharity_gets|].
      intros [charity|] w1; [|apply only_gets_same; reflexivity].
      destruct (negb (truthy (_raw charity)@"dateFinancialYearEnd"));
        apply only_gets_same; reflexivity.
  - unfold Client.getOtherRegulators, Client.methods_of.
    destruct (cap_regulator (caps c));
      cbn [Client.methods Client.m_getOtherRegulators Client.invoke].
    + unfold CCEWClient.getOtherRegulators. sends_gets.
    + apply only_gets_same. reflexivity.
    + apply only_gets_same. reflexivity.
  - unfold CCEWClient.getCharityWithLinked. sends_gets.
  - unfold CCNIClient.getCharityWithSubsidiary. sends_gets.
  - apply OSCR_getAnnualReturns_gets.
  - unfold OSCRClient.getCharityWithFinancials.
    apply bind_only_gets; [apply OSCR_getCharity_gets|].
    intros [charity|] w1; [|apply only_gets_same; reflexivity].
    apply bind_only_gets; [apply OSCR_getAnnualReturns_gets|].
    intros [|y l] w2; [apply only_gets_same; reflexivity|].
    apply bind_only_gets; [apply OSCR_getLatestAnnualReturnRaw_gets|].
    intros [latest|] w3; [|apply only_gets_same; reflexivity].
    destruct (truthy (Some latest)); apply only_gets_same; reflexivity.
Qed.

(* ------------------------------------------------------------------ *)
(** *** What a search throws *)

Lemma transforms_throw_TypeError (raw : json) (e : Exn) :
  CCEWTransform.transformSearchResponse raw = Throws e
  \/ CCNITransform.transformSearchResponse raw = Throws e
  \/ OSCRTransform.transformAllCharitiesResponse raw = Throws e ->
  exists message, e = TypeError message.
Proof.
  intros [H|[H|H]]; eapply only_TypeError_throws; try exact H.
  - apply CCEW_transformSearchResponse_only_TypeError.
  - apply CCNI_transformSearchResponse_only_TypeError.
  - apply OSCR_transformAllCharitiesResponse_only_TypeError.
Qed.

Lemma search_shape_throws (c : Client) (endpoint : string)
      (transform : json -> Outcome (SearchResult Charity)) (w : World) :
  (forall raw e, transform raw = Throws e -> exists message, e = TypeError message) ->
  match fst ((response <- get c endpoint ;; lift (transform (data response))) w) with
  | Throws e => classified_or_TypeError e
  | Returns _ => True
  end.
Proof.
  intros Ht. unfold bind.
  pose proof (@get_throws P c endpoint w) as Hget.
  destruct (get c endpoint w) as [[resp|e] w1]; cbn [fst] in *.
  - unfold lift. cbn [fst]. specialize (Ht (data resp)).
    destruct (transform (data resp)) as [r|e]; [exact I|].
    right. now apply Ht.
  - left. now apply Hget.
Qed.

(** X26.  A search, on any client, throws nothing but an error of the
    taxonomy raised by the request core or a [TypeError]: the latter when
    the body of a successful response lacks the array of records, or when
    the client has no [searchByName]. *)
Theorem search_throws (c : Client) (query : SearchQuery) (name : string)
        (page pageSize : option Z) (w : World) :
  match fst (Client.search c query w) with
  | Throws e => classified_or_TypeError e
  | Returns _ => True
  end
  /\ match fst (Client.searchByName c name page pageSize w) with
     | Throws e => classified_or_TypeError e
     | Returns _ => True
     end.
Proof.
  unfold Client.search, Client.searchByName, Client.methods_of.
  destruct (cap_regulator (caps c));
    cbn [Client.methods Client.m_search Client.m_searchByName Client.invoke];
    split;
    try (apply search_shape_throws; intros raw e H;
         apply (@transforms_throw_TypeError raw e); tauto).
  right. eexists. reflexivity.
Qed.

End RequestsExtra.
(* ================================================================== *)
(** ** Identifier normalization: the lookup and the [id] of the record *)

Section IdentifiersLookup.

Context {P : Platform}.
Import Http Transport BaseClient.










End IdentifiersLookup.


